(** * fetch_arxiv: a shallow embedding of [scripts/fetch_arxiv.py]

    The script builds one arXiv API request, reads the Atom answer, turns
    every entry into a flat record and writes the records as JSON, or a
    fallback object when anything before went wrong.

    Python values are modelled as follows.
    - [str] is a sequence of Unicode code points, [list N].  A Python [str]
      may hold lone surrogates (command line arguments and environment
      variables are decoded with [surrogateescape]); the UTF-8 codec refuses
      them, and that refusal is part of the model.
    - [None] is [option]'s [None]; an exception is a value of [exn].
    - The file system, the console and the clock are an explicit state that
      every effectful function threads through. *)

From Stdlib Require Import NArith ZArith Lia Bool String Ascii List.
From Stdlib Require Import DecimalFacts DecimalPos DecimalZ.
From stdpp Require Import base option list gmap.
Import ListNotations.

Set Warnings "-register-all".

Local Open Scope N_scope.

(** ** Python strings *)

Abbreviation str := (list N).

(** Code points of an ASCII literal. *)
Fixpoint codes (s : string) : str :=
  match s with
  | EmptyString => []
  | String a s' => N_of_ascii a :: codes s'
  end.

(** Truthiness of a string: [bool(s)]. *)
Definition truthy (s : str) : bool :=
  match s with [] => false | _ :: _ => true end.

(** [str.isspace] on one code point: the interpreter's white space table. *)
Definition isspace (c : N) : bool :=
  ((9 <=? c) && (c <=? 13)) || ((28 <=? c) && (c <=? 32))
  || (c =? 0x85) || (c =? 0xA0) || (c =? 0x1680)
  || ((0x2000 <=? c) && (c <=? 0x200A))
  || (c =? 0x2028) || (c =? 0x2029) || (c =? 0x202F)
  || (c =? 0x205F) || (c =? 0x3000).

Fixpoint lstrip (s : str) : str :=
  match s with
  | [] => []
  | c :: s' => if isspace c then lstrip s' else s
  end.

Definition rstrip (s : str) : str := rev (lstrip (rev s)).

(** [s.strip()] *)
Definition strip (s : str) : str := rstrip (lstrip s).

(** [s.startswith(p)] *)
Fixpoint startswith (s p : str) {struct p} : bool :=
  match p, s with
  | [], _ => true
  | _ :: _, [] => false
  | a :: p', b :: s' => (b =? a) && startswith s' p'
  end.

(** [s.endswith(p)] *)
Definition endswith (s p : str) : bool := startswith (rev s) (rev p).

(** [s.replace(old, new)] for a non-empty [old]: the string is scanned from
    the left, every occurrence found is replaced and the scan goes on behind
    it.  [skip] counts the characters of a matched occurrence still to be
    passed over. *)
Fixpoint replace_from (old new : str) (skip : nat) (s : str) : str :=
  match s with
  | [] => []
  | c :: s' =>
      match skip with
      | S k => replace_from old new k s'
      | O =>
          if startswith s old
          then new ++ replace_from old new (length old - 1) s'
          else c :: replace_from old new 0 s'
      end
  end.

(** [s.replace(old, new)]; an empty [old] matches before every character and
    at the end. *)
Definition replace (s old new : str) : str :=
  match old with
  | [] => new ++ flat_map (fun c => c :: new) s
  | _ :: _ => replace_from old new 0 s
  end.

(** ** The parsed document

    [xml.etree.ElementTree.Element], as far as the script looks at it: the
    qualified tag, the text before the first child ([None] when there is
    none) and the children in document order. *)

Inductive Element : Type :=
  mkElement (tag : str) (text : option str) (children : list Element).

Definition tag (e : Element) : str := let 'mkElement t _ _ := e in t.
Definition text (e : Element) : option str := let 'mkElement _ t _ := e in t.
Definition children (e : Element) : list Element :=
  let 'mkElement _ _ c := e in c.

Definition str_eqb (a b : str) : bool := bool_decide (a = b).

(** [el.findall(t)]: the direct children with tag [t], in document order. *)
Definition findall (el : Element) (t : str) : list Element :=
  List.filter (fun c => str_eqb (tag c) t) (children el).

(** [el.find(t)]: the first such child, or [None]. *)
Definition find (el : Element) (t : str) : option Element :=
  List.find (fun c => str_eqb (tag c) t) (children el).

Definition ATOM : str := codes "{http://www.w3.org/2005/Atom}".

(** ** [fetch]: the per-entry normalisation *)

(** The local helper [_text] of [fetch]; 10 is the line feed, 32 the space. *)
Definition _text (el : option Element) : str :=
  match el with
  | Some e =>
      match text e with
      | Some t => if truthy t then replace (strip t) [10] [32] else []
      | None => []
      end
  | None => []
  end.

(** Lines 58 to 60: the document link derived from the identifier. *)
Definition fetch_pdf (id_url : str) : str :=
  let pdf := replace id_url (codes "/abs/") (codes "/pdf/") in
  if truthy pdf && negb (endswith pdf (codes ".pdf"))
  then pdf ++ codes ".pdf"
  else pdf.

(** ** Exceptions and results

    An exception is an instance of [Exception]: its class name and the text
    [str(e)].  What is no [Exception] ([KeyboardInterrupt], [SystemExit])
    is outside the model.  The texts of the exceptions the model raises
    itself are abridged. *)

Record exn : Type := Exn { exn_class : string; exn_str : str }.

Inductive result (A : Type) : Type :=
| Ok (a : A)
| Raise (e : exn).
Arguments Ok {A} a.
Arguments Raise {A} e.

#[global] Instance result_ret : MRet result := fun A a => Ok a.
#[global] Instance result_bind : MBind result := fun A B f m =>
  match m with
  | Ok a => f a
  | Raise e => Raise e
  end.

(** ** The UTF-8 codec and [urllib.parse.quote] *)

Definition is_surrogate (c : N) : bool := (0xD800 <=? c) && (c <=? 0xDFFF).

(** The bytes of one code point; [None] where the codec raises
    [UnicodeEncodeError]. *)
Definition utf8_char (c : N) : option (list N) :=
  if c <? 0x80 then Some [c]
  else if c <? 0x800 then
    Some [N.lor 0xC0 (N.shiftr c 6); N.lor 0x80 (N.land c 0x3F)]
  else if is_surrogate c then None
  else if c <? 0x10000 then
    Some [N.lor 0xE0 (N.shiftr c 12);
          N.lor 0x80 (N.land (N.shiftr c 6) 0x3F);
          N.lor 0x80 (N.land c 0x3F)]
  else if c <? 0x110000 then
    Some [N.lor 0xF0 (N.shiftr c 18);
          N.lor 0x80 (N.land (N.shiftr c 12) 0x3F);
          N.lor 0x80 (N.land (N.shiftr c 6) 0x3F);
          N.lor 0x80 (N.land c 0x3F)]
  else None.

Fixpoint utf8_bytes (s : str) : option (list N) :=
  match s with
  | [] => Some []
  | c :: s' =>
      match utf8_char c, utf8_bytes s' with
      | Some b, Some bs => Some (b ++ bs)
      | _, _ => None
      end
  end.

Definition UnicodeEncodeError : exn :=
  Exn "UnicodeEncodeError"
      (codes "'utf-8' codec can't encode character: surrogates not allowed").

(** [s.encode('utf-8', 'strict')] *)
Definition encode_utf8 (s : str) : result (list N) :=
  match utf8_bytes s with
  | Some bs => Ok bs
  | None => Raise UnicodeEncodeError
  end.

Definition isdigit (c : N) : bool := (48 <=? c) && (c <=? 57).
Definition isalpha_ascii (c : N) : bool :=
  ((65 <=? c) && (c <=? 90)) || ((97 <=? c) && (c <=? 122)).

(** The bytes [quote] leaves alone: letters, digits, [_.-~] and the
    default [safe='/']. *)
Definition quote_safe (b : N) : bool :=
  isalpha_ascii b || isdigit b
  || (b =? 95) || (b =? 46) || (b =? 45) || (b =? 126) || (b =? 47).

Definition hex_upper (d : N) : N := if d <? 10 then 48 + d else 55 + d.

Definition quote_byte (b : N) : str :=
  if quote_safe b then [b]
  else [37; hex_upper (N.shiftr b 4); hex_upper (N.land b 15)].

(** [urllib.parse.quote(string)] *)
Definition quote (s : str) : result str :=
  bs ← encode_utf8 s; Ok (flat_map quote_byte bs).

(** The value of a hexadecimal digit, either case. *)
Definition hexval (c : N) : option N :=
  if isdigit c then Some (c - 48)
  else if (65 <=? c) && (c <=? 70) then Some (c - 55)
  else if (97 <=? c) && (c <=? 102) then Some (c - 87)
  else None.

(** [urllib.parse.unquote_to_bytes], the inverse the server applies. *)
Fixpoint unquote_to_bytes (s : str) : list N :=
  match s with
  | [] => []
  | c :: s' =>
      if c =? 37 then
        match s' with
        | h :: ((l :: s'') as t) =>
            match hexval h, hexval l with
            | Some x, Some y => (16 * x + y) :: unquote_to_bytes s''
            | _, _ => c :: h :: unquote_to_bytes t
            end
        | _ => c :: unquote_to_bytes s'
        end
      else c :: unquote_to_bytes s'
  end.

(** ** Integers as text *)

Fixpoint uint_codes (d : Decimal.uint) : str :=
  match d with
  | Decimal.Nil => []
  | Decimal.D0 d => 48 :: uint_codes d
  | Decimal.D1 d => 49 :: uint_codes d
  | Decimal.D2 d => 50 :: uint_codes d
  | Decimal.D3 d => 51 :: uint_codes d
  | Decimal.D4 d => 52 :: uint_codes d
  | Decimal.D5 d => 53 :: uint_codes d
  | Decimal.D6 d => 54 :: uint_codes d
  | Decimal.D7 d => 55 :: uint_codes d
  | Decimal.D8 d => 56 :: uint_codes d
  | Decimal.D9 d => 57 :: uint_codes d
  end.

(** The decimal text of an [int], with its sign.  [str_of_int] below is
    [str(n)], which adds the interpreter's limit on the number of digits. *)
Definition format_int (z : Z) : str :=
  match Z.to_int z with
  | Decimal.Pos d => uint_codes d
  | Decimal.Neg d => 45 :: uint_codes d
  end.

(** The longest run of decimal digits at the front, and what follows. *)
Fixpoint span_digits (s : str) : Decimal.uint * str :=
  match s with
  | [] => (Decimal.Nil, [])
  | c :: s' =>
      let '(d, r) := span_digits s' in
      if c =? 48 then (Decimal.D0 d, r)
      else if c =? 49 then (Decimal.D1 d, r)
      else if c =? 50 then (Decimal.D2 d, r)
      else if c =? 51 then (Decimal.D3 d, r)
      else if c =? 52 then (Decimal.D4 d, r)
      else if c =? 53 then (Decimal.D5 d, r)
      else if c =? 54 then (Decimal.D6 d, r)
      else if c =? 55 then (Decimal.D7 d, r)
      else if c =? 56 then (Decimal.D8 d, r)
      else if c =? 57 then (Decimal.D9 d, r)
      else (Decimal.Nil, s)
  end.

(** ** JSON values, [json.dump] and [json.load]

    A [dict] is its items in insertion order; [JFloat] keeps the literal of
    a number with a fraction or an exponent, which the script never writes. *)

Inductive json : Type :=
| JNull
| JBool (b : bool)
| JInt (z : Z)
| JFloat (literal : str)
| JStr (s : str)
| JList (l : list json)
| JDict (items : list (str * json)).

(** [d[k] = v] on a dictionary. *)
Fixpoint dict_set (d : list (str * json)) (k : str) (v : json)
  : list (str * json) :=
  match d with
  | [] => [(k, v)]
  | (k', v') :: d' =>
      if str_eqb k' k then (k', v) :: d' else (k', v') :: dict_set d' k v
  end.

(** [dict(pairs)] *)
Definition dict_of_pairs (pairs : list (str * json)) : list (str * json) :=
  fold_left (fun d kv => dict_set d (fst kv) (snd kv)) pairs [].

Definition hex_lower (d : N) : N := if d <? 10 then 48 + d else 87 + d.

(** One character of a string under [ensure_ascii=False]: the quote, the
    backslash and the control characters are escaped, all else is kept. *)
Definition escape_char (c : N) : str :=
  if c =? 34 then [92; 34]
  else if c =? 92 then [92; 92]
  else if c =? 10 then [92; 110]
  else if c =? 13 then [92; 114]
  else if c =? 9 then [92; 116]
  else if c =? 8 then [92; 98]
  else if c =? 12 then [92; 102]
  else if c <? 32 then
    [92; 117; 48; 48; hex_lower (N.shiftr c 4); hex_lower (N.land c 15)]
  else [c].

(** [json.encoder.encode_basestring] *)
Definition encode_basestring (s : str) : str :=
  34 :: flat_map escape_char s ++ [34].

(** A line feed and [indent * level] spaces, for [indent=2]. *)
Definition newline_indent (level : nat) : str :=
  10 :: List.repeat 32 (2 * level).

(** The loop of [_iterencode_list] over a list that is not empty: the
    bracket and a new line before the first element, a comma and a new line
    before every other, a new line and the closing bracket at the end.
    [enc] writes one element. *)
Fixpoint dump_list_items (enc : json -> str) (level : nat) (first : bool)
    (l : list json) : str :=
  match l with
  | [] => newline_indent level ++ [93]
  | x :: l' =>
      (if first then 91 :: newline_indent (S level)
       else 44 :: newline_indent (S level))
      ++ enc x ++ dump_list_items enc level false l'
  end.

(** The loop of [_iterencode_dict], likewise, with [key: value] items. *)
Fixpoint dump_dict_items (enc : json -> str) (level : nat) (first : bool)
    (d : list (str * json)) : str :=
  match d with
  | [] => newline_indent level ++ [125]
  | kx :: d' =>
      (if first then 123 :: newline_indent (S level)
       else 44 :: newline_indent (S level))
      ++ encode_basestring (fst kx) ++ [58; 32]
      ++ enc (snd kx) ++ dump_dict_items enc level false d'
  end.

(** The text [json.dump(v, f, ensure_ascii=False, indent=2)] writes, for a
    value at nesting depth [level]. *)
Fixpoint dumps (level : nat) (v : json) : str :=
  match v with
  | JNull => codes "null"
  | JBool true => codes "true"
  | JBool false => codes "false"
  | JInt z => format_int z
  | JFloat literal => literal
  | JStr s => encode_basestring s
  | JList [] => codes "[]"
  | JList l => dump_list_items (dumps (S level)) level true l
  | JDict [] => codes "{}"
  | JDict d => dump_dict_items (dumps (S level)) level true d
  end.

(** JSON white space: space, tab, line feed, carriage return. *)
Definition json_ws (c : N) : bool :=
  (c =? 32) || (c =? 9) || (c =? 10) || (c =? 13).

Fixpoint skip_ws (s : str) : str :=
  match s with
  | [] => []
  | c :: s' => if json_ws c then skip_ws s' else s
  end.

(** Four hexadecimal digits, as after a backslash and [u]. *)
Definition decode_uXXXX (s : str) : option N :=
  match s with
  | a :: b :: c :: d :: _ =>
      match hexval a, hexval b, hexval c, hexval d with
      | Some x, Some y, Some z, Some w =>
          Some (4096 * x + 256 * y + 16 * z + w)
      | _, _, _, _ => None
      end
  | _ => None
  end.

(** The character behind a backslash, other than [u]. *)
Definition BACKSLASH (c : N) : option N :=
  if c =? 34 then Some 34
  else if c =? 92 then Some 92
  else if c =? 47 then Some 47
  else if c =? 98 then Some 8
  else if c =? 102 then Some 12
  else if c =? 110 then Some 10
  else if c =? 114 then Some 13
  else if c =? 116 then Some 9
  else None.

Definition cons_fst (c : N) (r : option (str * str)) : option (str * str) :=
  match r with
  | Some (k, rest) => Some (c :: k, rest)
  | None => None
  end.

(** [json.decoder.scanstring(s, end, strict=True)], entered behind the
    opening quote: the decoded string and the text behind the closing
    quote; [None] where the decoder raises [JSONDecodeError]. *)
Fixpoint scanstring (s : str) : option (str * str) :=
  match s with
  | [] => None
  | c :: s1 =>
      if c =? 34 then Some ([], s1)
      else if c =? 92 then
        match s1 with
        | [] => None
        | e :: s2 =>
            if e =? 117 then
              match decode_uXXXX s2, s2 with
              | Some uni, _ :: _ :: _ :: _ :: s6 =>
                  let single := cons_fst uni (scanstring s6) in
                  if (0xD800 <=? uni) && (uni <=? 0xDBFF) then
                    match s6 with
                    | 92 :: 117 :: ((_ :: _ :: _ :: _ :: s12) as s8) =>
                        match decode_uXXXX s8 with
                        | Some uni2 =>
                            if (0xDC00 <=? uni2) && (uni2 <=? 0xDFFF) then
                              cons_fst
                                (0x10000 +
                                 N.lor (N.shiftl (uni - 0xD800) 10)
                                       (uni2 - 0xDC00))
                                (scanstring s12)
                            else single
                        | None => None
                        end
                    | _ => single
                    end
                  else single
              | _, _ => None
              end
            else
              match BACKSLASH e with
              | Some ch => cons_fst ch (scanstring s2)
              | None => None
              end
        end
      else if c <? 32 then None
      else cons_fst c (scanstring s1)
  end.

(** The integer part of a number: [0], or a digit run that does not start
    with [0]. *)
Definition scan_int_part (s : str) : option (Decimal.uint * str) :=
  match s with
  | [] => None
  | c :: s' =>
      if c =? 48 then Some (Decimal.D0 Decimal.Nil, s')
      else if isdigit c then Some (span_digits s)
      else None
  end.

(** A fraction: a dot and at least one digit. *)
Definition scan_frac (s : str) : option (str * str) :=
  match s with
  | [] => None
  | c :: s' =>
      if c =? 46 then
        match span_digits s' with
        | (Decimal.Nil, _) => None
        | (d, r) => Some (46 :: uint_codes d, r)
        end
      else None
  end.

(** An exponent: [e] or [E], an optional sign and at least one digit. *)
Definition scan_exp (s : str) : option (str * str) :=
  match s with
  | [] => None
  | c :: s' =>
      if (c =? 101) || (c =? 69) then
        let '(sign, s'') :=
          match s' with
          | x :: t => if (x =? 43) || (x =? 45) then ([x], t) else ([], s')
          | [] => ([], s')
          end in
        match span_digits s'' with
        | (Decimal.Nil, _) => None
        | (d, r) => Some (c :: sign ++ uint_codes d, r)
        end
      else None
  end.

(** [NUMBER_RE.match] and the conversion behind it: an [int] unless a
    fraction or an exponent is present. *)
Definition match_number (s : str) : option (json * str) :=
  let '(neg, s1) :=
    match s with
    | [] => (false, s)
    | c :: t => if c =? 45 then (true, t) else (false, s)
    end in
  match scan_int_part s1 with
  | None => None
  | Some (d, r) =>
      let lit := (if neg then [45] else []) ++ uint_codes d in
      match scan_frac r with
      | Some (f, r1) =>
          match scan_exp r1 with
          | Some (e, r2) => Some (JFloat (lit ++ f ++ e), r2)
          | None => Some (JFloat (lit ++ f), r1)
          end
      | None =>
          match scan_exp r with
          | Some (e, r2) => Some (JFloat (lit ++ e), r2)
          | None =>
              Some (JInt (Z.of_int (if neg then Decimal.Neg d
                                    else Decimal.Pos d)), r)
          end
      end
  end.

(** A fixed word at the front of the text. *)
Definition literal (word : string) (v : json) (s : str)
  : option (json * str) :=
  if startswith s (codes word)
  then Some (v, drop (length (codes word)) s)
  else None.

(** [scan_once], [JSONArray] and [JSONObject] of [json.decoder]; [fuel]
    bounds the number of nested calls.  [array_loop] stands at the start of
    an element, [object_loop] behind the opening quote of a key. *)
Fixpoint scan_once (fuel : nat) (s : str) : option (json * str) :=
  match fuel with
  | O => None
  | S n =>
      match s with
      | [] => None
      | c :: s' =>
          if c =? 34 then
            match scanstring s' with
            | Some (k, r) => Some (JStr k, r)
            | None => None
            end
          else if c =? 123 then
            match skip_ws s' with
            | [] => None
            | c1 :: r =>
                if c1 =? 125 then Some (JDict [], r)
                else if c1 =? 34 then
                  match object_loop n r with
                  | Some (pairs, r') =>
                      Some (JDict (dict_of_pairs pairs), r')
                  | None => None
                  end
                else None
            end
          else if c =? 91 then
            match skip_ws s' with
            | [] => None
            | (c1 :: r) as s1 =>
                if c1 =? 93 then Some (JList [], r)
                else
                  match array_loop n s1 with
                  | Some (values, r') => Some (JList values, r')
                  | None => None
                  end
            end
          else if c =? 110 then literal "null" JNull s
          else if c =? 116 then literal "true" (JBool true) s
          else if c =? 102 then literal "false" (JBool false) s
          else
            match match_number s with
            | Some r => Some r
            | None =>
                if c =? 78 then literal "NaN" (JFloat (codes "NaN")) s
                else if c =? 73 then
                  literal "Infinity" (JFloat (codes "Infinity")) s
                else if c =? 45 then
                  literal "-Infinity" (JFloat (codes "-Infinity")) s
                else None
            end
      end
  end
with array_loop (fuel : nat) (s : str) : option (list json * str) :=
  match fuel with
  | O => None
  | S n =>
      match scan_once n s with
      | None => None
      | Some (value, r) =>
          match skip_ws r with
          | [] => None
          | c :: r' =>
              if c =? 93 then Some ([value], r')
              else if c =? 44 then
                match array_loop n (skip_ws r') with
                | Some (values, r'') => Some (value :: values, r'')
                | None => None
                end
              else None
          end
      end
  end
with object_loop (fuel : nat) (s : str) : option (list (str * json) * str) :=
  match fuel with
  | O => None
  | S n =>
      match scanstring s with
      | None => None
      | Some (key, r) =>
          match skip_ws r with
          | [] => None
          | c :: r1 =>
              if c =? 58 then
                match scan_once n (skip_ws r1) with
                | None => None
                | Some (value, r2) =>
                    match skip_ws r2 with
                    | [] => None
                    | c2 :: r3 =>
                        if c2 =? 125 then Some ([(key, value)], r3)
                        else if c2 =? 44 then
                          match skip_ws r3 with
                          | [] => None
                          | c3 :: r4 =>
                              if c3 =? 34 then
                                match object_loop n r4 with
                                | Some (pairs, r5) =>
                                    Some ((key, value) :: pairs, r5)
                                | None => None
                                end
                              else None
                          end
                        else None
                    end
                end
              else None
          end
      end
  end.

(** [json.loads(s)]: one value, white space around it and nothing else. *)
Definition json_loads (s : str) : option json :=
  if startswith s [0xFEFF] then None
  else
    match scan_once (S (length s)) (skip_ws s) with
    | Some (v, r) =>
        match skip_ws r with
        | [] => Some v
        | _ :: _ => None
        end
    | None => None
    end.

(** ** The records of [fetch]

    One dictionary of [papers].  An author is [a.find(ATOM + 'name').text],
    which is [None] for a name element without text. *)

Module Paper.
Record t : Type := mk {
  id : str;
  title : str;
  summary : str;
  authors : list (option str);
  updated : str;
  pdf : str
}.
End Paper.

Definition json_of_text (o : option str) : json :=
  match o with
  | Some s => JStr s
  | None => JNull
  end.

(** The dictionary literal of line 61. *)
Definition paper_json (p : Paper.t) : json :=
  JDict [ (codes "id", JStr (Paper.id p));
          (codes "title", JStr (Paper.title p));
          (codes "summary", JStr (Paper.summary p));
          (codes "authors", JList (map json_of_text (Paper.authors p)));
          (codes "updated", JStr (Paper.updated p));
          (codes "pdf", JStr (Paper.pdf p)) ].

(** The list comprehension of line 57. *)
Definition fetch_authors (entry : Element) : list (option str) :=
  flat_map
    (fun a =>
       match find a (ATOM ++ codes "name") with
       | Some name => [text name]
       | None => []
       end)
    (findall entry (ATOM ++ codes "author")).

(** The body of the loop of [fetch], lines 53 to 61. *)
Definition fetch_entry (entry : Element) : Paper.t :=
  let id_url := _text (find entry (ATOM ++ codes "id")) in
  let title := _text (find entry (ATOM ++ codes "title")) in
  let summary := _text (find entry (ATOM ++ codes "summary")) in
  let updated := _text (find entry (ATOM ++ codes "updated")) in
  let authors := fetch_authors entry in
  let pdf := fetch_pdf id_url in
  Paper.mk id_url title summary authors updated pdf.

(** The loop of [fetch]: [papers] starts empty and grows by one record per
    entry node. *)
Definition fetch_papers (root : Element) : list Paper.t :=
  fold_left (fun papers entry => papers ++ [fetch_entry entry])
            (findall root (ATOM ++ codes "entry")) [].

(** ** The world outside the script

    What the interpreter and the operating system decide: the answer of the
    network, the XML parser, [int] on a string, how many digits an [int] may
    have when it is turned into text, the clock, which object of the file
    system a path names, and what the file system and the console refuse.
    The TLS context of [_build_ssl_context] only shapes the answer of
    [urlopen_read]. *)

(** A file holds the text written to it; a write that raised half way
    leaves it [Torn]. *)
Inductive fcontent : Type :=
| Whole (content : str)
| Torn.

(** - [int_max_str_digits] is [sys.get_int_max_str_digits()]: 0 where there
      is no limit, 4300 unless the interpreter was told otherwise.
    - [time_time k] is [int(time.time())] at the [k]-th reading of the
      clock, the integer part of a float: it has fewer than 310 digits,
      under every limit the interpreter accepts.
    - [realpath p] is the object of the file system that the path [p]
      names: two paths name the same file or directory exactly when they
      have the same [realpath] (after [..], links, doubled slashes and the
      like).  The script makes no link and renames nothing, so this does
      not change during a run.
    - [open_denied p] is what [open(p, 'w')] raises for a reason other than
      a missing directory; [write_denied p text] is what writing [text]
      to the open file, flushing or closing it raises, with what is left in
      the file; [makedirs_denied d] is what [os.makedirs(d)] raises for a
      reason other than a file standing at [d], with the directories made
      before; [print_denied line] is what [print] raises on [line]. *)
Record Host : Type := {
  urlopen_read : str -> result (list N);
  ET_fromstring : list N -> result Element;
  int_of_str : str -> result Z;
  int_max_str_digits : nat;
  time_time : nat -> Z;
  realpath : str -> str;
  open_denied : str -> option exn;
  write_denied : str -> str -> option (exn * fcontent);
  makedirs_denied : str -> option (exn * list str);
  print_denied : str -> option exn
}.

(** ** An [int] inside an f-string *)

Definition ValueError_int_digits : exn :=
  Exn "ValueError"
      (codes "Exceeds the limit for integer string conversion").

(** The decimal digits of [z], the sign not counted. *)
Definition int_digits (z : Z) : nat := length (format_int (Z.abs z)).

(** [f'{z}'], which is [str(z)]: the interpreter refuses an [int] of more
    digits than its limit. *)
Definition str_of_int (h : Host) (z : Z) : result str :=
  if (0 <? int_max_str_digits h)%nat
     && (int_max_str_digits h <? int_digits z)%nat
  then Raise ValueError_int_digits
  else Ok (format_int z).

(** Lines 36 to 41. *)
Definition fetch_url (h : Host) (query : str) (max_results : Z)
  : result str :=
  encoded ← quote query;
  digits ← str_of_int h max_results;
  Ok (codes "https://export.arxiv.org/api/query?"
      ++ codes "search_query=" ++ encoded
      ++ codes "&start=0&max_results=" ++ digits
      ++ codes "&sortBy=lastUpdatedDate&sortOrder=descending").

(** ** The state

    The directories and the files that exist, each under the [realpath] of
    its paths; the lines of the [print] calls that returned; the number of
    readings of the clock so far. *)

Record World : Type := {
  dirs : gset (list N);
  files : gmap (list N) fcontent;
  console : list str;
  clock_reads : nat
}.

Definition M (A : Type) : Type := World -> result A * World.

#[global] Instance M_ret : MRet M := fun A a w => (Ok a, w).
#[global] Instance M_bind : MBind M := fun A B f m w =>
  match m w with
  | (Ok a, w') => f a w'
  | (Raise e, w') => (Raise e, w')
  end.

Definition lift {A} (r : result A) : M A := fun w => (r, w).

(** [try: body except Exception as e: handler(e)] *)
Definition try_except {A} (body : M A) (handler : exn -> M A) : M A :=
  fun w =>
    match body w with
    | (Ok a, w') => (Ok a, w')
    | (Raise e, w') => handler e w'
    end.

Definition add_line (line : str) (w : World) : World :=
  {| dirs := dirs w; files := files w; console := console w ++ [line];
     clock_reads := clock_reads w |}.

Definition tick (w : World) : World :=
  {| dirs := dirs w; files := files w; console := console w;
     clock_reads := S (clock_reads w) |}.

(** [print(line)]: the line goes to the console unless the console refuses
    it (a character the stream cannot encode, a closed or full stream). *)
Definition print (h : Host) (line : str) : M unit := fun w =>
  match print_denied h line with
  | Some e => (Raise e, w)
  | None => (Ok tt, add_line line w)
  end.

(** [int(time.time())] *)
Definition now (h : Host) : M Z := fun w =>
  (Ok (time_time h (clock_reads w)), tick w).

(** ** Paths, directories and files *)

(** [p[:p.rfind('/') + 1]] *)
Fixpoint upto_last_slash (p : str) : str :=
  match p with
  | [] => []
  | c :: p' =>
      match upto_last_slash p' with
      | [] => if c =? 47 then [c] else []
      | head => c :: head
      end
  end.

Fixpoint lstrip_slash (s : str) : str :=
  match s with
  | [] => []
  | c :: s' => if c =? 47 then lstrip_slash s' else s
  end.

(** [os.path.dirname(p)] *)
Definition dirname (p : str) : str :=
  let head := upto_last_slash p in
  if truthy head && negb (forallb (fun c => c =? 47) head)
  then rev (lstrip_slash (rev head))
  else head.

(** The directories above [rest], given the part [pre] already passed. *)
Fixpoint ancestors_from (pre rest : str) : list str :=
  match rest with
  | [] => []
  | c :: r =>
      (if (c =? 47) && truthy pre then [pre] else [])
      ++ ancestors_from (pre ++ [c]) r
  end.

Definition FileExistsError (p : str) : exn :=
  Exn "FileExistsError" (codes "[Errno 17] File exists: '" ++ p ++ [39]).

Definition FileNotFoundError (p : str) : exn :=
  Exn "FileNotFoundError"
      (codes "[Errno 2] No such file or directory: '" ++ p ++ [39]).

Definition set_dirs (d : gset (list N)) (w : World) : World :=
  {| dirs := d; files := files w; console := console w;
     clock_reads := clock_reads w |}.

(** The object [k] of the file system gets the content [c]. *)
Definition set_file (k : str) (c : fcontent) (w : World) : World :=
  {| dirs := dirs w; files := <[k := c]> (files w); console := console w;
     clock_reads := clock_reads w |}.

(** The directories named by the paths [ps] exist from now on. *)
Definition add_dirs (h : Host) (ps : list str) (w : World) : World :=
  set_dirs (dirs w ∪ list_to_set (realpath h <$> ps)) w.

(** [os.makedirs(name, exist_ok=True)]: the directory and those above it
    are made where they are missing. *)
Definition makedirs (h : Host) (name : str) : M unit := fun w =>
  match makedirs_denied h name with
  | Some (e, made) => (Raise e, add_dirs h made w)
  | None =>
      match files w !! realpath h name with
      | Some _ => (Raise (FileExistsError name), w)
      | None => (Ok tt, add_dirs h (name :: ancestors_from [] name) w)
      end
  end.

(** [os.path.isdir(d)] *)
Definition isdir (h : Host) (w : World) (d : str) : bool :=
  bool_decide (realpath h d ∈ dirs w).

(** What [open(path, 'w', encoding='utf-8')] raises, if anything: the
    refusal of the host, or a directory on the way to the file that does
    not exist. *)
Definition open_check (h : Host) (w : World) (path : str) : option exn :=
  match open_denied h path with
  | Some e => Some e
  | None =>
      let d := dirname path in
      if truthy d && negb (forallb (isdir h w) (ancestors_from [] d ++ [d]))
      then Some (FileNotFoundError path)
      else None
  end.

(** [with open(path, 'w', encoding='utf-8') as f: json.dump(..., f, ...)]
    where [content] is the text that [json.dump] writes.  Once the file is
    open its old content is gone.  The text is encoded piece by piece, so a
    character that cannot be encoded raises after the pieces before it were
    written.  When the host refuses the write, the flush or the close, its
    exception is the one that leaves the block, also when a character
    could not be encoded before. *)
Definition write_text (h : Host) (path content : str) : M unit := fun w =>
  match open_check h w path with
  | Some e => (Raise e, w)
  | None =>
      match write_denied h path content with
      | Some (e, rest) => (Raise e, set_file (realpath h path) rest w)
      | None =>
          match utf8_bytes content with
          | Some _ => (Ok tt, set_file (realpath h path) (Whole content) w)
          | None =>
              (Raise UnicodeEncodeError, set_file (realpath h path) Torn w)
          end
      end
  end.

(** ** [write_output] *)

Definition result_set (query : str) (fetched_at : Z) (papers : list Paper.t)
  : json :=
  JDict [ (codes "query", JStr query);
          (codes "fetched_at", JInt fetched_at);
          (codes "papers", JList (map paper_json papers)) ].

Definition write_output (h : Host) (path query : str) (papers : list Paper.t)
  : M unit :=
  fetched_at ← now h;
  write_text h path (dumps 0 (result_set query fetched_at papers)).

(** ** [fetch] *)

Definition fetch (h : Host) (query : str) (max_results : Z)
  : result (list Paper.t) :=
  url ← fetch_url h query max_results;
  raw ← urlopen_read h url;
  root ← ET_fromstring h raw;
  Ok (fetch_papers root).

(** ** [main] *)

(** The parsed command line: [args.query], [args.max], [args.out]. *)
Module Args.
Record t : Type := mk {
  query : option str;
  max : Z;
  out : str
}.
End Args.

(** [os.environ], the two variables read. *)
Record Environ : Type := {
  ARXIV_QUERY : option str;
  MAX_RESULTS : option str
}.

(** [a or b] on values that are a string or [None]. *)
Definition py_or (a b : option str) : option str :=
  match a with
  | Some s => if truthy s then a else b
  | None => b
  end.

(** [a or d] where [d] is a string. *)
Definition py_or_str (a : option str) (d : str) : str :=
  match a with
  | Some s => if truthy s then s else d
  | None => d
  end.

(** Line 81. *)
Definition main_query (env : Environ) (args : Args.t) : str :=
  py_or_str (py_or (Args.query args) (ARXIV_QUERY env))
            (codes "all:machine learning").

(** Line 82. *)
Definition main_max_results (h : Host) (env : Environ) (args : Args.t)
  : result Z :=
  match MAX_RESULTS env with
  | Some s => int_of_str h s
  | None => Ok (Args.max args)
  end.

Definition fallback_json (query : str) (fetched_at : Z) (e : exn) : json :=
  JDict [ (codes "query", JStr query);
          (codes "fetched_at", JInt fetched_at);
          (codes "error", JStr (exn_str e));
          (codes "papers", JList []) ].

(** Lines 88 to 93: the directory of the destination, then the file. *)
Definition main_primary (h : Host) (args : Args.t) (query : str)
    (papers : list Paper.t) : M unit :=
  let out_path := Args.out args in
  let out_dir := dirname out_path in
  (if truthy out_dir then makedirs h out_dir else mret tt);;
  write_output h out_path query papers.

(** Lines 95 to 99: the copy at the root, with its own [try] whose handler
    is [pass]. *)
Definition main_secondary (h : Host) (args : Args.t) (query : str)
    (papers : list Paper.t) : M unit :=
  try_except
    (if startswith (Args.out args) (codes "docs/")
     then write_output h (codes "arxiv_data.json") query papers
     else mret tt)
    (fun _ => mret tt).

(** The f-string of line 100. *)
Definition main_wrote (h : Host) (out_path : str) (papers : list Paper.t)
  : result str :=
  count ← str_of_int h (Z.of_nat (length papers));
  Ok (codes "Wrote " ++ out_path ++ codes " with " ++ count
      ++ codes " papers").

(** Lines 86 to 100, the body of the [try]. *)
Definition main_try (h : Host) (args : Args.t) (query : str)
    (max_results : Z) : M unit :=
  papers ← lift (fetch h query max_results);
  main_primary h args query papers;;
  main_secondary h args query papers;;
  line ← lift (main_wrote h (Args.out args) papers);
  print h line.

(** Lines 102 to 106, the [except] clause. *)
Definition main_except (h : Host) (args : Args.t) (query : str) (e : exn)
  : M unit :=
  print h (codes "Error fetching arXiv: " ++ exn_str e);;
  fetched_at ← now h;
  write_text h (Args.out args) (dumps 0 (fallback_json query fetched_at e));;
  print h (codes "Wrote fallback " ++ Args.out args).

(** The f-string of line 84. *)
Definition main_banner (h : Host) (query : str) (max_results : Z)
  : result str :=
  digits ← str_of_int h max_results;
  Ok (codes "Fetching arXiv for query: " ++ query ++ codes " (max="
      ++ digits ++ codes ")").

(** [main] from line 78 on, when [parse_args] has returned [args] (the
    parser ends the process itself on a command line it refuses).  The
    result [Ok tt] is the normal end of the process; [Raise e] is an
    exception that nothing caught. *)
Definition main (h : Host) (env : Environ) (args : Args.t) : M unit :=
  let query := main_query env args in
  max_results ← lift (main_max_results h env args);
  line ← lift (main_banner h query max_results);
  print h line;;
  try_except (main_try h args query max_results)
             (main_except h args query).

(** ** Notions the statements use *)

Definition blank (s : str) : Prop := Forall (fun c => isspace c = true) s.

(** [core] is [s] without its leading and trailing white space. *)
Definition trimmed (s core : str) : Prop :=
  exists l r,
    s = l ++ core ++ r /\ blank l /\ blank r
    /\ (forall c, head core = Some c -> isspace c = false)
    /\ (forall c, last core = Some c -> isspace c = false).

Definition newline_to_space (c : N) : N := if c =? 10 then 32 else c.

(** The text of a node that may be missing, the empty string for none. *)
Definition raw_text (el : option Element) : str :=
  match el with
  | Some e => default [] (text e)
  | None => []
  end.

(** A string the UTF-8 codec accepts: code points below [0x110000], none of
    them a surrogate. *)
Definition encodable (s : str) : bool :=
  forallb (fun c => (c <? 0x110000) && negb (is_surrogate c)) s.

(** The interpreter turns [z] into text: it has no limit, or [z] has no more
    digits than the limit. *)
Definition int_fits (h : Host) (z : Z) : bool :=
  (int_max_str_digits h =? 0)%nat
  || (int_digits z <=? int_max_str_digits h)%nat.

(** The console takes every line of [lines]. *)
Definition console_takes (h : Host) (lines : list str) : bool :=
  forallb (fun line =>
             match print_denied h line with
             | None => true
             | Some _ => false
             end) lines.

(** A character that stands for itself in a URL, or the percent sign. *)
Definition url_char (c : N) : bool := quote_safe c || (c =? 37).

(** The text does not go on with a digit. *)
Definition no_digit_ahead (s : str) : bool :=
  match s with
  | [] => true
  | c :: _ => negb (isdigit c)
  end.

Definition is_byte (b : N) : bool := b <? 256.

(** ** Sample hosts and documents *)

Definition ValueError (s : str) : exn :=
  Exn "ValueError"
      (codes "invalid literal for int() with base 10: '" ++ s ++ [39]).

Definition PermissionError (p : str) : exn :=
  Exn "PermissionError" (codes "[Errno 13] Permission denied: '" ++ p ++ [39]).

Definition OSError_no_space : exn :=
  Exn "OSError" (codes "[Errno 28] No space left on device").

(** The digits of a literal whose underscores stand singly between two
    digits; [None] for any other use of the underscore. *)
Fixpoint drop_underscores (after_digit : bool) (s : str) : option str :=
  match s with
  | [] => if after_digit then Some [] else None
  | c :: s' =>
      if c =? 95 then
        if after_digit then drop_underscores false s' else None
      else cons c <$> drop_underscores (isdigit c) s'
  end.

(** [int] on decimal literals in ASCII: white space around, a sign, digits
    with single underscores between them, and no more digits than [limit]
    (no bound when [limit] is 0).  The digits of other scripts, which [int]
    takes too, are refused here. *)
Definition int_decimal (limit : nat) (s : str) : result Z :=
  let t := strip s in
  let '(neg, ds) :=
    match t with
    | 45 :: r => (true, r)
    | 43 :: r => (false, r)
    | _ => (false, t)
    end in
  match span_digits (default [] (drop_underscores false ds)) with
  | (Decimal.Nil, _) => Raise (ValueError s)
  | (d, []) =>
      if (0 <? limit)%nat && (limit <? Decimal.nb_digits d)%nat
      then Raise ValueError_int_digits
      else Ok (Z.of_int (if neg then Decimal.Neg d else Decimal.Pos d))
  | (_, _ :: _) => Raise (ValueError s)
  end.

(** [s.split(sep)] for a single character [sep]. *)
Fixpoint split_on (sep : N) (s : str) : list str :=
  match s with
  | [] => [[]]
  | c :: s' =>
      if c =? sep then [] :: split_on sep s'
      else match split_on sep s' with
           | [] => [[c]]
           | piece :: pieces => (c :: piece) :: pieces
           end
  end.

(** The loop of [os.path.normpath] over the components; [kept] holds the
    components kept so far, the last one first. *)
Fixpoint norm_comps (absolute : bool) (kept comps : list str) : list str :=
  match comps with
  | [] => rev kept
  | comp :: rest =>
      if str_eqb comp [] || str_eqb comp (codes ".") then
        norm_comps absolute kept rest
      else if negb (str_eqb comp (codes ".."))
              || (negb absolute && negb (bool_decide (kept <> [])))
              || bool_decide (head kept = Some (codes ".."))
      then norm_comps absolute (comp :: kept) rest
      else norm_comps absolute (tail kept) rest
  end.

(** ['/'.join(comps)] *)
Fixpoint join_slash (comps : list str) : str :=
  match comps with
  | [] => []
  | [comp] => comp
  | comp :: rest => comp ++ 47 :: join_slash rest
  end.

(** [os.path.normpath]: the names of a file system without links, where
    only the spelling of a path can make two paths name one object. *)
Definition normpath (p : str) : str :=
  let slashes :=
    if startswith p (codes "/") then
      if startswith p (codes "//") && negb (startswith p (codes "///"))
      then 2%nat else 1%nat
    else 0%nat in
  let q := List.repeat 47 slashes
           ++ join_slash (norm_comps (0 <? slashes)%nat [] (split_on 47 p)) in
  if truthy q then q else codes ".".

(** A host whose network answers [net], whose parser answers [doc], whose
    clock reads [clock] and which refuses to open the paths in [locked].
    Its interpreter has the usual limit of 4300 digits, its file system has
    no links, and it refuses nothing else. *)
Definition sample_host (net : result (list N)) (doc : result Element)
    (clock : nat -> Z) (locked : list str) : Host :=
  {| urlopen_read := fun _ => net;
     ET_fromstring := fun _ => doc;
     int_of_str := int_decimal 4300;
     int_max_str_digits := 4300;
     time_time := clock;
     realpath := normpath;
     open_denied := fun p =>
       if bool_decide (p ∈ locked) then Some (PermissionError p) else None;
     write_denied := fun _ _ => None;
     makedirs_denied := fun _ => None;
     print_denied := fun _ => None |}.

Definition atom (name : string) (txt : option str) (kids : list Element)
  : Element :=
  mkElement (ATOM ++ codes name) txt kids.

(** [<feed><entry><author><name/></author></entry></feed>] in the Atom
    name space. *)
Definition feed_with_empty_name : Element :=
  atom "feed" None [ atom "entry" None [ atom "author" None
    [ atom "name" None [] ] ] ].

(** A feed of two entries; the second has an author without a name and no
    summary. *)
Definition sample_feed : Element :=
  atom "feed" None
    [ atom "title" (Some (codes "arXiv Query")) [];
      atom "entry" None
        [ atom "id" (Some (codes "http://arxiv.org/abs/2401.00001v1")) [];
          atom "title" (Some (32 :: 10 :: codes "A  title" ++ [10; 32])) [];
          atom "summary" (Some (codes "Line one" ++ 10 :: codes "line two")) [];
          atom "updated" (Some (codes "2024-01-01T00:00:00Z")) [];
          atom "author" None [ atom "name" (Some (codes "Ada")) [] ];
          atom "author" None [ atom "name" (Some (codes "Bob")) [] ] ];
      atom "entry" None
        [ atom "id" (Some (codes "http://arxiv.org/abs/2401.00002v2")) [];
          atom "title" (Some (codes "Second")) [];
          atom "updated" None [];
          atom "author" None [ atom "affiliation" (Some (codes "X")) [] ] ] ].

Definition empty_world : World :=
  {| dirs := ∅; files := ∅; console := []; clock_reads := 0 |}.

(** ** JSON values that [json.dump] writes and [json.load] reads back *)

Fixpoint distinct (ks : list str) : bool :=
  match ks with
  | [] => true
  | k :: ks' => negb (existsb (str_eqb k) ks') && distinct ks'
  end.

(** No float literal, and no key twice in a dictionary. *)
Fixpoint wf_json (v : json) : bool :=
  match v with
  | JFloat _ => false
  | JList l => forallb wf_json l
  | JDict d =>
      distinct (map fst d) && forallb (fun kx => wf_json (snd kx)) d
  | _ => true
  end.

(** The nesting the decoder has to follow. *)
Fixpoint json_size (v : json) : nat :=
  match v with
  | JList l => S (list_sum (map (fun x => S (json_size x)) l))
  | JDict d => S (list_sum (map (fun kx => S (json_size (snd kx))) d))
  | _ => 1
  end.

(** The text behind a value: its end, a comma or a new line. *)
Definition delimited (rest : str) : bool :=
  match rest with
  | [] => true
  | c :: _ => (c =? 44) || (c =? 10)
  end.

(** The first character of a value. *)
Definition value_start (c : N) : bool :=
  (c =? 34) || (c =? 123) || (c =? 91) || (c =? 110) || (c =? 116)
  || (c =? 102) || (c =? 45) || isdigit c.

(** The decoder reads [v] back from the text written for it, at any depth,
    with any fuel that covers its nesting and before any delimited rest. *)
Definition reads_back (v : json) : Prop :=
  forall fuel level rest,
    (json_size v <= fuel)%nat ->
    delimited rest = true ->
    scan_once fuel (dumps level v ++ rest) = Some (v, rest).


(** ** Reading a written file back *)

(** [d[k]] on a decoded object. *)
Definition dict_get (v : json) (k : str) : option json :=
  match v with
  | JDict items =>
      snd <$> List.find (fun kx => str_eqb (fst kx) k) items
  | _ => None
  end.

(** A string, or [null] read as [None]. *)
Definition as_text (v : json) : option (option str) :=
  match v with
  | JStr s => Some (Some s)
  | JNull => Some None
  | _ => None
  end.

Definition get_str (v : json) (k : string) : option str :=
  match dict_get v (codes k) with
  | Some (JStr s) => Some s
  | _ => None
  end.

Definition get_int (v : json) (k : string) : option Z :=
  match dict_get v (codes k) with
  | Some (JInt z) => Some z
  | _ => None
  end.

Definition get_list (v : json) (k : string) : option (list json) :=
  match dict_get v (codes k) with
  | Some (JList l) => Some l
  | _ => None
  end.

Fixpoint traverse {A B} (f : A -> option B) (l : list A) : option (list B) :=
  match l with
  | [] => Some []
  | x :: l' =>
      match f x, traverse f l' with
      | Some y, Some ys => Some (y :: ys)
      | _, _ => None
      end
  end.

(** The fields of one paper, read from a decoded object. *)
Definition paper_of_json (v : json) : option Paper.t :=
  match get_str v "id", get_str v "title", get_str v "summary",
        get_list v "authors", get_str v "updated", get_str v "pdf" with
  | Some id, Some title, Some summary, Some authors, Some updated, Some pdf =>
      match traverse as_text authors with
      | Some names => Some (Paper.mk id title summary names updated pdf)
      | None => None
      end
  | _, _, _, _, _, _ => None
  end.

(** The query, the time stamp and the papers of a decoded result set. *)
Definition read_result_set (v : json) : option (str * Z * list Paper.t) :=
  match get_str v "query", get_int v "fetched_at", get_list v "papers" with
  | Some query, Some fetched_at, Some papers =>
      match traverse paper_of_json papers with
      | Some ps => Some (query, fetched_at, ps)
      | None => None
      end
  | _, _, _ => None
  end.

(** [json.load(open(path))] *)
Definition read_json (h : Host) (w : World) (path : str) : option json :=
  match files w !! realpath h path with
  | Some (Whole content) => json_loads content
  | _ => None
  end.

(** ** Sample runs *)

(** A clock that is one second further at every reading. *)
Definition clock_from (t0 : Z) : nat -> Z := fun k => (t0 + Z.of_nat k)%Z.

(** A clock that stands still. *)
Definition clock_at (t0 : Z) : nat -> Z := fun _ => t0.

Definition no_environ : Environ :=
  {| ARXIV_QUERY := None; MAX_RESULTS := None |}.

(** The command line without options. *)
Definition default_args : Args.t :=
  Args.mk None 20 (codes "docs/arxiv_data.json").

Definition args_out (out : string) : Args.t := Args.mk None 20 (codes out).

Definition URLError : exn :=
  Exn "URLError" (codes "<urlopen error timed out>").

(** An exception raised without a message: [str(e)] is empty. *)
Definition MemoryError : exn := Exn "MemoryError" [].

(** The network answers, the answer parses to [sample_feed]. *)
Definition host_up (clock : nat -> Z) (locked : list str) : Host :=
  sample_host (Ok []) (Ok sample_feed) clock locked.

(** The network raises [e]. *)
Definition host_down (e : exn) : Host :=
  sample_host (Raise e) (Ok sample_feed) (clock_at 1700000000) [].

(** The host [h] with a console that takes UTF-8 only: [print] raises on a
    line that holds a lone surrogate. *)
Definition strict_console (h : Host) : Host :=
  {| urlopen_read := urlopen_read h;
     ET_fromstring := ET_fromstring h;
     int_of_str := int_of_str h;
     int_max_str_digits := int_max_str_digits h;
     time_time := time_time h;
     realpath := realpath h;
     open_denied := open_denied h;
     write_denied := write_denied h;
     makedirs_denied := makedirs_denied h;
     print_denied := fun line =>
       if encodable line then print_denied h line
       else Some UnicodeEncodeError |}.

(** The host [h] on a disk without space left: every file opens, comes out
    empty, and the write raises. *)
Definition full_disk (h : Host) : Host :=
  {| urlopen_read := urlopen_read h;
     ET_fromstring := ET_fromstring h;
     int_of_str := int_of_str h;
     int_max_str_digits := int_max_str_digits h;
     time_time := time_time h;
     realpath := realpath h;
     open_denied := open_denied h;
     write_denied := fun _ _ => Some (OSError_no_space, Whole []);
     makedirs_denied := makedirs_denied h;
     print_denied := print_denied h |}.

(** Every string of a paper can be encoded. *)
Definition paper_encodable (p : Paper.t) : bool :=
  encodable (Paper.id p) && encodable (Paper.title p)
  && encodable (Paper.summary p)
  && forallb (fun a => match a with Some s => encodable s | None => true end)
             (Paper.authors p)
  && encodable (Paper.updated p) && encodable (Paper.pdf p).

(** ** Further notions *)

(** The author node has a name element. *)
Definition has_name (a : Element) : bool :=
  match find a (ATOM ++ codes "name") with
  | Some _ => true
  | None => false
  end.

(** The name element of the author node, when there is one, has a text. *)
Definition name_has_text (a : Element) : bool :=
  match find a (ATOM ++ codes "name") with
  | Some name => match text name with Some _ => true | None => false end
  | None => true
  end.

Definition is_some_text (o : option str) : bool :=
  match o with Some _ => true | None => false end.

(** [old in s]: [old] occurs somewhere in [s]. *)
Fixpoint occurs (s old : str) : bool :=
  startswith s old
  || match s with
     | [] => false
     | _ :: s' => occurs s' old
     end.

(** A character [json.dump] writes as it is under [ensure_ascii=False]. *)
Definition json_plain (c : N) : bool :=
  (32 <=? c) && negb (c =? 34) && negb (c =? 92).

(** A continuation byte of UTF-8. *)
Definition is_cont (b : N) : bool := (0x80 <=? b) && (b <=? 0xBF).

Definition cons_some (c : N) (r : option str) : option str :=
  match r with
  | Some s => Some (c :: s)
  | None => None
  end.

(** [bs.decode('utf-8')], strict: the shortest form only, no surrogate, no
    code point from [0x110000] on; [None] where the codec raises. *)
Fixpoint utf8_decode (bs : list N) : option str :=
  match bs with
  | [] => Some []
  | b0 :: r0 =>
      if b0 <? 0x80 then cons_some b0 (utf8_decode r0)
      else
        match r0 with
        | [] => None
        | b1 :: r1 =>
            if (0xC2 <=? b0) && (b0 <=? 0xDF) then
              if is_cont b1
              then cons_some (64 * (b0 - 0xC0) + (b1 - 0x80)) (utf8_decode r1)
              else None
            else
              match r1 with
              | [] => None
              | b2 :: r2 =>
                  if (0xE0 <=? b0) && (b0 <=? 0xEF) then
                    let c := 4096 * (b0 - 0xE0) + 64 * (b1 - 0x80)
                             + (b2 - 0x80) in
                    if is_cont b1 && is_cont b2 && (0x800 <=? c)
                       && negb (is_surrogate c)
                    then cons_some c (utf8_decode r2)
                    else None
                  else
                    match r2 with
                    | [] => None
                    | b3 :: r3 =>
                        if (0xF0 <=? b0) && (b0 <=? 0xF4) then
                          let c := 262144 * (b0 - 0xF0) + 4096 * (b1 - 0x80)
                                   + 64 * (b2 - 0x80) + (b3 - 0x80) in
                          if is_cont b1 && is_cont b2 && is_cont b3
                             && (0x10000 <=? c) && (c <? 0x110000)
                          then cons_some c (utf8_decode r3)
                          else None
                        else None
                    end
              end
        end
  end.

(** ** [_build_ssl_context]

    What the function needs from outside: [certifi_where] is [import
    certifi] followed by [certifi.where()], [create_default_context] is
    [ssl.create_default_context] with or without a [cafile]. *)

Record SslHost (Ctx : Type) : Type := {
  certifi_where : result str;
  create_default_context : option str -> result Ctx
}.
Arguments certifi_where {Ctx} s.
Arguments create_default_context {Ctx} s cafile.

(** Lines 24 to 32: both [except] clauses catch every [Exception]; the
    result [None] is Python's [None]. *)
Definition _build_ssl_context {Ctx} (s : SslHost Ctx) : option Ctx :=
  match (cafile ← certifi_where s; create_default_context s (Some cafile)) with
  | Ok ctx => Some ctx
  | Raise _ =>
      match create_default_context s None with
      | Ok ctx => Some ctx
      | Raise _ => None
      end
  end.

(** [p] is the path [d] or a directory above it. *)
Definition dir_or_above (p d : str) : Prop :=
  p <> [] /\ (d = p \/ exists r, d = p ++ 47 :: r).

(** * Properties *)

(** ** Strings *)

Section Strings.

Lemma lstrip_split (s : str) :
  exists l, s = l ++ lstrip s /\ blank l
            /\ (forall c, head (lstrip s) = Some c -> isspace c = false).
Proof.
  induction s as [|c s IH]; simpl.
  - exists []. repeat split; [constructor | discriminate].
  - destruct (isspace c) eqn:Hc.
    + destruct IH as (l & Hs & Hl & Hh).
      exists (c :: l). repeat split; [simpl; congruence | by constructor | done].
    + exists []. repeat split; [constructor |].
      simpl. intros ? [= <-]. done.
Qed.

Lemma lstrip_fixed (s : str) :
  (forall c, head s = Some c -> isspace c = false) -> lstrip s = s.
Proof.
  destruct s as [|c s]; [done|]. simpl. intros H.
  by rewrite (H c eq_refl).
Qed.

Lemma head_rev_last {A} (l : list A) : head (rev l) = last l.
Proof.
  induction l as [|x l _] using rev_ind; [done|].
  by rewrite rev_app_distr, last_snoc.
Qed.

Lemma blank_rev (s : str) : blank s -> blank (rev s).
Proof.
  unfold blank. rewrite !List.Forall_forall. intros H c Hc.
  apply H. by apply in_rev.
Qed.

Lemma rstrip_split (s : str) :
  exists r, s = rstrip s ++ r /\ blank r
            /\ (forall c, last (rstrip s) = Some c -> isspace c = false).
Proof.
  unfold rstrip.
  destruct (lstrip_split (rev s)) as (l & Hs & Hl & Hh).
  exists (rev l). repeat split.
  - rewrite <- rev_app_distr, <- Hs. by rewrite rev_involutive.
  - by apply blank_rev.
  - intros c. rewrite <- head_rev_last, rev_involutive. apply Hh.
Qed.

Lemma strip_trimmed (s : str) : trimmed s (strip s).
Proof.
  unfold strip.
  destruct (lstrip_split s) as (l & Hs & Hl & Hh).
  destruct (rstrip_split (lstrip s)) as (r & Hr & Hbr & Hlast).
  exists l, r. repeat split; try done.
  - by rewrite <- Hr.
  - intros c Hc. apply Hh. rewrite Hr.
    destruct (rstrip (lstrip s)); [done|]. exact Hc.
Qed.

Lemma strip_fixed (s : str) :
  (forall c, head s = Some c -> isspace c = false) ->
  (forall c, last s = Some c -> isspace c = false) ->
  strip s = s.
Proof.
  intros Hh Hl. unfold strip, rstrip.
  rewrite (lstrip_fixed s Hh).
  rewrite lstrip_fixed; [apply rev_involutive|].
  intros c. rewrite head_rev_last. apply Hl.
Qed.

Lemma replace_newline (s : str) :
  replace s [10] [32] = map newline_to_space s.
Proof.
  unfold replace.
  induction s as [|c s IH]; [done|].
  cbn [replace_from startswith length Nat.sub map].
  unfold newline_to_space at 1.
  rewrite andb_true_r.
  destruct (c =? 10); simpl; by rewrite IH.
Qed.

Lemma _text_strip (el : option Element) :
  _text el = map newline_to_space (strip (raw_text el)).
Proof.
  destruct el as [[t [s|] k]|]; simpl; try done.
  destruct s; [done|]. simpl truthy. cbv iota.
  apply replace_newline.
Qed.

Lemma no_space_newline c : isspace c = false -> newline_to_space c = c.
Proof.
  unfold newline_to_space. destruct (N.eqb_spec c 10) as [->|]; [|done].
  discriminate.
Qed.

Lemma newline_to_space_no_newline c : negb (newline_to_space c =? 10) = true.
Proof.
  unfold newline_to_space.
  destruct (N.eqb_spec c 10) as [->|Hc]; [done|].
  by apply negb_true_iff, N.eqb_neq.
Qed.

End Strings.

(** ** The text helper and the document link *)

(** C7. [_text] removes the white space around the text of a node and puts
    one space in the place of every line feed that is left (a run of [k]
    line feeds becomes [k] spaces); a missing node, a node without text and
    a node with empty text give the empty string.  The result holds no line
    feed and has no white space at either end.  The identifier, the title,
    the summary and the time stamp of a record are [_text] of the first
    child of that name. *)
Theorem C7_text_normalised :
  _text None = []
  /\ (forall t kids,
        _text (Some (mkElement t None kids)) = []
        /\ _text (Some (mkElement t (Some []) kids)) = [])
  /\ (forall el, exists core,
        trimmed (raw_text el) core /\ _text el = map newline_to_space core)
  /\ (forall el, forallb (fun c => negb (c =? 10)) (_text el) = true)
  /\ (forall el, strip (_text el) = _text el)
  /\ (forall entry,
        Paper.id (fetch_entry entry) = _text (find entry (ATOM ++ codes "id"))
        /\ Paper.title (fetch_entry entry)
           = _text (find entry (ATOM ++ codes "title"))
        /\ Paper.summary (fetch_entry entry)
           = _text (find entry (ATOM ++ codes "summary"))
        /\ Paper.updated (fetch_entry entry)
           = _text (find entry (ATOM ++ codes "updated"))).
Proof.
  split; [done|]. split; [done|]. split; [|split; [|split; [|done]]].
  - intros el. exists (strip (raw_text el)).
    split; [apply strip_trimmed | apply _text_strip].
  - intros el. rewrite _text_strip.
    apply forallb_forall. intros c Hc.
    apply in_map_iff in Hc as (c0 & <- & _).
    apply newline_to_space_no_newline.
  - intros el. rewrite _text_strip.
    destruct (strip_trimmed (raw_text el)) as (l & r & _ & _ & _ & Hh & Hl).
    set (core := strip (raw_text el)) in *.
    apply strip_fixed.
    + intros c Hc. destruct core as [|c0 core']; [done|].
      simpl in Hc. injection Hc as <-.
      rewrite no_space_newline; by apply Hh.
    + intros c. rewrite <- head_rev_last, <- map_rev.
      rewrite <- (head_rev_last core) in Hl.
      destruct (rev core) as [|c0 core']; [done|].
      simpl. intros [= <-].
      rewrite no_space_newline; by apply Hl.
Qed.

Lemma startswith_length (s p : str) :
  startswith s p = true -> (length p <= length s)%nat.
Proof.
  revert s. induction p as [|a p IH]; intros s; simpl; [lia|].
  destruct s as [|b s]; [done|].
  intros [_ H]%andb_true_iff. apply IH in H. simpl. lia.
Qed.

Lemma startswith_abs_pdf (s : str) :
  startswith (s ++ codes ".pdf") (codes "/abs/") = startswith s (codes "/abs/").
Proof.
  change (codes "/abs/") with [47; 97; 98; 115; 47].
  change (codes ".pdf") with [46; 112; 100; 102].
  do 5 (destruct s as [|? s];
        [cbn [app startswith]; rewrite ?andb_false_r; try reflexivity;
         repeat (rewrite ?andb_false_r; try reflexivity)
        | cbn [app startswith] ]).
  reflexivity.
Qed.

Lemma replace_from_abs_pdf (s : str) (skip : nat) :
  (skip <= length s)%nat ->
  replace_from (codes "/abs/") (codes "/pdf/") skip (s ++ codes ".pdf")
  = replace_from (codes "/abs/") (codes "/pdf/") skip s ++ codes ".pdf".
Proof.
  revert skip. induction s as [|c s IH]; intros skip Hskip.
  - simpl in Hskip. assert (skip = 0%nat) as -> by lia. reflexivity.
  - rewrite <- app_comm_cons.
    destruct skip as [|k]; cbn [replace_from].
    + rewrite (app_comm_cons s), startswith_abs_pdf.
      destruct (startswith (c :: s) (codes "/abs/")) eqn:Hm.
      * apply startswith_length in Hm.
        change (length (codes "/abs/")) with 5%nat in *. simpl in Hm.
        rewrite IH by (simpl; lia). by rewrite <- app_assoc.
      * rewrite IH by lia. reflexivity.
    + apply IH. simpl in Hskip. lia.
Qed.

(** C5. The link of an abstract page is the page under [/pdf/] with the
    suffix [.pdf]; an identifier that already ends in [.pdf] gets the
    substitution and no second suffix; the empty identifier gives the empty
    link.  [fetch] applies this derivation to the identifier of every
    entry. *)
Theorem C5_pdf_link :
  fetch_pdf (codes "https://site/abs/1234.5678")
  = codes "https://site/pdf/1234.5678.pdf"
  /\ (forall stem,
        fetch_pdf (stem ++ codes ".pdf")
        = replace stem (codes "/abs/") (codes "/pdf/") ++ codes ".pdf")
  /\ fetch_pdf [] = []
  /\ (forall entry,
        Paper.pdf (fetch_entry entry) = fetch_pdf (Paper.id (fetch_entry entry))).
Proof.
  split; [vm_compute; reflexivity|]. split; [|split; [reflexivity|done]].
  intros stem. unfold fetch_pdf.
  change (replace (stem ++ codes ".pdf") (codes "/abs/") (codes "/pdf/"))
    with (replace_from (codes "/abs/") (codes "/pdf/") 0 (stem ++ codes ".pdf")).
  change (replace stem (codes "/abs/") (codes "/pdf/"))
    with (replace_from (codes "/abs/") (codes "/pdf/") 0 stem).
  rewrite replace_from_abs_pdf by lia.
  set (r := replace_from _ _ _ stem).
  unfold endswith. rewrite rev_app_distr.
  change (rev (codes ".pdf")) with [102; 100; 112; 46].
  cbn [app startswith]. rewrite !N.eqb_refl. simpl.
  by rewrite andb_false_r.
Qed.

(** ** Numbers as text *)

Section Numbers.

Lemma isdigit_cases (c : N) :
  isdigit c = true ->
  c = 48 \/ c = 49 \/ c = 50 \/ c = 51 \/ c = 52
  \/ c = 53 \/ c = 54 \/ c = 55 \/ c = 56 \/ c = 57.
Proof. unfold isdigit. intros [?%N.leb_le ?%N.leb_le]%andb_true_iff. lia. Qed.

Lemma uint_codes_digits (d : Decimal.uint) :
  forallb isdigit (uint_codes d) = true.
Proof. induction d; simpl; auto. Qed.

Lemma span_digits_stop (s : str) :
  no_digit_ahead s = true -> span_digits s = (Decimal.Nil, s).
Proof.
  destruct s as [|c s]; [done|]. simpl. intros Hc%negb_true_iff.
  destruct (span_digits s) as [d r].
  repeat match goal with
  | |- context [c =? ?k] =>
      destruct (N.eqb_spec c k) as [->|_]; [discriminate Hc|]
  end.
  reflexivity.
Qed.

Lemma span_digits_codes (d : Decimal.uint) (rest : str) :
  no_digit_ahead rest = true ->
  span_digits (uint_codes d ++ rest) = (d, rest).
Proof.
  intros Hrest. induction d; simpl; rewrite ?IHd;
    [by apply span_digits_stop | reflexivity..].
Qed.

Lemma pos_to_uint_head (p : positive) (d : Decimal.uint) :
  Pos.to_uint p <> Decimal.D0 d.
Proof.
  intros H.
  pose proof (DecimalPos.Unsigned.to_of (Pos.to_uint p)) as Hn.
  rewrite DecimalPos.Unsigned.of_to in Hn. simpl in Hn.
  pose proof (DecimalPos.Unsigned.to_uint_nonzero p) as Hz.
  unfold Decimal.unorm in Hn.
  destruct (Decimal.nzhead (Pos.to_uint p)) eqn:E; try congruence.
  by apply DecimalFacts.nzhead_nonzero in E.
Qed.

Lemma format_int_nonneg (z : Z) :
  (0 <= z)%Z ->
  exists d, format_int z = uint_codes d /\ Z.of_uint d = z.
Proof.
  intros Hz. unfold format_int.
  pose proof (DecimalZ.of_to z) as Hr.
  destruct z as [|p|p]; [| |lia]; simpl in *.
  - by exists (Decimal.D0 Decimal.Nil).
  - by exists (Pos.to_uint p).
Qed.

End Numbers.

(** ** The request URL *)

Section Url.

Lemma utf8_bytes_encodable (s : str) :
  encodable s = true -> exists bytes, utf8_bytes s = Some bytes.
Proof.
  induction s as [|c s IH]; simpl; [by eexists|].
  intros [[Hc Hs]%andb_true_iff Hrest]%andb_true_iff.
  destruct (IH Hrest) as [bs ->].
  apply negb_true_iff in Hs.
  unfold utf8_char. rewrite Hs, Hc.
  repeat match goal with |- context [if ?b then _ else _] => destruct b end;
    by eexists.
Qed.

Lemma lor_lt_256 (a b : N) : a < 256 -> b < 256 -> N.lor a b < 256.
Proof.
  intros Ha Hb.
  destruct (N.eq_dec (N.lor a b) 0) as [->|Hne]; [lia|].
  change 256 with (2 ^ 8).
  apply N.log2_lt_pow2; [lia|].
  rewrite N.log2_lor.
  assert (forall x, x < 256 -> N.log2 x < 8) as Hlog.
  { intros x Hx. destruct (N.eq_dec x 0) as [->|]; [done|].
    apply N.log2_lt_pow2; [lia|done]. }
  apply N.max_lub_lt; by apply Hlog.
Qed.

Lemma land_63 (a : N) : N.land a 0x3F < 64.
Proof.
  change 0x3F with (N.ones 6). rewrite N.land_ones.
  apply N.mod_lt. done.
Qed.

Lemma shiftr_lt (c k m : N) : c < m * 2 ^ k -> N.shiftr c k < m.
Proof.
  intros H. rewrite N.shiftr_div_pow2.
  apply N.Div0.div_lt_upper_bound. lia.
Qed.

Lemma utf8_char_bytes (c : N) (bs : list N) :
  utf8_char c = Some bs -> forallb is_byte bs = true.
Proof.
  unfold utf8_char.
  pose proof (land_63 c). pose proof (land_63 (N.shiftr c 6)).
  pose proof (land_63 (N.shiftr c 12)).
  assert (forall a b, a < 256 -> b < 256 -> is_byte (N.lor a b) = true) as Hb.
  { intros a b Ha Hb. apply N.ltb_lt. by apply lor_lt_256. }
  destruct (N.ltb_spec c 0x80); [intros [= <-]; simpl; rewrite andb_true_r;
                                 apply N.ltb_lt; lia|].
  destruct (N.ltb_spec c 0x800).
  { intros [= <-]. simpl. rewrite !Hb; try done; try lia.
    eapply N.lt_trans; [apply (shiftr_lt c 6 32); simpl; lia | done]. }
  destruct (is_surrogate c); [done|].
  destruct (N.ltb_spec c 0x10000).
  { intros [= <-]. simpl. rewrite !Hb; try done; try lia.
    eapply N.lt_trans; [apply (shiftr_lt c 12 16); simpl; lia | done]. }
  destruct (N.ltb_spec c 0x110000); [|done].
  intros [= <-]. simpl. rewrite !Hb; try done; try lia.
  eapply N.lt_trans; [apply (shiftr_lt c 18 8); simpl; lia | done].
Qed.

Lemma utf8_bytes_bytes (s : str) (bs : list N) :
  utf8_bytes s = Some bs -> forallb is_byte bs = true.
Proof.
  revert bs. induction s as [|c s IH]; intros bs; simpl.
  - by intros [= <-].
  - destruct (utf8_char c) as [b|] eqn:Hc; [|done].
    destruct (utf8_bytes s) as [bs'|]; [|done].
    intros [= <-]. rewrite forallb_app.
    rewrite (utf8_char_bytes _ _ Hc). by rewrite IH.
Qed.

Lemma hexval_hex_upper (d : N) : d < 16 -> hexval (hex_upper d) = Some d.
Proof.
  intros Hd.
  assert (d = 0 \/ d = 1 \/ d = 2 \/ d = 3 \/ d = 4 \/ d = 5 \/ d = 6
          \/ d = 7 \/ d = 8 \/ d = 9 \/ d = 10 \/ d = 11 \/ d = 12
          \/ d = 13 \/ d = 14 \/ d = 15) as H by lia.
  repeat (destruct H as [->|H]; [reflexivity|]). by subst.
Qed.

Lemma hex_upper_safe (d : N) : d < 16 -> quote_safe (hex_upper d) = true.
Proof.
  intros Hd.
  assert (d = 0 \/ d = 1 \/ d = 2 \/ d = 3 \/ d = 4 \/ d = 5 \/ d = 6
          \/ d = 7 \/ d = 8 \/ d = 9 \/ d = 10 \/ d = 11 \/ d = 12
          \/ d = 13 \/ d = 14 \/ d = 15) as H by lia.
  repeat (destruct H as [->|H]; [reflexivity|]). by subst.
Qed.

Lemma nibbles (b : N) :
  b < 256 ->
  N.shiftr b 4 < 16 /\ N.land b 15 < 16
  /\ 16 * N.shiftr b 4 + N.land b 15 = b.
Proof.
  intros Hb. rewrite N.shiftr_div_pow2.
  change 15 with (N.ones 4). rewrite N.land_ones.
  change (2 ^ 4) with 16.
  pose proof (N.div_mod' b 16). pose proof (N.mod_lt b 16).
  split; [apply N.Div0.div_lt_upper_bound; lia|]. lia.
Qed.

Lemma unquote_quote_byte (b : N) (rest : str) :
  b < 256 ->
  unquote_to_bytes (quote_byte b ++ rest) = b :: unquote_to_bytes rest.
Proof.
  intros Hb. unfold quote_byte.
  destruct (quote_safe b) eqn:Hs.
  - simpl. destruct (N.eqb_spec b 37) as [->|]; [discriminate Hs|done].
  - destruct (nibbles b Hb) as (Hh & Hl & Hsum).
    cbn [app unquote_to_bytes]. rewrite N.eqb_refl.
    rewrite (hexval_hex_upper _ Hh), (hexval_hex_upper _ Hl).
    by rewrite Hsum.
Qed.

Lemma unquote_quote (bs : list N) :
  forallb is_byte bs = true ->
  unquote_to_bytes (flat_map quote_byte bs) = bs.
Proof.
  induction bs as [|b bs IH]; [done|].
  cbn [forallb flat_map]. intros [Hb Hbs]%andb_true_iff.
  rewrite unquote_quote_byte by by apply N.ltb_lt.
  by rewrite IH.
Qed.

Lemma quote_byte_chars (b : N) :
  b < 256 -> forallb url_char (quote_byte b) = true.
Proof.
  intros Hb. unfold quote_byte, url_char.
  destruct (quote_safe b) eqn:Hs; simpl.
  - by rewrite Hs.
  - destruct (nibbles b Hb) as (Hh & Hl & _).
    by rewrite !hex_upper_safe.
Qed.

Lemma quote_chars (bs : list N) :
  forallb is_byte bs = true ->
  forallb url_char (flat_map quote_byte bs) = true.
Proof.
  induction bs as [|b bs IH]; [done|].
  cbn [forallb flat_map]. intros [Hb Hbs]%andb_true_iff.
  rewrite forallb_app, quote_byte_chars, IH; try done.
  by apply N.ltb_lt.
Qed.

End Url.

Section RequestUrl.

Lemma str_of_int_fits (h : Host) (z : Z) :
  int_fits h z = true -> str_of_int h z = Ok (format_int z).
Proof.
  unfold int_fits, str_of_int. intros Hfit.
  destruct (Nat.ltb_spec 0 (int_max_str_digits h)) as [Hpos|Hzero];
    [|reflexivity].
  destruct (Nat.ltb_spec (int_max_str_digits h) (int_digits z)) as [Hlt|Hge];
    [|reflexivity].
  apply orb_true_iff in Hfit as [Hz%Nat.eqb_eq|Hle%Nat.leb_le]; lia.
Qed.

Lemma str_of_int_inv (h : Host) (z : Z) (digits : str) :
  str_of_int h z = Ok digits -> digits = format_int z /\ int_fits h z = true.
Proof.
  unfold int_fits, str_of_int.
  destruct (Nat.ltb_spec 0 (int_max_str_digits h)) as [Hpos|Hzero].
  - destruct (Nat.ltb_spec (int_max_str_digits h) (int_digits z))
      as [Hlt|Hge]; [done|].
    intros [= <-]. split; [done|].
    apply orb_true_iff. right. by apply Nat.leb_le.
  - intros [= <-]. split; [done|].
    apply orb_true_iff. left. apply Nat.eqb_eq. lia.
Qed.

Lemma str_of_int_raise (h : Host) (z : Z) (e : exn) :
  str_of_int h z = Raise e -> e = ValueError_int_digits.
Proof. unfold str_of_int. case_match; [by intros [= <-]|done]. Qed.

(** C6, counterexamples.  A query holding a lone surrogate, as the decoding
    of the command line produces for a byte that is not UTF-8, makes
    [quote] raise; a count of 4301 digits makes the f-string raise under
    the usual limit of 4300 digits.  In both cases no URL is built. *)
Lemma C6_url_counterexamples :
  fetch_url (sample_host (Ok []) (Ok sample_feed) (fun _ => 0%Z) [])
    [0xDC80] 20
  = Raise UnicodeEncodeError
  /\ fetch_url (sample_host (Ok []) (Ok sample_feed) (fun _ => 0%Z) [])
       (codes "a") (10 ^ 4300)
     = Raise ValueError_int_digits
  /\ ~ (forall (h : Host) (query : str) (max_results : Z),
          (0 <= max_results)%Z ->
          exists url, fetch_url h query max_results = Ok url).
Proof.
  split; [reflexivity|]. split; [vm_compute; reflexivity|].
  intros H.
  destruct (H (sample_host (Ok []) (Ok sample_feed) (fun _ => 0%Z) [])
              [0xDC80] 20%Z) as [url Hurl]; [lia|].
  discriminate Hurl.
Qed.

(** C6, amended.  For a query the UTF-8 codec accepts and a count that is
    not negative and has no more digits than the interpreter turns into
    text, the URL is built and reads: the query with every byte outside
    letters, digits and [_.-~/] written as a percent escape (so the
    server's unquoting gives back the bytes of the query, and no character
    of the query can end the parameter), [start=0], the count in decimal,
    and the two sort parameters. *)
Theorem C6_url_of_encodable_query (h : Host) (query : str)
    (max_results : Z) :
  encodable query = true ->
  (0 <= max_results)%Z ->
  int_fits h max_results = true ->
  exists bytes digits,
    utf8_bytes query = Some bytes
    /\ fetch_url h query max_results
       = Ok (codes "https://export.arxiv.org/api/query?search_query="
             ++ flat_map quote_byte bytes
             ++ codes "&start=0&max_results=" ++ uint_codes digits
             ++ codes "&sortBy=lastUpdatedDate&sortOrder=descending")
    /\ unquote_to_bytes (flat_map quote_byte bytes) = bytes
    /\ forallb url_char (flat_map quote_byte bytes) = true
    /\ forallb isdigit (uint_codes digits) = true
    /\ Z.of_uint digits = max_results.
Proof.
  intros Hq Hn Hfit.
  destruct (utf8_bytes_encodable query Hq) as [bytes Hbytes].
  destruct (format_int_nonneg max_results Hn) as (digits & Hfmt & Hval).
  pose proof (utf8_bytes_bytes _ _ Hbytes) as Hb.
  exists bytes, digits.
  split; [done|]. split; [|split; [|split; [|split]]].
  - unfold fetch_url, quote, encode_utf8. rewrite Hbytes.
    cbn [mbind result_bind]. rewrite (str_of_int_fits _ _ Hfit), Hfmt.
    reflexivity.
  - by apply unquote_quote.
  - by apply quote_chars.
  - apply uint_codes_digits.
  - done.
Qed.

Lemma C6_url_witness :
  encodable (codes "cat:cs.AI OR all:machine learning") = true
  /\ (0 <= 20)%Z
  /\ int_fits (sample_host (Ok []) (Ok sample_feed) (fun _ => 0%Z) []) 20
     = true
  /\ exists bytes digits,
       utf8_bytes (codes "cat:cs.AI OR all:machine learning") = Some bytes
       /\ fetch_url (sample_host (Ok []) (Ok sample_feed) (fun _ => 0%Z) [])
            (codes "cat:cs.AI OR all:machine learning") 20
          = Ok (codes "https://export.arxiv.org/api/query?search_query="
                ++ flat_map quote_byte bytes
                ++ codes "&start=0&max_results=" ++ uint_codes digits
                ++ codes "&sortBy=lastUpdatedDate&sortOrder=descending")
       /\ unquote_to_bytes (flat_map quote_byte bytes) = bytes
       /\ forallb url_char (flat_map quote_byte bytes) = true
       /\ forallb isdigit (uint_codes digits) = true
       /\ Z.of_uint digits = 20%Z.
Proof.
  split; [reflexivity|]. split; [lia|]. split; [reflexivity|].
  apply (C6_url_of_encodable_query
           (sample_host (Ok []) (Ok sample_feed) (fun _ => 0%Z) [])
           (codes "cat:cs.AI OR all:machine learning") 20);
    [reflexivity | lia | reflexivity].
Defined.

Example fetch_url_sample :
  fetch_url (sample_host (Ok []) (Ok sample_feed) (fun _ => 0%Z) [])
    (codes "cat:cs.AI OR all:machine learning") 20
  = Ok (codes "https://export.arxiv.org/api/query?search_query=cat%3Acs.AI%20OR%20all%3Amachine%20learning&start=0&max_results=20&sortBy=lastUpdatedDate&sortOrder=descending").
Proof. reflexivity. Qed.

End RequestUrl.

(** ** The records of the parser *)

Section Parser.

Lemma fold_left_snoc {A B} (f : A -> B) (l : list A) (acc : list B) :
  fold_left (fun ps x => ps ++ [f x]) l acc = acc ++ map f l.
Proof.
  revert acc. induction l as [|x l IH]; intros acc; simpl.
  - by rewrite app_nil_r.
  - by rewrite IH, <- app_assoc.
Qed.

(** One record per entry node, in document order. *)
Lemma fetch_papers_map (root : Element) :
  fetch_papers root
  = map fetch_entry (findall root (ATOM ++ codes "entry")).
Proof. unfold fetch_papers. by rewrite fold_left_snoc. Qed.

Lemma fetch_papers_length (root : Element) :
  length (fetch_papers root)
  = length (findall root (ATOM ++ codes "entry")).
Proof. by rewrite fetch_papers_map, length_map. Qed.

Lemma fetch_papers_lookup (root : Element) (i : nat) :
  fetch_papers root !! i
  = fetch_entry <$> findall root (ATOM ++ codes "entry") !! i.
Proof. by rewrite fetch_papers_map, list_lookup_fmap. Qed.

(** The authors are the texts of the name elements, in document order; an
    author node without a name element gives nothing. *)
Lemma fetch_authors_cons (tg : str) (txt : option str) (a : Element)
    (rest : list Element) :
  tag a = ATOM ++ codes "author" ->
  fetch_authors (mkElement tg txt (a :: rest))
  = match find a (ATOM ++ codes "name") with
    | Some name => [text name]
    | None => []
    end ++ fetch_authors (mkElement tg txt rest).
Proof.
  intros Ha. unfold fetch_authors, findall. simpl.
  unfold str_eqb at 1. rewrite bool_decide_eq_true_2 by done.
  reflexivity.
Qed.

Lemma fetch_authors_none (entry : Element) :
  findall entry (ATOM ++ codes "author") = [] -> fetch_authors entry = [].
Proof. unfold fetch_authors. by intros ->. Qed.

Example fetch_papers_sample :
  fetch_papers sample_feed
  = [ Paper.mk (codes "http://arxiv.org/abs/2401.00001v1")
               (codes "A  title")
               (codes "Line one line two")
               [Some (codes "Ada"); Some (codes "Bob")]
               (codes "2024-01-01T00:00:00Z")
               (codes "http://arxiv.org/pdf/2401.00001v1.pdf");
      Paper.mk (codes "http://arxiv.org/abs/2401.00002v2")
               (codes "Second") [] [] []
               (codes "http://arxiv.org/pdf/2401.00002v2.pdf") ].
Proof. vm_compute. reflexivity. Qed.

(** C1, the failing input.  The document
    [<feed><entry><author><name/></author></entry></feed>] is well formed
    and has one entry node; [fetch] returns one record, but its author list
    holds [None], where the guard of [_text] would have given the empty
    string, and the file written from it holds [null] among the authors. *)
Theorem C1_author_name_without_text :
  length (findall feed_with_empty_name (ATOM ++ codes "entry")) = 1%nat
  /\ fetch_papers feed_with_empty_name = [Paper.mk [] [] [] [None] [] []]
  /\ fetch
       (sample_host (Ok []) (Ok feed_with_empty_name) (fun _ => 0%Z) [])
       (codes "all:machine learning") 20
     = Ok [Paper.mk [] [] [] [None] [] []]
  /\ paper_json (Paper.mk [] [] [] [None] [] [])
     = JDict [ (codes "id", JStr []); (codes "title", JStr []);
               (codes "summary", JStr []); (codes "authors", JList [JNull]);
               (codes "updated", JStr []); (codes "pdf", JStr []) ].
Proof. repeat split; vm_compute; reflexivity. Qed.

End Parser.

(** ** Configuration *)

Section Configuration.

(** C4, counterexample.  With an empty [--query] given and [ARXIV_QUERY]
    set, the query is the variable's value, not the argument's. *)
Lemma C4_empty_argument_not_used :
  main_query {| ARXIV_QUERY := Some (codes "cat:cs.AI"); MAX_RESULTS := None |}
             (Args.mk (Some []) 20 (codes "docs/arxiv_data.json"))
  = codes "cat:cs.AI"
  /\ ~ (forall env args q,
          Args.query args = Some q -> main_query env args = q).
Proof.
  split; [reflexivity|].
  intros H.
  specialize (H {| ARXIV_QUERY := Some (codes "cat:cs.AI");
                   MAX_RESULTS := None |}
                (Args.mk (Some []) 20 (codes "docs/arxiv_data.json"))
                [] eq_refl).
  discriminate H.
Qed.

(** C4, amended.  The query is the [--query] argument when it is given and
    not empty, else [ARXIV_QUERY] when it is set and not empty, else
    ['all:machine learning']; the count is [int] of [MAX_RESULTS] whenever
    that variable is set, whatever [--max] says, else the value of [--max]
    (the parser's, 20 when the option is left out). *)
Theorem C4_configuration (h : Host) (env : Environ) (args : Args.t) :
  main_query env args
  = match Args.query args with
    | Some (c :: q) => c :: q
    | Some [] | None =>
        match ARXIV_QUERY env with
        | Some (c :: q) => c :: q
        | Some [] | None => codes "all:machine learning"
        end
    end
  /\ main_max_results h env args
     = match MAX_RESULTS env with
       | Some s => int_of_str h s
       | None => Ok (Args.max args)
       end.
Proof.
  split; [|reflexivity].
  unfold main_query.
  destruct (Args.query args) as [[|c q]|], (ARXIV_QUERY env) as [[|c' q']|];
    reflexivity.
Qed.

Example main_max_results_env_wins :
  main_max_results (sample_host (Ok []) (Ok sample_feed) (fun _ => 0%Z) [])
    {| ARXIV_QUERY := None; MAX_RESULTS := Some (codes "5") |}
    (Args.mk None 50 (codes "out.json"))
  = Ok 5%Z.
Proof. reflexivity. Qed.

(** C10.  An empty [--query] counts as none: the query is then the value
    of [ARXIV_QUERY] when that is set and not empty, and the built-in
    default when it is unset or empty.  An empty [ARXIV_QUERY] counts as
    unset, also beside a [--query] that is not empty, which is then the
    query.  The query that results is never the empty string. *)
Theorem C10_empty_query_is_absent :
  (forall env max out,
     main_query env (Args.mk (Some []) max out)
     = main_query env (Args.mk None max out))
  /\ (forall c v m max out,
        main_query {| ARXIV_QUERY := Some (c :: v); MAX_RESULTS := m |}
                   (Args.mk (Some []) max out)
        = c :: v)
  /\ (forall m max out,
        main_query {| ARXIV_QUERY := None; MAX_RESULTS := m |}
                   (Args.mk (Some []) max out)
        = codes "all:machine learning")
  /\ (forall m max out,
        main_query {| ARXIV_QUERY := Some []; MAX_RESULTS := m |}
                   (Args.mk (Some []) max out)
        = codes "all:machine learning")
  /\ (forall m args,
        main_query {| ARXIV_QUERY := Some []; MAX_RESULTS := m |} args
        = main_query {| ARXIV_QUERY := None; MAX_RESULTS := m |} args)
  /\ (forall c q m max out,
        main_query {| ARXIV_QUERY := Some []; MAX_RESULTS := m |}
                   (Args.mk (Some (c :: q)) max out)
        = c :: q)
  /\ (forall env args, truthy (main_query env args) = true).
Proof.
  split; [reflexivity|]. split; [reflexivity|]. split; [reflexivity|].
  split; [reflexivity|]. split; [|split; [reflexivity|]].
  - intros m args. unfold main_query.
    destruct (Args.query args) as [[|c q]|]; reflexivity.
  - intros env args. unfold main_query.
    destruct (Args.query args) as [[|c q]|],
             (ARXIV_QUERY env) as [[|c' q']|]; reflexivity.
Qed.

End Configuration.

(** ** The JSON text and its reading *)

Section Json.

Lemma scanstring_escape_char (c : N) (tail : str) :
  scanstring (escape_char c ++ tail) = cons_fst c (scanstring tail).
Proof.
  unfold escape_char.
  destruct (N.eqb_spec c 34) as [->|H34]; [reflexivity|].
  destruct (N.eqb_spec c 92) as [->|H92]; [reflexivity|].
  destruct (N.eqb_spec c 10) as [->|H10]; [reflexivity|].
  destruct (N.eqb_spec c 13) as [->|H13]; [reflexivity|].
  destruct (N.eqb_spec c 9) as [->|H9]; [reflexivity|].
  destruct (N.eqb_spec c 8) as [->|H8]; [reflexivity|].
  destruct (N.eqb_spec c 12) as [->|H12]; [reflexivity|].
  destruct (N.ltb_spec c 32) as [Hlt|Hge].
  - assert (c = 0 \/ c = 1 \/ c = 2 \/ c = 3 \/ c = 4 \/ c = 5 \/ c = 6
            \/ c = 7 \/ c = 11 \/ c = 14 \/ c = 15 \/ c = 16 \/ c = 17
            \/ c = 18 \/ c = 19 \/ c = 20 \/ c = 21 \/ c = 22 \/ c = 23
            \/ c = 24 \/ c = 25 \/ c = 26 \/ c = 27 \/ c = 28 \/ c = 29
            \/ c = 30 \/ c = 31) as H by lia.
    repeat (destruct H as [->|H]; [reflexivity|]). subst. reflexivity.
  - cbn [app scanstring].
    rewrite (proj2 (N.eqb_neq c 34)), (proj2 (N.eqb_neq c 92)) by done.
    rewrite (proj2 (N.ltb_ge c 32)) by done. reflexivity.
Qed.

Lemma scanstring_escaped (s rest : str) :
  scanstring (flat_map escape_char s ++ 34 :: rest) = Some (s, rest).
Proof.
  induction s as [|c s IH]; [reflexivity|].
  cbn [flat_map]. rewrite <- app_assoc, scanstring_escape_char, IH.
  reflexivity.
Qed.

Lemma skip_ws_stop (c : N) (s : str) :
  json_ws c = false -> skip_ws (c :: s) = c :: s.
Proof. intros H. simpl. by rewrite H. Qed.

Lemma skip_ws_spaces (k : nat) (s : str) :
  skip_ws (List.repeat 32 k ++ s) = skip_ws s.
Proof. induction k as [|k IH]; [done|]. exact IH. Qed.

Lemma skip_ws_newline_indent (level : nat) (s : str) :
  skip_ws (newline_indent level ++ s) = skip_ws s.
Proof. unfold newline_indent. cbn [app skip_ws json_ws]. simpl orb. cbv iota. apply skip_ws_spaces. Qed.

Lemma value_start_cases (c : N) :
  value_start c = true ->
  c = 34 \/ c = 123 \/ c = 91 \/ c = 110 \/ c = 116 \/ c = 102 \/ c = 45
  \/ isdigit c = true.
Proof.
  unfold value_start. rewrite !orb_true_iff, !N.eqb_eq. tauto.
Qed.

Lemma value_start_not_ws (c : N) : value_start c = true -> json_ws c = false.
Proof.
  intros H%value_start_cases.
  repeat (destruct H as [->|H]; [reflexivity|]).
  apply isdigit_cases in H.
  repeat (destruct H as [->|H]; [reflexivity|]). by subst.
Qed.

Lemma uint_codes_head (d : Decimal.uint) :
  d <> Decimal.Nil ->
  exists c s, uint_codes d = c :: s /\ isdigit c = true.
Proof. destruct d; [done|..]; intros _; simpl; by eexists _, _. Qed.

Lemma format_int_head (z : Z) :
  exists c s, format_int z = c :: s /\ (c = 45 \/ isdigit c = true).
Proof.
  unfold format_int. destruct z as [|p|p]; simpl.
  - by eexists _, _; split; [|right].
  - destruct (uint_codes_head (Pos.to_uint p)) as (c & s & -> & Hc);
      [apply DecimalPos.Unsigned.to_uint_nonnil|].
    by eexists _, _; split; [|right].
  - by eexists _, _; split; [|left].
Qed.

Lemma delimited_no_digit (rest : str) :
  delimited rest = true -> no_digit_ahead rest = true.
Proof.
  destruct rest as [|c r]; [done|]. simpl.
  intros [->%N.eqb_eq| ->%N.eqb_eq]%orb_true_iff; reflexivity.
Qed.

Lemma delimited_no_frac (rest : str) :
  delimited rest = true -> scan_frac rest = None /\ scan_exp rest = None.
Proof.
  destruct rest as [|c r]; [done|]. simpl.
  intros [->%N.eqb_eq| ->%N.eqb_eq]%orb_true_iff; done.
Qed.

Lemma scan_int_part_codes (d : Decimal.uint) (rest : str) :
  no_digit_ahead rest = true ->
  d = Decimal.D0 Decimal.Nil \/ (d <> Decimal.Nil /\ forall d', d <> Decimal.D0 d') ->
  scan_int_part (uint_codes d ++ rest) = Some (d, rest).
Proof.
  intros Hrest [->|[Hnil Hz]]; [reflexivity|].
  pose proof (span_digits_codes d rest Hrest) as Hspan.
  destruct d; try done; try (by destruct (Hz d));
    cbn [uint_codes app] in *; unfold scan_int_part;
    simpl N.eqb; simpl isdigit; cbv iota; rewrite Hspan; reflexivity.
Qed.

Lemma match_number_format_int (z : Z) (rest : str) :
  delimited rest = true ->
  match_number (format_int z ++ rest) = Some (JInt z, rest).
Proof.
  intros Hrest.
  pose proof (delimited_no_digit _ Hrest) as Hnd.
  destruct (delimited_no_frac _ Hrest) as [Hf He].
  pose proof (DecimalZ.of_to z) as Hz.
  unfold format_int. unfold match_number.
  destruct z as [|p|p]; cbn [Z.to_int] in *.
  - cbn. rewrite Hf, He. reflexivity.
  - destruct (uint_codes_head (Pos.to_uint p)) as (c & s & Hcs & Hc);
      [apply DecimalPos.Unsigned.to_uint_nonnil|].
    pose proof (scan_int_part_codes (Pos.to_uint p) rest Hnd) as Hscan.
    rewrite Hcs in *. cbn [app].
    assert ((c =? 45) = false) as ->.
    { apply isdigit_cases in Hc.
      repeat (destruct Hc as [->|Hc]; [reflexivity|]). by subst. }
    cbn [app] in Hscan. rewrite Hscan.
    + rewrite Hf, He. simpl app. by rewrite Hz.
    + right. split; [apply DecimalPos.Unsigned.to_uint_nonnil|].
      intros d'. apply pos_to_uint_head.
  - cbn [app]. simpl N.eqb. cbv iota.
    rewrite scan_int_part_codes; [|done|].
    + rewrite Hf, He. by rewrite Hz.
    + right. split; [apply DecimalPos.Unsigned.to_uint_nonnil|].
      intros d'. apply pos_to_uint_head.
Qed.

Lemma dumps_head (level : nat) (v : json) :
  wf_json v = true ->
  exists c s, dumps level v = c :: s /\ value_start c = true.
Proof.
  destruct v as [|[]|z|f|s|[|x l]|[|kx d]]; simpl; intros Hwf;
    try discriminate; try (by eexists _, _).
  destruct (format_int_head z) as (c & s & -> & [->|Hc]);
    eexists _, _; (split; [reflexivity|]); [reflexivity|].
  unfold value_start. rewrite Hc. by rewrite !orb_true_r.
Qed.

Lemma skip_ws_dumps (level : nat) (v : json) (rest : str) :
  wf_json v = true -> skip_ws (dumps level v ++ rest) = dumps level v ++ rest.
Proof.
  intros Hwf. destruct (dumps_head level v Hwf) as (c & s & -> & Hc).
  apply skip_ws_stop. by apply value_start_not_ws.
Qed.

Lemma scan_once_number (n : nat) (c : N) (t : str) (r : json * str) :
  c = 45 \/ isdigit c = true ->
  match_number (c :: t) = Some r ->
  scan_once (S n) (c :: t) = Some r.
Proof.
  intros Hc Hm.
  assert ((c =? 34) = false /\ (c =? 123) = false /\ (c =? 91) = false
          /\ (c =? 110) = false /\ (c =? 116) = false
          /\ (c =? 102) = false)
    as (H1 & H2 & H3 & H4 & H5 & H6).
  { destruct Hc as [->|Hc]; [done|]. apply isdigit_cases in Hc.
    repeat (destruct Hc as [->|Hc]; [done|]). by subst. }
  cbn [scan_once]. by rewrite H1, H2, H3, H4, H5, H6, Hm.
Qed.

Lemma reads_back_atoms :
  reads_back JNull /\ (forall b, reads_back (JBool b))
  /\ (forall z, reads_back (JInt z)) /\ (forall s, reads_back (JStr s)).
Proof.
  repeat split.
  - intros [|n] level rest Hf Hr; [simpl in Hf; lia|]. reflexivity.
  - intros b [|n] level rest Hf Hr; [simpl in Hf; lia|]. by destruct b.
  - intros z [|n] level rest Hf Hr; [simpl in Hf; lia|].
    cbn [dumps].
    pose proof (match_number_format_int z rest Hr) as Hm.
    destruct (format_int_head z) as (c & s & Hcs & Hc).
    rewrite Hcs in *. cbn [app] in *. by apply scan_once_number.
  - intros s [|n] level rest Hf Hr; [simpl in Hf; lia|].
    cbn [dumps]. unfold encode_basestring. cbn [app scan_once].
    simpl N.eqb. cbv iota.
    rewrite <- app_assoc. cbn [app]. by rewrite scanstring_escaped.
Qed.

Lemma delimited_list_items (enc : json -> str) (level : nat)
    (l : list json) (rest : str) :
  delimited (dump_list_items enc level false l ++ rest) = true.
Proof. by destruct l. Qed.

Lemma delimited_dict_items (enc : json -> str) (level : nat)
    (d : list (str * json)) (rest : str) :
  delimited (dump_dict_items enc level false d ++ rest) = true.
Proof. by destruct d. Qed.

Lemma array_loop_items (l : list json) :
  Forall reads_back l ->
  forallb wf_json l = true ->
  forall x fuel level rest,
    reads_back x ->
    wf_json x = true ->
    (list_sum (map (fun y => S (json_size y)) (x :: l)) <= fuel)%nat ->
    delimited rest = true ->
    array_loop fuel
      (dumps (S level) x
       ++ dump_list_items (dumps (S level)) level false l ++ rest)
    = Some (x :: l, rest).
Proof.
  induction l as [|y l IH]; intros Hl Hwf x fuel level rest Hx Hwx Hfuel Hrest.
  - destruct fuel as [|n]; [simpl in Hfuel; lia|].
    cbn [array_loop dump_list_items].
    rewrite Hx; [|simpl in Hfuel; lia|done].
    rewrite <- app_assoc, skip_ws_newline_indent. cbn [app].
    rewrite (skip_ws_stop 93) by reflexivity. reflexivity.
  - destruct fuel as [|n]; [simpl in Hfuel; lia|].
    apply Forall_cons in Hl as [Hy Hl].
    cbn [forallb] in Hwf. apply andb_true_iff in Hwf as [Hwy Hwf].
    cbn [array_loop].
    rewrite Hx; [|simpl in Hfuel |- *; lia|apply delimited_list_items].
    cbn [dump_list_items]. rewrite <- !app_assoc. cbn [app].
    rewrite (skip_ws_stop 44) by reflexivity. cbv beta iota.
    change (44 =? 93) with false. change (44 =? 44) with true. cbv iota.
    rewrite skip_ws_newline_indent, skip_ws_dumps by done.
    rewrite IH; try done.
    simpl in Hfuel |- *. lia.
Qed.

Lemma object_loop_items (d : list (str * json)) :
  Forall (fun kx => reads_back (snd kx)) d ->
  forallb (fun kx => wf_json (snd kx)) d = true ->
  forall k x fuel level rest,
    reads_back x ->
    wf_json x = true ->
    (list_sum (map (fun ky => S (json_size (snd ky))) ((k, x) :: d)) <= fuel)%nat ->
    delimited rest = true ->
    object_loop fuel
      (flat_map escape_char k ++ 34 :: 58 :: 32 :: dumps (S level) x
       ++ dump_dict_items (dumps (S level)) level false d ++ rest)
    = Some ((k, x) :: d, rest).
Proof.
  induction d as [|[k' y] d IH];
    intros Hd Hwf k x fuel level rest Hx Hwx Hfuel Hrest.
  - destruct fuel as [|n]; [simpl in Hfuel; lia|].
    cbn [object_loop dump_dict_items].
    rewrite scanstring_escaped.
    rewrite (skip_ws_stop 58) by reflexivity. cbv beta iota.
    change (58 =? 58) with true. cbv iota.
    change (skip_ws (32 :: ?s)) with (skip_ws s).
    rewrite skip_ws_dumps by done.
    rewrite Hx; [|simpl in Hfuel; lia|done].
    rewrite <- app_assoc, skip_ws_newline_indent. cbn [app].
    rewrite (skip_ws_stop 125) by reflexivity. reflexivity.
  - destruct fuel as [|n]; [simpl in Hfuel; lia|].
    apply Forall_cons in Hd as [Hy Hd].
    cbn [forallb snd] in Hwf. apply andb_true_iff in Hwf as [Hwy Hwf].
    cbn [object_loop].
    rewrite scanstring_escaped.
    rewrite (skip_ws_stop 58) by reflexivity. cbv beta iota.
    change (58 =? 58) with true. cbv iota.
    change (skip_ws (32 :: ?s)) with (skip_ws s).
    rewrite skip_ws_dumps by done.
    rewrite Hx; [|simpl in Hfuel |- *; lia|apply delimited_dict_items].
    cbn [dump_dict_items fst snd]. unfold encode_basestring.
    rewrite <- !app_assoc. cbn [app].
    rewrite (skip_ws_stop 44) by reflexivity. cbv beta iota.
    change (44 =? 125) with false. change (44 =? 44) with true. cbv iota.
    rewrite skip_ws_newline_indent.
    rewrite (skip_ws_stop 34) by reflexivity. cbv beta iota.
    change (34 =? 34) with true. cbv iota.
    rewrite <- !app_assoc. cbn [app].
    rewrite IH; try done.
    simpl in Hfuel |- *. lia.
Qed.

Lemma json_nested_ind (P : json -> Prop) :
  P JNull -> (forall b, P (JBool b)) -> (forall z, P (JInt z)) ->
  (forall f, P (JFloat f)) -> (forall s, P (JStr s)) ->
  (forall l, Forall P l -> P (JList l)) ->
  (forall d, Forall (fun kx => P (snd kx)) d -> P (JDict d)) ->
  forall v, P v.
Proof.
  intros Hnull Hbool Hint Hfloat Hstr Hlist Hdict.
  fix IH 1. intros [| b | z | f | s | l | d].
  - exact Hnull.
  - apply Hbool.
  - apply Hint.
  - apply Hfloat.
  - apply Hstr.
  - apply Hlist. induction l as [|x l IHl]; constructor; [apply IH | exact IHl].
  - apply Hdict.
    induction d as [|kx d IHd]; constructor; [apply IH | exact IHd].
Qed.

Lemma dict_set_fresh (d : list (str * json)) (k : str) (v : json) :
  existsb (str_eqb k) (map fst d) = false -> dict_set d k v = d ++ [(k, v)].
Proof.
  induction d as [|[k' v'] d IH]; [done|].
  cbn [map fst existsb dict_set app]. intros [Hk Hd]%orb_false_iff.
  unfold str_eqb in *. apply bool_decide_eq_false in Hk.
  rewrite bool_decide_eq_false_2 by congruence. by rewrite IH.
Qed.

Lemma existsb_app_false {A} (f : A -> bool) (l1 l2 : list A) :
  existsb f (l1 ++ l2) = false <-> existsb f l1 = false /\ existsb f l2 = false.
Proof. rewrite existsb_app. apply orb_false_iff. Qed.

Lemma fold_dict_set_distinct (d acc : list (str * json)) :
  distinct (map fst d) = true ->
  (forall k, In k (map fst d) -> existsb (str_eqb k) (map fst acc) = false) ->
  fold_left (fun a kv => dict_set a (fst kv) (snd kv)) d acc = acc ++ d.
Proof.
  revert acc. induction d as [|[k v] d IH]; intros acc Hd Hacc.
  - by rewrite app_nil_r.
  - cbn [map fst distinct] in Hd. apply andb_true_iff in Hd as [Hk Hd].
    apply negb_true_iff in Hk.
    cbn [fold_left fst snd].
    rewrite dict_set_fresh by (apply Hacc; by left).
    rewrite IH; [by rewrite <- app_assoc|done|].
    intros k' Hk'. rewrite map_app. apply existsb_app_false. split.
    + apply Hacc. by right.
    + cbn [map fst existsb]. rewrite orb_false_r.
      unfold str_eqb. apply bool_decide_eq_false. intros ->.
      assert (existsb (str_eqb k) (map fst d) = true) as Ht; [|congruence].
      apply existsb_exists. exists k. split; [done|].
      unfold str_eqb. by apply bool_decide_eq_true.
Qed.

Lemma dict_of_pairs_distinct (d : list (str * json)) :
  distinct (map fst d) = true -> dict_of_pairs d = d.
Proof.
  intros Hd. unfold dict_of_pairs.
  by rewrite fold_dict_set_distinct.
Qed.

Lemma value_start_not_close (c : N) :
  value_start c = true -> (c =? 93) = false /\ (c =? 125) = false.
Proof.
  intros H%value_start_cases.
  repeat (destruct H as [->|H]; [done|]).
  apply isdigit_cases in H.
  repeat (destruct H as [->|H]; [done|]). by subst.
Qed.

(** Every well-formed value is read back from its own text. *)
Lemma dumps_reads_back (v : json) : wf_json v = true -> reads_back v.
Proof.
  induction v as [| b | z | f | s | l IHl | d IHd] using json_nested_ind;
    intros Hwf.
  - apply reads_back_atoms.
  - apply reads_back_atoms.
  - apply reads_back_atoms.
  - discriminate Hwf.
  - apply reads_back_atoms.
  - cbn [wf_json] in Hwf.
    intros [|n] level rest Hf Hr; [simpl in Hf; lia|].
    destruct l as [|x l]; [reflexivity|].
    apply Forall_cons in IHl as [Hx IHl].
    cbn [forallb] in Hwf. apply andb_true_iff in Hwf as [Hwx Hwf].
    assert (Forall reads_back l) as Hl.
    { rewrite Forall_forall in IHl |- *. intros y Hy. apply IHl; [done|].
      rewrite forallb_forall in Hwf. apply Hwf. by apply list_elem_of_In. }
    pose proof (array_loop_items l Hl Hwf x n level rest (Hx Hwx) Hwx) as Hloop.
    cbn [dumps dump_list_items]. rewrite <- !app_assoc. cbn [app scan_once].
    change (91 =? 34) with false. change (91 =? 123) with false.
    change (91 =? 91) with true. cbv iota.
    rewrite skip_ws_newline_indent, skip_ws_dumps by done.
    destruct (dumps_head (S level) x Hwx) as (c & t & Hct & Hc).
    rewrite Hct in *. cbn [app] in *.
    rewrite (proj1 (value_start_not_close c Hc)).
    rewrite Hloop; [done| |done].
    simpl in Hf |- *. lia.
  - cbn [wf_json] in Hwf. apply andb_true_iff in Hwf as [Hkeys Hwf].
    intros [|n] level rest Hf Hr; [simpl in Hf; lia|].
    destruct d as [|[k x] d]; [reflexivity|].
    apply Forall_cons in IHd as [Hx IHd]. cbn [snd] in Hx.
    cbn [forallb snd] in Hwf. apply andb_true_iff in Hwf as [Hwx Hwf].
    assert (Forall (fun kx => reads_back (snd kx)) d) as Hd.
    { rewrite Forall_forall in IHd |- *. intros y Hy. apply IHd; [done|].
      rewrite forallb_forall in Hwf. apply Hwf. by apply list_elem_of_In. }
    pose proof (object_loop_items d Hd Hwf k x n level rest (Hx Hwx) Hwx)
      as Hloop.
    cbn [dumps dump_dict_items fst snd]. unfold encode_basestring.
    rewrite <- !app_assoc. cbn [app scan_once].
    change (123 =? 34) with false. change (123 =? 123) with true. cbv iota.
    rewrite skip_ws_newline_indent.
    rewrite (skip_ws_stop 34) by reflexivity. cbv beta iota.
    change (34 =? 125) with false. change (34 =? 34) with true. cbv iota.
    rewrite <- !app_assoc. cbn [app].
    rewrite Hloop; [|simpl in Hf |- *; lia|done].
    by rewrite dict_of_pairs_distinct.
Qed.

End Json.

(** ** Writing and reading back *)

Lemma dict_get_cons (k k' : str) (x : json) (d : list (str * json)) :
  dict_get (JDict ((k, x) :: d)) k'
  = if str_eqb k k' then Some x else dict_get (JDict d) k'.
Proof. unfold dict_get. simpl. by destruct (str_eqb k k'). Qed.

(** Looks a literal key up in a dictionary whose keys are literals. *)
Ltac dict_lookup :=
  repeat (rewrite dict_get_cons;
          match goal with
          | |- context [str_eqb ?a ?b] =>
              let v := eval vm_compute in (str_eqb a b) in
              change (str_eqb a b) with v
          end;
          cbv iota).

Section RoundTrip.

Lemma list_items_length (enc : json -> str) (level : nat) (l : list json)
    (first : bool) :
  Forall (fun y => (json_size y <= length (enc y))%nat) l ->
  (S (list_sum (map (fun y => S (json_size y)) l))
   <= length (dump_list_items enc level first l))%nat.
Proof.
  revert first. induction l as [|x l IH]; intros first Hl.
  - simpl. rewrite length_app. simpl. lia.
  - apply Forall_cons in Hl as [Hx Hl]. specialize (IH false Hl).
    cbn [dump_list_items map list_sum].
    rewrite !length_app.
    destruct first; simpl in IH |- *; lia.
Qed.

Lemma dict_items_length (enc : json -> str) (level : nat)
    (d : list (str * json)) (first : bool) :
  Forall (fun ky => (json_size (snd ky) <= length (enc (snd ky)))%nat) d ->
  (S (list_sum (map (fun ky => S (json_size (snd ky))) d))
   <= length (dump_dict_items enc level first d))%nat.
Proof.
  revert first. induction d as [|kx d IH]; intros first Hd.
  - simpl. rewrite length_app. simpl. lia.
  - apply Forall_cons in Hd as [Hx Hd]. specialize (IH false Hd).
    cbn [dump_dict_items map list_sum].
    rewrite !length_app.
    destruct first; simpl in IH |- *; lia.
Qed.

(** The text of a value is at least as long as the value is nested. *)
Lemma dumps_length (v : json) :
  wf_json v = true ->
  forall level, (json_size v <= length (dumps level v))%nat.
Proof.
  induction v as [| b | z | f | s | l IHl | d IHd] using json_nested_ind;
    intros Hwf level.
  - simpl. lia.
  - destruct b; simpl; lia.
  - destruct (format_int_head z) as (c & s & Hcs & _).
    cbn [dumps json_size]. rewrite Hcs. simpl. lia.
  - discriminate Hwf.
  - simpl. lia.
  - cbn [wf_json] in Hwf. destruct l as [|x l]; [simpl; lia|].
    cbn [dumps json_size]. apply list_items_length.
    rewrite Forall_forall in IHl |- *. intros y Hy. apply IHl; [done|].
    rewrite forallb_forall in Hwf. apply Hwf. by apply list_elem_of_In.
  - cbn [wf_json] in Hwf. apply andb_true_iff in Hwf as [_ Hwf].
    destruct d as [|kx d]; [simpl; lia|].
    cbn [dumps json_size]. apply dict_items_length.
    rewrite Forall_forall in IHd |- *. intros y Hy. apply IHd; [done|].
    rewrite forallb_forall in Hwf. apply Hwf. by apply list_elem_of_In.
Qed.

(** What [json.dump] wrote, [json.loads] reads. *)
Lemma json_loads_dumps (v : json) (level : nat) :
  wf_json v = true -> json_loads (dumps level v) = Some v.
Proof.
  intros Hwf. unfold json_loads.
  pose proof (dumps_reads_back v Hwf (S (length (dumps level v))) level [])
    as Hread.
  rewrite app_nil_r in Hread.
  pose proof (dumps_length v Hwf level) as Hlen.
  pose proof (skip_ws_dumps level v [] Hwf) as Hskip.
  rewrite app_nil_r in Hskip. rewrite Hskip.
  rewrite Hread by (try done; lia).
  destruct (dumps_head level v Hwf) as (c & s & -> & Hc).
  cbn [startswith].
  assert ((c =? 0xFEFF) = false) as ->; [|reflexivity].
  apply value_start_cases in Hc.
  repeat (destruct Hc as [->|Hc]; [done|]).
  apply isdigit_cases in Hc.
  repeat (destruct Hc as [->|Hc]; [done|]). by subst.
Qed.

Lemma wf_authors (names : list (option str)) :
  forallb wf_json (map json_of_text names) = true.
Proof. induction names as [|[s|] l IH]; simpl; by rewrite ?IH. Qed.

Lemma wf_paper_json (p : Paper.t) : wf_json (paper_json p) = true.
Proof.
  unfold paper_json. cbn [wf_json map fst snd forallb].
  rewrite wf_authors. reflexivity.
Qed.

Lemma wf_result_set (query : str) (fetched_at : Z) (papers : list Paper.t) :
  wf_json (result_set query fetched_at papers) = true.
Proof.
  unfold result_set. cbn [wf_json map fst snd forallb].
  assert (forallb wf_json (map paper_json papers) = true) as ->.
  { induction papers as [|p ps IH]; [done|].
    cbn [map forallb]. by rewrite wf_paper_json, IH. }
  reflexivity.
Qed.

Lemma traverse_as_text (names : list (option str)) :
  traverse as_text (map json_of_text names) = Some names.
Proof. induction names as [|[s|] l IH]; simpl; by rewrite ?IH. Qed.

Lemma paper_of_paper_json (p : Paper.t) : paper_of_json (paper_json p) = Some p.
Proof.
  destruct p as [i t s a u f].
  unfold paper_of_json, paper_json, get_str, get_list.
  cbn [Paper.id Paper.title Paper.summary Paper.authors Paper.updated
       Paper.pdf].
  dict_lookup. by rewrite traverse_as_text.
Qed.

Lemma read_result_set_result_set (query : str) (fetched_at : Z)
    (papers : list Paper.t) :
  read_result_set (result_set query fetched_at papers)
  = Some (query, fetched_at, papers).
Proof.
  unfold read_result_set, result_set, get_str, get_int, get_list.
  dict_lookup.
  assert (traverse paper_of_json (map paper_json papers) = Some papers) as ->.
  { induction papers as [|p ps IH]; [done|].
    cbn [map traverse]. by rewrite paper_of_paper_json, IH. }
  reflexivity.
Qed.

End RoundTrip.

(** ** Files *)

Section Files.

Context (h : Host).

Lemma utf8_char_encodable (c : N) (bs : list N) :
  utf8_char c = Some bs -> (c <? 0x110000) && negb (is_surrogate c) = true.
Proof.
  unfold utf8_char, is_surrogate.
  assert (c < 0x800 -> (c <? 0x110000) && negb ((0xD800 <=? c) && (c <=? 0xDFFF)) = true) as Hlow.
  { intros Hc. apply andb_true_iff. split; [apply N.ltb_lt; lia|].
    apply negb_true_iff, andb_false_iff. left. apply N.leb_gt. lia. }
  destruct (N.ltb_spec c 0x80); [intros _; apply Hlow; lia|].
  destruct (N.ltb_spec c 0x800); [intros _; by apply Hlow|].
  destruct ((0xD800 <=? c) && (c <=? 0xDFFF)) eqn:Hs; [done|].
  destruct (N.ltb_spec c 0x10000).
  { intros _. apply andb_true_iff. split; [apply N.ltb_lt; lia|done]. }
  destruct (c <? 0x110000); done.
Qed.

Lemma utf8_bytes_some (s : str) (bs : list N) :
  utf8_bytes s = Some bs -> encodable s = true.
Proof.
  revert bs. induction s as [|c s IH]; intros bs; [done|].
  cbn [utf8_bytes encodable forallb].
  destruct (utf8_char c) as [b|] eqn:Hc; [|done].
  destruct (utf8_bytes s) as [bs'|]; [|done].
  intros _. rewrite (utf8_char_encodable _ _ Hc). by apply (IH bs').
Qed.

Lemma utf8_bytes_none (s : str) :
  utf8_bytes s = None -> encodable s = false.
Proof.
  intros Hn. destruct (encodable s) eqn:He; [|done].
  destruct (utf8_bytes_encodable s He) as [bs Hbs]. congruence.
Qed.

Lemma encodable_app (a b : str) :
  encodable (a ++ b) = encodable a && encodable b.
Proof. apply forallb_app. Qed.

Lemma encodable_digits (d : Decimal.uint) : encodable (uint_codes d) = true.
Proof. induction d; simpl; auto. Qed.

Lemma encodable_format_int (z : Z) : encodable (format_int z) = true.
Proof.
  unfold format_int. destruct (Z.to_int z); [|change (45 :: ?s) with ([45] ++ s);
    rewrite encodable_app]; by rewrite encodable_digits.
Qed.

Lemma encodable_escape_char (c : N) :
  encodable (escape_char c) = encodable [c].
Proof.
  unfold escape_char.
  destruct (N.eqb_spec c 34) as [->|H34]; [reflexivity|].
  destruct (N.eqb_spec c 92) as [->|H92]; [reflexivity|].
  destruct (N.eqb_spec c 10) as [->|H10]; [reflexivity|].
  destruct (N.eqb_spec c 13) as [->|H13]; [reflexivity|].
  destruct (N.eqb_spec c 9) as [->|H9]; [reflexivity|].
  destruct (N.eqb_spec c 8) as [->|H8]; [reflexivity|].
  destruct (N.eqb_spec c 12) as [->|H12]; [reflexivity|].
  destruct (N.ltb_spec c 32) as [Hlt|Hge]; [|reflexivity].
  assert (c = 0 \/ c = 1 \/ c = 2 \/ c = 3 \/ c = 4 \/ c = 5 \/ c = 6
          \/ c = 7 \/ c = 11 \/ c = 14 \/ c = 15 \/ c = 16 \/ c = 17
          \/ c = 18 \/ c = 19 \/ c = 20 \/ c = 21 \/ c = 22 \/ c = 23
          \/ c = 24 \/ c = 25 \/ c = 26 \/ c = 27 \/ c = 28 \/ c = 29
          \/ c = 30 \/ c = 31) as H by lia.
  repeat (destruct H as [->|H]; [reflexivity|]). subst. reflexivity.
Qed.

Lemma encodable_basestring (s : str) :
  encodable (encode_basestring s) = encodable s.
Proof.
  unfold encode_basestring.
  change (34 :: ?t) with ([34] ++ t). rewrite !encodable_app.
  change (encodable [34]) with true. rewrite andb_true_r. cbn [andb].
  induction s as [|c s IH]; [done|].
  cbn [flat_map]. rewrite encodable_app, encodable_escape_char, IH.
  cbn [encodable forallb]. by rewrite andb_true_r.
Qed.

Lemma encodable_result_set_time (q : str) (t1 t2 : Z) (ps : list Paper.t) :
  encodable (dumps 0 (result_set q t1 ps))
  = encodable (dumps 0 (result_set q t2 ps)).
Proof.
  unfold result_set. cbn [dumps dump_dict_items fst snd].
  rewrite !encodable_app, !encodable_format_int. reflexivity.
Qed.

Lemma encodable_fallback (q : str) (t : Z) (e : exn) :
  encodable q = true -> encodable (exn_str e) = true ->
  encodable (dumps 0 (fallback_json q t e)) = true.
Proof.
  intros Hq He. unfold fallback_json. cbn [dumps dump_dict_items fst snd].
  rewrite !encodable_app, !encodable_basestring, encodable_format_int, Hq, He.
  reflexivity.
Qed.

Lemma console_takes_cons (line : str) (lines : list str) :
  console_takes h (line :: lines) = true ->
  print_denied h line = None /\ console_takes h lines = true.
Proof.
  unfold console_takes. cbn [forallb].
  destruct (print_denied h line); [done|]. cbn [andb]. done.
Qed.

Lemma console_takes_inv2 (l1 l2 : str) (lines : list str) :
  console_takes h (l1 :: l2 :: lines) = true ->
  print_denied h l1 = None /\ print_denied h l2 = None
  /\ console_takes h lines = true.
Proof.
  intros [H1 [H2 H]%console_takes_cons]%console_takes_cons. done.
Qed.

Lemma console_takes_inv3 (l1 l2 l3 : str) (lines : list str) :
  console_takes h (l1 :: l2 :: l3 :: lines) = true ->
  print_denied h l1 = None /\ print_denied h l2 = None
  /\ print_denied h l3 = None /\ console_takes h lines = true.
Proof.
  intros [H1 [H2 [H3 H]%console_takes_cons]%console_takes_cons]%console_takes_cons.
  done.
Qed.

Lemma write_text_ok (path content : str) (w : World) :
  open_check h w path = None ->
  write_denied h path content = None ->
  encodable content = true ->
  write_text h path content w
  = (Ok tt, set_file (realpath h path) (Whole content) w).
Proof.
  intros Ho Hw He. unfold write_text. rewrite Ho, Hw.
  by destruct (utf8_bytes_encodable content He) as [bs ->].
Qed.

Lemma write_text_inv (path content : str) (w w' : World) :
  write_text h path content w = (Ok tt, w') ->
  open_check h w path = None /\ write_denied h path content = None
  /\ encodable content = true
  /\ w' = set_file (realpath h path) (Whole content) w.
Proof.
  unfold write_text. destruct (open_check h w path); [done|].
  destruct (write_denied h path content) as [[e rest]|]; [done|].
  destruct (utf8_bytes content) as [bs|] eqn:Hb; [|done].
  intros [= <-]. by rewrite (utf8_bytes_some _ _ Hb).
Qed.

Lemma write_output_run (path query : str) (papers : list Paper.t)
    (w : World) :
  write_output h path query papers w
  = write_text h path
      (dumps 0 (result_set query (time_time h (clock_reads w)) papers))
      (tick w).
Proof. reflexivity. Qed.

Lemma read_json_set_file (w : World) (path : str) (v : json) (level : nat) :
  wf_json v = true ->
  read_json h (set_file (realpath h path) (Whole (dumps level v)) w) path
  = Some v.
Proof.
  intros Hwf. unfold read_json, set_file. cbn [files].
  rewrite lookup_insert_eq. by apply json_loads_dumps.
Qed.


Lemma encodable_newline_indent (level : nat) :
  encodable (newline_indent level) = true.
Proof.
  unfold newline_indent. cbn [encodable forallb]. 
  change (forallb _ (List.repeat 32 (2 * level)))
    with (encodable (List.repeat 32 (2 * level))).
  induction (2 * level)%nat as [|k IH]; [done|]. exact IH.
Qed.

Lemma encodable_sep (c : N) (level : nat) :
  encodable [c] = true -> encodable (c :: newline_indent level) = true.
Proof.
  intros Hc. change (c :: newline_indent level) with ([c] ++ newline_indent level).
  by rewrite encodable_app, Hc, encodable_newline_indent.
Qed.

Lemma encodable_list_items (enc : json -> str) (level : nat) (first : bool)
    (l : list json) :
  forallb (fun x => encodable (enc x)) l = true ->
  encodable (dump_list_items enc level first l) = true.
Proof.
  revert first. induction l as [|x l IH]; intros first Hl.
  - cbn [dump_list_items]. by rewrite encodable_app, encodable_newline_indent.
  - cbn [forallb] in Hl. apply andb_true_iff in Hl as [Hx Hl].
    cbn [dump_list_items]. rewrite !encodable_app, Hx, IH by done.
    destruct first; by rewrite encodable_sep.
Qed.

Lemma encodable_authors (level : nat) (names : list (option str)) :
  forallb (fun a => match a with Some s => encodable s | None => true end)
          names = true ->
  encodable (dumps level (JList (map json_of_text names))) = true.
Proof.
  intros Hn. destruct names as [|a names]; [reflexivity|].
  cbn [map dumps]. apply encodable_list_items.
  change (json_of_text a :: map json_of_text names)
    with (map json_of_text (a :: names)).
  induction (a :: names) as [|[s|] l IH]; [done|..];
    cbn [forallb map] in Hn |- *; apply andb_true_iff in Hn as [Hs Hl];
    rewrite IH by done; [|done].
  cbn [json_of_text dumps]. by rewrite encodable_basestring, Hs.
Qed.

Lemma encodable_paper (level : nat) (p : Paper.t) :
  paper_encodable p = true ->
  encodable (dumps level (paper_json p)) = true.
Proof.
  unfold paper_encodable. rewrite !andb_true_iff.
  intros (((((Hi & Ht) & Hs) & Ha) & Hu) & Hf).
  pose proof (encodable_authors (S level) _ Ha) as Hav.
  unfold paper_json.
  remember (JList (map json_of_text (Paper.authors p))) as av.
  cbn [dumps dump_dict_items fst snd].
  rewrite !encodable_app, !encodable_basestring.
  rewrite Hav, Hi, Ht, Hs, Hu, Hf.
  rewrite ?encodable_newline_indent, !encodable_sep by reflexivity.
  reflexivity.
Qed.

Lemma encodable_result_set (q : str) (t : Z) (ps : list Paper.t) :
  encodable q = true ->
  forallb paper_encodable ps = true ->
  encodable (dumps 0 (result_set q t ps)) = true.
Proof.
  intros Hq Hps. unfold result_set.
  remember (JList (map paper_json ps)) as pv.
  cbn [dumps dump_dict_items fst snd].
  rewrite !encodable_app, !encodable_basestring, encodable_format_int, Hq.
  rewrite ?encodable_newline_indent, !encodable_sep by reflexivity.
  assert (encodable (dumps 1 pv) = true) as ->; [|reflexivity].
  subst pv. destruct ps as [|p ps]; [reflexivity|].
  cbn [map dumps]. apply encodable_list_items.
  change (paper_json p :: map paper_json ps) with (map paper_json (p :: ps)).
  induction (p :: ps) as [|p' l IH]; [done|].
  cbn [forallb map] in Hps |- *. apply andb_true_iff in Hps as [Hp Hl].
  by rewrite encodable_paper, IH.
Qed.

(** [write_output] returns whenever the path can be opened, the host does
    not refuse the write and the strings of the result set can be
    encoded. *)
Lemma write_output_returns (path query : str)
    (papers : list Paper.t) (w : World) :
  open_check h w path = None ->
  write_denied h path
    (dumps 0 (result_set query (time_time h (clock_reads w)) papers)) = None ->
  encodable query = true ->
  forallb paper_encodable papers = true ->
  write_output h path query papers w
  = (Ok tt,
     set_file (realpath h path)
       (Whole (dumps 0 (result_set query (time_time h (clock_reads w)) papers)))
       (tick w)).
Proof.
  intros Ho Hw Hq Hps. rewrite write_output_run.
  apply write_text_ok; [exact Ho|exact Hw|]. by apply encodable_result_set.
Qed.

(** C9.  Whenever [write_output] returns, the file holds a text from which
    [json.load] gives back the query, the time stamp read from the clock
    and every field of every paper, in order: nothing is lost between the
    records and the file. *)
Theorem C9_write_output_round_trip (path query : str)
    (papers : list Paper.t) (w w' : World) :
  write_output h path query papers w = (Ok tt, w') ->
  read_json h w' path
  = Some (result_set query (time_time h (clock_reads w)) papers)
  /\ (read_json h w' path ≫= read_result_set)
     = Some (query, time_time h (clock_reads w), papers)
  /\ (forall v, read_json h w' path = Some v ->
        get_str v "query" = Some query
        /\ length <$> get_list v "papers" = Some (length papers)).
Proof.
  rewrite write_output_run. intros (_ & _ & _ & ->)%write_text_inv.
  rewrite read_json_set_file by apply wf_result_set.
  split; [done|]. split.
  - cbn [mbind option_bind]. apply read_result_set_result_set.
  - intros v [= <-]. unfold get_str, get_list, result_set. dict_lookup.
    split; [done|]. cbn. f_equal. apply length_map.
Qed.

End Files.

Lemma C9_round_trip_witness :
  write_output (host_up (clock_at 1700000000) []) (codes "arxiv_data.json")
    (codes "cat:cs.AI") (fetch_papers sample_feed) empty_world
  = (Ok tt,
     snd (write_output (host_up (clock_at 1700000000) [])
            (codes "arxiv_data.json") (codes "cat:cs.AI")
            (fetch_papers sample_feed) empty_world))
  /\ (read_json (host_up (clock_at 1700000000) [])
        (snd (write_output (host_up (clock_at 1700000000) [])
                (codes "arxiv_data.json") (codes "cat:cs.AI")
                (fetch_papers sample_feed) empty_world))
        (codes "arxiv_data.json") ≫= read_result_set)
     = Some (codes "cat:cs.AI", 1700000000%Z, fetch_papers sample_feed).
Proof.
  assert (write_output (host_up (clock_at 1700000000) [])
            (codes "arxiv_data.json") (codes "cat:cs.AI")
            (fetch_papers sample_feed) empty_world
          = (Ok tt,
             snd (write_output (host_up (clock_at 1700000000) [])
                    (codes "arxiv_data.json") (codes "cat:cs.AI")
                    (fetch_papers sample_feed) empty_world))) as Hw
    by (vm_compute; reflexivity).
  split; [exact Hw|].
  exact (proj1 (proj2 (C9_write_output_round_trip _ _ _ _ _ _ Hw))).
Defined.

(** ** The whole run *)

Section Main.

Context (h : Host).

Lemma main_run (env : Environ) (args : Args.t) (w : World)
    (n : Z) (banner : str) :
  main_max_results h env args = Ok n ->
  main_banner h (main_query env args) n = Ok banner ->
  print_denied h banner = None ->
  main h env args w
  = try_except (main_try h args (main_query env args) n)
               (main_except h args (main_query env args))
               (add_line banner w).
Proof.
  intros Hn Hb Hp. unfold main. unfold mbind, M_bind, lift, print.
  by rewrite Hn, Hb, Hp.
Qed.

Lemma main_raise_max (env : Environ) (args : Args.t) (w : World)
    (e : exn) :
  main_max_results h env args = Raise e ->
  main h env args w = (Raise e, w).
Proof.
  intros Hn. unfold main. cbn [mbind M_bind lift]. by rewrite Hn.
Qed.

(** Line 84 raises: the count has too many digits, or the console refuses
    the line.  Nothing was printed or written. *)
Lemma main_raise_banner (env : Environ) (args : Args.t) (w : World)
    (n : Z) (e : exn) :
  main_max_results h env args = Ok n ->
  main_banner h (main_query env args) n = Raise e
  \/ (exists banner,
        main_banner h (main_query env args) n = Ok banner
        /\ print_denied h banner = Some e) ->
  main h env args w = (Raise e, w).
Proof.
  intros Hn [Hb|(banner & Hb & Hp)];
    unfold main; unfold mbind, M_bind, lift, print; rewrite Hn, Hb; [done|].
  by rewrite Hp.
Qed.

Lemma main_banner_inv (q : str) (n : Z) (banner : str) :
  main_banner h q n = Ok banner ->
  int_fits h n = true
  /\ banner = codes "Fetching arXiv for query: " ++ q ++ codes " (max="
              ++ format_int n ++ codes ")".
Proof.
  unfold main_banner. destruct (str_of_int h n) as [ds|e] eqn:Hs; [|done].
  apply str_of_int_inv in Hs as [-> Hfit]. by intros [= <-].
Qed.

Lemma main_try_fetch_raise (args : Args.t) (q : str) (n : Z)
    (e : exn) (w : World) :
  fetch h q n = Raise e -> main_try h args q n w = (Raise e, w).
Proof.
  intros Hf. unfold main_try. cbn [mbind M_bind lift]. by rewrite Hf.
Qed.

Lemma main_except_ok (args : Args.t) (q : str) (e : exn)
    (w : World) :
  print_denied h (codes "Error fetching arXiv: " ++ exn_str e) = None ->
  open_check h w (Args.out args) = None ->
  write_denied h (Args.out args)
    (dumps 0 (fallback_json q (time_time h (clock_reads w)) e)) = None ->
  encodable q = true ->
  encodable (exn_str e) = true ->
  print_denied h (codes "Wrote fallback " ++ Args.out args) = None ->
  main_except h args q e w
  = (Ok tt,
     add_line (codes "Wrote fallback " ++ Args.out args)
       (set_file (realpath h (Args.out args))
          (Whole (dumps 0 (fallback_json q (time_time h (clock_reads w)) e)))
          (tick (add_line (codes "Error fetching arXiv: " ++ exn_str e) w)))).
Proof.
  intros Hp1 Ho Hw Hq He Hp2. unfold main_except.
  unfold mbind, M_bind, print, now. rewrite Hp1.
  cbn [clock_reads add_line].
  rewrite write_text_ok; [by rewrite Hp2|exact Ho|exact Hw|].
  by apply encodable_fallback.
Qed.

Lemma wf_fallback_json (q : str) (t : Z) (e : exn) :
  wf_json (fallback_json q t e) = true.
Proof. reflexivity. Qed.

(** C2, amended.  When line 84 has gone through and the fetch-or-parse path
    raises [e], and the console takes the two lines of the [except]
    clause, the destination can be opened for writing, the host does not
    refuse the write and the query and the text of [e] can be encoded,
    [main] ends normally, having written one file, the destination, whose
    content reads back as the object with the keys [query], [fetched_at],
    [error] and [papers], where [error] is [str(e)] and [papers] is
    empty. *)
Theorem C2_fallback_written (env : Environ) (args : Args.t)
    (w : World) (n : Z) (banner : str) (e : exn) :
  main_max_results h env args = Ok n ->
  main_banner h (main_query env args) n = Ok banner ->
  fetch h (main_query env args) n = Raise e ->
  console_takes h [ banner;
                    codes "Error fetching arXiv: " ++ exn_str e;
                    codes "Wrote fallback " ++ Args.out args ] = true ->
  open_check h w (Args.out args) = None ->
  write_denied h (Args.out args)
    (dumps 0 (fallback_json (main_query env args)
                (time_time h (clock_reads w)) e)) = None ->
  encodable (main_query env args) = true ->
  encodable (exn_str e) = true ->
  exists w',
    main h env args w = (Ok tt, w')
    /\ files w'
       = <[realpath h (Args.out args) :=
             Whole (dumps 0 (fallback_json (main_query env args)
                               (time_time h (clock_reads w)) e))]> (files w)
    /\ read_json h w' (Args.out args)
       = Some (JDict [ (codes "query", JStr (main_query env args));
                       (codes "fetched_at",
                        JInt (time_time h (clock_reads w)));
                       (codes "error", JStr (exn_str e));
                       (codes "papers", JList []) ])
    /\ dirs w' = dirs w.
Proof.
  intros Hn Hb Hf (Hp0 & Hp1 & Hp2 & _)%console_takes_inv3 Ho Hw Hq He.
  rewrite (main_run _ _ _ _ _ Hn Hb Hp0). unfold try_except.
  rewrite (main_try_fetch_raise _ _ _ _ _ Hf).
  rewrite main_except_ok by done.
  eexists. split; [reflexivity|]. split; [reflexivity|]. split; [|reflexivity].
  unfold read_json. cbn [files add_line set_file tick].
  rewrite lookup_insert_eq.
  by rewrite json_loads_dumps by apply wf_fallback_json.
Qed.

Lemma set_dirs_same (w : World) : set_dirs (dirs w) w = w.
Proof. by destruct w. Qed.

Lemma open_check_root (w : World) :
  open_check h w (codes "arxiv_data.json")
  = open_denied h (codes "arxiv_data.json").
Proof. unfold open_check. by destruct (open_denied h _). Qed.



(** The directory step of [main_primary]: however it ends, it leaves the
    directories of before and perhaps more, and touches nothing else. *)
Lemma makedirs_step (d : str) (w : World) :
  exists r ds,
    dirs w ⊆ ds
    /\ (if truthy d then makedirs h d else mret tt) w = (r, set_dirs ds w).
Proof.
  destruct (truthy d).
  - unfold makedirs, add_dirs.
    destruct (makedirs_denied h d) as [[e made]|].
    { eexists _, _. split; [|reflexivity]. set_solver. }
    destruct (files w !! realpath h d).
    { exists (Raise (FileExistsError d)), (dirs w).
      split; [done|]. by rewrite set_dirs_same. }
    eexists _, _. split; [|reflexivity]. set_solver.
  - exists (Ok tt), (dirs w). split; [done|]. by rewrite set_dirs_same.
Qed.

Lemma main_primary_inv (args : Args.t) (q : str)
    (ps : list Paper.t) (w w1 : World) :
  main_primary h args q ps w = (Ok tt, w1) ->
  exists ds,
    dirs w ⊆ ds
    /\ w1 = set_file (realpath h (Args.out args))
              (Whole (dumps 0 (result_set q (time_time h (clock_reads w)) ps)))
              (tick (set_dirs ds w))
    /\ encodable (dumps 0 (result_set q (time_time h (clock_reads w)) ps))
       = true.
Proof.
  unfold main_primary. unfold mbind, M_bind.
  destruct (makedirs_step (dirname (Args.out args)) w)
    as ([[]|e] & ds & Hds & ->); [|done].
  rewrite write_output_run. intros (_ & _ & He & ->)%write_text_inv.
  exists ds. by repeat split.
Qed.


(** The copy at the root never raises and touches no file but the root
    file.  It writes the root file when the destination is under [docs/],
    the root file can be opened and the host does not refuse the write;
    it leaves every file alone when the destination is not under [docs/]
    or the root file cannot be opened. *)
Lemma main_secondary_run (args : Args.t) (q : str)
    (ps : list Paper.t) (w : World) :
  encodable (dumps 0 (result_set q (time_time h (clock_reads w)) ps)) = true ->
  exists w',
    main_secondary h args q ps w = (Ok tt, w')
    /\ dirs w' = dirs w /\ console w' = console w
    /\ (forall k, k <> realpath h (codes "arxiv_data.json") ->
          files w' !! k = files w !! k)
    /\ (startswith (Args.out args) (codes "docs/") = false ->
        files w' = files w)
    /\ (is_Some (open_denied h (codes "arxiv_data.json")) ->
        files w' = files w)
    /\ (startswith (Args.out args) (codes "docs/") = true ->
        open_denied h (codes "arxiv_data.json") = None ->
        write_denied h (codes "arxiv_data.json")
          (dumps 0 (result_set q (time_time h (clock_reads w)) ps)) = None ->
        files w'
        = <[realpath h (codes "arxiv_data.json") :=
              Whole (dumps 0 (result_set q (time_time h (clock_reads w)) ps))]>
            (files w)).
Proof.
  intros He. unfold main_secondary, try_except.
  destruct (startswith (Args.out args) (codes "docs/")).
  - rewrite write_output_run. unfold write_text.
    rewrite open_check_root.
    destruct (open_denied h (codes "arxiv_data.json")) as [e|].
    { eexists. split; [reflexivity|]. split_and!; done. }
    destruct (write_denied h _ _) as [[e rest]|].
    { eexists. split; [reflexivity|]. cbn [files dirs console set_file tick].
      split_and!; try done; try (by intros [? ?]).
      intros k Hk. by rewrite lookup_insert_ne. }
    destruct (utf8_bytes_encodable _ He) as [bs ->].
    eexists. split; [reflexivity|]. cbn [files dirs console set_file tick].
    split_and!; try done; try (by intros [? ?]).
    intros k Hk. by rewrite lookup_insert_ne.
  - eexists. split; [reflexivity|]. split_and!; done.
Qed.

Lemma main_wrote_inv (out : str) (ps : list Paper.t) (line : str) :
  main_wrote h out ps = Ok line ->
  line = codes "Wrote " ++ out ++ codes " with "
         ++ format_int (Z.of_nat (length ps)) ++ codes " papers".
Proof.
  unfold main_wrote. destruct (str_of_int h _) as [ds|e] eqn:Hs; [|done].
  apply str_of_int_inv in Hs as [-> _]. by intros [= <-].
Qed.

(** C3, amended.  In a run that fetched the papers, wrote the primary file
    and printed its closing line, where the destination and the root file
    are two files: [main] ends normally and the primary file keeps its
    content, whatever happens to the copy.  If the destination does not
    start with [docs/], or the root file cannot be opened, no other file is
    written.  If it does and the root file can be opened and written, the
    root file is written and reads back with the same query and the same
    papers as the primary file. *)
Theorem C3_secondary_copy (env : Environ) (args : Args.t)
    (w w1 : World) (n : Z) (banner line : str) (ps : list Paper.t) :
  main_max_results h env args = Ok n ->
  main_banner h (main_query env args) n = Ok banner ->
  fetch h (main_query env args) n = Ok ps ->
  main_primary h args (main_query env args) ps (add_line banner w)
  = (Ok tt, w1) ->
  main_wrote h (Args.out args) ps = Ok line ->
  console_takes h [banner; line] = true ->
  (startswith (Args.out args) (codes "docs/") = true ->
   realpath h (Args.out args) <> realpath h (codes "arxiv_data.json")) ->
  exists w',
    main h env args w = (Ok tt, w')
    /\ files w' !! realpath h (Args.out args)
       = Some (Whole (dumps 0 (result_set (main_query env args)
                                 (time_time h (clock_reads w)) ps)))
    /\ (startswith (Args.out args) (codes "docs/") = false ->
        files w' = files w1)
    /\ (is_Some (open_denied h (codes "arxiv_data.json")) ->
        files w' = files w1)
    /\ (startswith (Args.out args) (codes "docs/") = true ->
        open_denied h (codes "arxiv_data.json") = None ->
        (forall text, write_denied h (codes "arxiv_data.json") text = None) ->
        exists k,
          files w'
          = <[realpath h (codes "arxiv_data.json") :=
                Whole (dumps 0 (result_set (main_query env args)
                                  (time_time h k) ps))]> (files w1)
          /\ (read_json h w' (codes "arxiv_data.json") ≫= read_result_set)
             = Some (main_query env args, time_time h k, ps)).
Proof.
  intros Hn Hb Hf Hp Hl (Hp0 & Hp1 & _)%console_takes_inv2 Hne.
  destruct (main_primary_inv _ _ _ _ _ Hp) as (ds & _ & Hw1 & He).
  cbn [clock_reads add_line] in Hw1, He.
  assert (clock_reads w1 = S (clock_reads w)) as Hclock by by subst w1.
  assert (files w1 !! realpath h (Args.out args)
          = Some (Whole (dumps 0 (result_set (main_query env args)
                                    (time_time h (clock_reads w)) ps))))
    as Hout.
  { subst w1. cbn [files set_file]. apply lookup_insert_eq. }
  destruct (main_secondary_run args (main_query env args) ps w1)
    as (w2 & Hs & _ & _ & Hframe & Hnodocs & Hlocked & Hcopy).
  { rewrite Hclock.
    by rewrite (encodable_result_set_time _ _ (time_time h (clock_reads w))). }
  rewrite (main_run _ _ _ _ _ Hn Hb Hp0). unfold try_except, main_try.
  unfold mbind, M_bind, lift. rewrite Hf, Hp, Hs, Hl. unfold print.
  rewrite Hp1.
  eexists. split; [reflexivity|]. cbn [files add_line].
  split; [|split; [exact Hnodocs|split; [exact Hlocked|]]].
  - destruct (startswith (Args.out args) (codes "docs/")) eqn:Hdocs.
    + by rewrite Hframe by by apply Hne.
    + by rewrite Hnodocs.
  - intros Hdocs Hopen Hwrite. exists (clock_reads w1).
    rewrite (Hcopy Hdocs Hopen (Hwrite _)). split; [reflexivity|].
    unfold read_json. cbn [files add_line]. rewrite (Hcopy Hdocs Hopen (Hwrite _)).
    rewrite lookup_insert_eq.
    rewrite json_loads_dumps by apply wf_result_set.
    cbn [mbind option_bind]. apply read_result_set_result_set.
Qed.



(** Where the exceptions that leave [main] come from: [int] on
    [MAX_RESULTS], line 84, or the [except] clause. *)
Lemma main_raise_sources (env : Environ) (args : Args.t) (w w' : World)
    (e : exn) :
  main h env args w = (Raise e, w') ->
  (main_max_results h env args = Raise e /\ w' = w)
  \/ (exists n,
        main_max_results h env args = Ok n /\ w' = w
        /\ (main_banner h (main_query env args) n = Raise e
            \/ exists banner,
                 main_banner h (main_query env args) n = Ok banner
                 /\ print_denied h banner = Some e))
  \/ exists n banner e0 w1,
       main_max_results h env args = Ok n
       /\ main_banner h (main_query env args) n = Ok banner
       /\ print_denied h banner = None
       /\ main_try h args (main_query env args) n (add_line banner w)
          = (Raise e0, w1)
       /\ main_except h args (main_query env args) e0 w1 = (Raise e, w').
Proof.
  destruct (main_max_results h env args) as [n|e1] eqn:Hn.
  - destruct (main_banner h (main_query env args) n) as [banner|e1] eqn:Hb.
    + destruct (print_denied h banner) as [e1|] eqn:Hp.
      * rewrite (main_raise_banner _ _ _ n e1 Hn) by (right; by exists banner).
        intros [= -> <-]. right. left. exists n. split; [done|].
        split; [done|]. right. by exists banner.
      * rewrite (main_run _ _ _ _ _ Hn Hb Hp). unfold try_except.
        destruct (main_try h args (main_query env args) n _)
          as [[[]|e0] w1] eqn:Ht; [done|].
        intros He. right. right. by exists n, banner, e0, w1.
    + rewrite (main_raise_banner _ _ _ n e1 Hn) by by left.
      intros [= -> <-]. right. left. exists n. split; [done|].
      split; [done|]. by left.
  - rewrite (main_raise_max _ _ _ _ Hn). intros [= -> <-]. by left.
Qed.

End Main.

(** ** Sample runs of [main] *)

Lemma C2_fallback_witness :
  main_max_results (host_down URLError) no_environ (args_out "out.json")
  = Ok 20%Z
  /\ fetch (host_down URLError)
       (main_query no_environ (args_out "out.json")) 20
     = Raise URLError
  /\ exists w',
       main (host_down URLError) no_environ (args_out "out.json") empty_world
       = (Ok tt, w')
       /\ read_json (host_down URLError) w' (codes "out.json")
          = Some (JDict [ (codes "query", JStr (codes "all:machine learning"));
                          (codes "fetched_at", JInt 1700000000);
                          (codes "error",
                           JStr (codes "<urlopen error timed out>"));
                          (codes "papers", JList []) ]).
Proof.
  split; [reflexivity|]. split; [reflexivity|].
  destruct (C2_fallback_written (host_down URLError) no_environ
              (args_out "out.json") empty_world 20
              (codes "Fetching arXiv for query: all:machine learning (max=20)")
              URLError)
    as (w' & Hmain & _ & Hread & _); try reflexivity.
  exists w'. split; [exact Hmain | exact Hread].
Defined.

(** C2, counterexamples.  (1) An exception without a message gives a
    fallback whose [error] is the empty string.  (2) With the default
    destination and no [docs] directory, which only the [try] block would
    have made, the fallback cannot be opened: the exception of [open] leaves
    [main] and no file is written.  (3) A query with a lone surrogate makes
    [quote] raise, and the fallback, which holds the query, cannot be
    encoded either.  (4) On a console that takes UTF-8 only, a destination
    whose name holds a lone surrogate makes the last [print] raise, after
    the fallback was written.  (5) On a full disk the write of the
    fallback raises. *)
Lemma C2_fallback_counterexamples :
  (fst (main (host_down MemoryError) no_environ (args_out "out.json")
          empty_world) = Ok tt
   /\ read_json (host_down MemoryError)
        (snd (main (host_down MemoryError) no_environ (args_out "out.json")
                empty_world))
        (codes "out.json")
      = Some (JDict [ (codes "query", JStr (codes "all:machine learning"));
                      (codes "fetched_at", JInt 1700000000);
                      (codes "error", JStr []);
                      (codes "papers", JList []) ]))
  /\ (fetch (host_down URLError) (main_query no_environ default_args) 20
      = Raise URLError
      /\ fst (main (host_down URLError) no_environ default_args empty_world)
         = Raise (FileNotFoundError (codes "docs/arxiv_data.json"))
      /\ files (snd (main (host_down URLError) no_environ default_args
                       empty_world)) = ∅)
  /\ (fetch (host_up (clock_at 0) [])
        (main_query no_environ (Args.mk (Some [0xDC80]) 20 (codes "out.json")))
        20
      = Raise UnicodeEncodeError
      /\ main (host_up (clock_at 0) []) no_environ
           (Args.mk (Some [0xDC80]) 20 (codes "out.json")) empty_world
         = (Raise UnicodeEncodeError,
            snd (main (host_up (clock_at 0) []) no_environ
                   (Args.mk (Some [0xDC80]) 20 (codes "out.json"))
                   empty_world))
      /\ files (snd (main (host_up (clock_at 0) []) no_environ
                       (Args.mk (Some [0xDC80]) 20 (codes "out.json"))
                       empty_world)) !! codes "out.json"
         = Some Torn)
  /\ (fetch (strict_console (host_down URLError))
        (main_query no_environ
           (Args.mk None 20 (codes "caf" ++ 0xDCE9 :: codes ".json"))) 20
      = Raise URLError
      /\ fst (main (strict_console (host_down URLError)) no_environ
                (Args.mk None 20 (codes "caf" ++ 0xDCE9 :: codes ".json"))
                empty_world)
         = Raise UnicodeEncodeError
      /\ read_json (strict_console (host_down URLError))
           (snd (main (strict_console (host_down URLError)) no_environ
                   (Args.mk None 20 (codes "caf" ++ 0xDCE9 :: codes ".json"))
                   empty_world))
           (codes "caf" ++ 0xDCE9 :: codes ".json")
         = Some (fallback_json (codes "all:machine learning") 1700000000
                   URLError))
  /\ (fetch (full_disk (host_down URLError))
        (main_query no_environ (args_out "out.json")) 20
      = Raise URLError
      /\ fst (main (full_disk (host_down URLError)) no_environ
                (args_out "out.json") empty_world)
         = Raise OSError_no_space
      /\ files (snd (main (full_disk (host_down URLError)) no_environ
                       (args_out "out.json") empty_world))
           !! codes "out.json"
         = Some (Whole []))
  /\ ~ (forall h env args w n e,
          main_max_results h env args = Ok n ->
          fetch h (main_query env args) n = Raise e ->
          exists w' t,
            main h env args w = (Ok tt, w')
            /\ read_json h w' (Args.out args)
               = Some (fallback_json (main_query env args) t e)
            /\ exn_str e <> []).
Proof.
  split; [split; vm_compute; reflexivity|].
  split; [repeat split; vm_compute; reflexivity|].
  split; [repeat split; vm_compute; reflexivity|].
  split; [repeat split; vm_compute; reflexivity|].
  split; [repeat split; vm_compute; reflexivity|].
  intros H.
  destruct (H (host_down MemoryError) no_environ (args_out "out.json")
              empty_world 20%Z MemoryError eq_refl eq_refl)
    as (w' & t & _ & _ & Hne).
  by apply Hne.
Qed.

Lemma C3_secondary_copy_witness :
  main_max_results (host_up (clock_at 1700000000) []) no_environ default_args
  = Ok 20%Z
  /\ fetch (host_up (clock_at 1700000000) [])
       (main_query no_environ default_args) 20
     = Ok (fetch_papers sample_feed)
  /\ realpath (host_up (clock_at 1700000000) []) (Args.out default_args)
     <> realpath (host_up (clock_at 1700000000) []) (codes "arxiv_data.json")
  /\ exists w',
       main (host_up (clock_at 1700000000) []) no_environ default_args
         empty_world = (Ok tt, w')
       /\ files w' !! codes "docs/arxiv_data.json"
          = Some (Whole (dumps 0 (result_set (codes "all:machine learning")
                                    1700000000 (fetch_papers sample_feed))))
       /\ exists k,
            (read_json (host_up (clock_at 1700000000) []) w'
               (codes "arxiv_data.json") ≫= read_result_set)
            = Some (codes "all:machine learning",
                    clock_at 1700000000 k, fetch_papers sample_feed).
Proof.
  split; [reflexivity|]. split; [reflexivity|].
  split; [vm_compute; discriminate|].
  destruct (C3_secondary_copy (host_up (clock_at 1700000000) []) no_environ
              default_args empty_world
              (snd (main_primary (host_up (clock_at 1700000000) [])
                      default_args (main_query no_environ default_args)
                      (fetch_papers sample_feed)
                      (add_line
                         (codes "Fetching arXiv for query: all:machine learning (max=20)")
                         empty_world)))
              20
              (codes "Fetching arXiv for query: all:machine learning (max=20)")
              (codes "Wrote docs/arxiv_data.json with 2 papers")
              (fetch_papers sample_feed))
    as (w' & Hmain & Hout & _ & _ & Hcopy);
    [reflexivity | reflexivity | reflexivity | vm_compute; reflexivity
    | vm_compute; reflexivity | reflexivity
    | intros _; vm_compute; discriminate |].
  exists w'. split; [exact Hmain|]. split; [exact Hout|].
  destruct Hcopy as (k & _ & Hread); [reflexivity | reflexivity | done |].
  by exists k.
Defined.

(** C3, counterexamples.  (1) The clock is read once for each file: when
    it moves between the two readings, the copy at the root carries another
    [fetched_at] than the primary file and the two contents differ.  (2)
    When the root file cannot be opened, the destination is under [docs/]
    and yet no second file is written.  (3) The destination
    [docs/../arxiv_data.json] is under [docs/] and is the root file itself:
    one file is written twice, there is no second file, and the file holds
    what the second write left.  (4) On a console that takes UTF-8 only, a
    destination under [docs/] whose name holds a lone surrogate makes the
    closing [print] raise after both files were written: the fallback then
    replaces the primary file, and the copy at the root holds the
    papers. *)
Lemma C3_copy_counterexamples :
  (fst (main (host_up (clock_from 1700000000) []) no_environ default_args
          empty_world) = Ok tt
   /\ (read_json (host_up (clock_from 1700000000) [])
         (snd (main (host_up (clock_from 1700000000) []) no_environ
                 default_args empty_world))
         (codes "docs/arxiv_data.json") ≫= read_result_set)
      = Some (codes "all:machine learning", 1700000000%Z,
              fetch_papers sample_feed)
   /\ (read_json (host_up (clock_from 1700000000) [])
         (snd (main (host_up (clock_from 1700000000) []) no_environ
                 default_args empty_world))
         (codes "arxiv_data.json") ≫= read_result_set)
      = Some (codes "all:machine learning", 1700000001%Z,
              fetch_papers sample_feed)
   /\ files (snd (main (host_up (clock_from 1700000000) []) no_environ
                    default_args empty_world)) !! codes "arxiv_data.json"
      <> files (snd (main (host_up (clock_from 1700000000) []) no_environ
                       default_args empty_world))
           !! codes "docs/arxiv_data.json")
  /\ (fst (main (host_up (clock_at 1700000000) [codes "arxiv_data.json"])
             no_environ default_args empty_world) = Ok tt
      /\ startswith (Args.out default_args) (codes "docs/") = true
      /\ files (snd (main (host_up (clock_at 1700000000)
                             [codes "arxiv_data.json"])
                       no_environ default_args empty_world))
           !! codes "arxiv_data.json" = None
      /\ is_Some (files (snd (main (host_up (clock_at 1700000000)
                                      [codes "arxiv_data.json"])
                                no_environ default_args empty_world))
                    !! codes "docs/arxiv_data.json"))
  /\ (fst (main (host_up (clock_from 1700000000) []) no_environ
             (args_out "docs/../arxiv_data.json") empty_world) = Ok tt
      /\ startswith (Args.out (args_out "docs/../arxiv_data.json"))
           (codes "docs/") = true
      /\ realpath (host_up (clock_from 1700000000) [])
           (codes "docs/../arxiv_data.json")
         = realpath (host_up (clock_from 1700000000) [])
             (codes "arxiv_data.json")
      /\ size (files (snd (main (host_up (clock_from 1700000000) [])
                             no_environ (args_out "docs/../arxiv_data.json")
                             empty_world))) = 1%nat
      /\ (read_json (host_up (clock_from 1700000000) [])
            (snd (main (host_up (clock_from 1700000000) []) no_environ
                    (args_out "docs/../arxiv_data.json") empty_world))
            (codes "docs/../arxiv_data.json") ≫= read_result_set)
         = Some (codes "all:machine learning", 1700000001%Z,
                 fetch_papers sample_feed))
  /\ (fst (main (strict_console (host_up (clock_at 1700000000) []))
             no_environ
             (Args.mk None 20 (codes "docs/caf" ++ 0xDCE9 :: codes ".json"))
             empty_world)
      = Raise UnicodeEncodeError
      /\ (read_json (strict_console (host_up (clock_at 1700000000) []))
            (snd (main (strict_console (host_up (clock_at 1700000000) []))
                    no_environ
                    (Args.mk None 20
                       (codes "docs/caf" ++ 0xDCE9 :: codes ".json"))
                    empty_world))
            (codes "docs/caf" ++ 0xDCE9 :: codes ".json"))
         = Some (fallback_json (codes "all:machine learning") 1700000000
                   UnicodeEncodeError)
      /\ (read_json (strict_console (host_up (clock_at 1700000000) []))
            (snd (main (strict_console (host_up (clock_at 1700000000) []))
                    no_environ
                    (Args.mk None 20
                       (codes "docs/caf" ++ 0xDCE9 :: codes ".json"))
                    empty_world))
            (codes "arxiv_data.json") ≫= read_result_set)
         = Some (codes "all:machine learning", 1700000000%Z,
                 fetch_papers sample_feed))
  /\ ~ (forall h env args w w' n ps,
          main_max_results h env args = Ok n ->
          fetch h (main_query env args) n = Ok ps ->
          main h env args w = (Ok tt, w') ->
          is_Some (files w' !! realpath h (Args.out args)) ->
          startswith (Args.out args) (codes "docs/") = true ->
          files w' !! realpath h (codes "arxiv_data.json")
          = files w' !! realpath h (Args.out args)).
Proof.
  assert (files (snd (main (host_up (clock_from 1700000000) []) no_environ
                        default_args empty_world)) !! codes "arxiv_data.json"
          <> files (snd (main (host_up (clock_from 1700000000) [])
                           no_environ default_args empty_world))
               !! codes "docs/arxiv_data.json") as Hdiff
    by (vm_compute; discriminate).
  split; [|split; [|split; [|split]]].
  - split; [vm_compute; reflexivity|]. split; [vm_compute; reflexivity|].
    split; [vm_compute; reflexivity|]. exact Hdiff.
  - split; [vm_compute; reflexivity|]. split; [reflexivity|].
    split; [vm_compute; reflexivity|].
    vm_compute. by eexists.
  - repeat split; vm_compute; reflexivity.
  - repeat split; vm_compute; reflexivity.
  - intros H. apply Hdiff.
    apply (H (host_up (clock_from 1700000000) []) no_environ default_args
             empty_world _ 20%Z (fetch_papers sample_feed));
      [reflexivity | reflexivity | vm_compute; reflexivity
      | vm_compute; by eexists | reflexivity].
Qed.



(** ** More on the parser *)

Section ParserMore.

(** X1.  The records of [fetch] follow the entry nodes among the children of the
    root: as many, in the same order, each made from its own node; the
    children of a root put together give the records put together. *)
Theorem fetch_records_follow_entries (root : Element) :
  length (fetch_papers root)
  = length (findall root (ATOM ++ codes "entry"))
  /\ (forall i,
        fetch_papers root !! i
        = fetch_entry <$> findall root (ATOM ++ codes "entry") !! i)
  /\ (forall tg txt kids1 kids2,
        fetch_papers (mkElement tg txt (kids1 ++ kids2))
        = fetch_papers (mkElement tg txt kids1)
          ++ fetch_papers (mkElement tg txt kids2)).
Proof.
  split; [apply fetch_papers_length|]. split; [apply fetch_papers_lookup|].
  intros tg txt kids1 kids2. rewrite !fetch_papers_map.
  unfold findall. cbn [children].
  by rewrite List.filter_app, map_app.
Qed.

(** X2.  The author list has one item for every author node that has a name
    element, and none for the others; all its items are strings exactly
    when every name element used has a text. *)
Theorem fetch_authors_shape (entry : Element) :
  length (fetch_authors entry)
  = length (List.filter has_name (findall entry (ATOM ++ codes "author")))
  /\ (length (fetch_authors entry)
      <= length (findall entry (ATOM ++ codes "author")))%nat
  /\ forallb is_some_text (fetch_authors entry)
     = forallb name_has_text (findall entry (ATOM ++ codes "author")).
Proof.
  unfold fetch_authors.
  set (authors := findall entry (ATOM ++ codes "author")).
  split; [|split].
  - induction authors as [|a l IH]; [done|].
    cbn [flat_map List.filter]. rewrite length_app. unfold has_name at 1.
    destruct (find a _); cbn [length Nat.add]; by rewrite IH.
  - induction authors as [|a l IH]; [done|].
    cbn [flat_map]. rewrite length_app.
    destruct (find a _); cbn [length Nat.add]; lia.
  - induction authors as [|a l IH]; [done|].
    cbn [flat_map forallb]. rewrite forallb_app, IH. f_equal.
    unfold name_has_text.
    destruct (find a _) as [nm|]; [|reflexivity].
    cbn [forallb is_some_text]. by destruct (text nm).
Qed.

Lemma lstrip_blank (s : str) : blank s -> lstrip s = [].
Proof.
  induction s as [|c s IH]; [done|].
  intros [Hc Hs]%Forall_cons. simpl. rewrite Hc. by apply IH.
Qed.

(** X3.  A node whose text is white space only gives the empty string, and an
    entry whose identifier is such a node gets the empty link. *)
Theorem text_of_blank_node (tg t : str) (kids : list Element) :
  forallb isspace t = true ->
  _text (Some (mkElement tg (Some t) kids)) = []
  /\ fetch_pdf (_text (Some (mkElement tg (Some t) kids))) = [].
Proof.
  intros Ht.
  assert (_text (Some (mkElement tg (Some t) kids)) = []) as ->; [|done].
  rewrite _text_strip. cbn [raw_text text default].
  unfold strip. rewrite lstrip_blank; [done|].
  apply Forall_forall. rewrite forallb_forall in Ht.
  intros c Hc. apply Ht. by apply list_elem_of_In.
Qed.

Lemma text_of_blank_node_witness :
  forallb isspace [32; 10; 9; 0xA0] = true
  /\ _text (Some (mkElement (ATOM ++ codes "title") (Some [32; 10; 9; 0xA0])
                    [])) = [].
Proof.
  split; [reflexivity|].
  apply (text_of_blank_node (ATOM ++ codes "title") [32; 10; 9; 0xA0] []).
  reflexivity.
Defined.

End ParserMore.

(** ** More on the document link *)

Section LinkMore.

Lemma startswith_split (s p : str) :
  startswith s p = true -> exists r, s = p ++ r.
Proof.
  revert s. induction p as [|a p IH]; intros s; [by exists s|].
  destruct s as [|b s]; [done|]. cbn [startswith].
  intros [->%N.eqb_eq H]%andb_true_iff.
  destruct (IH _ H) as [r ->]. by exists r.
Qed.

Lemma startswith_app_same (p r : str) : startswith (p ++ r) p = true.
Proof.
  induction p as [|a p IH]; [done|].
  cbn [app startswith]. by rewrite N.eqb_refl, IH.
Qed.

(** [occurs] is the occurrence of a substring. *)
Lemma occurs_spec (s old : str) :
  occurs s old = true <-> exists l r, s = l ++ old ++ r.
Proof.
  split.
  - induction s as [|c s IH]; cbn [occurs].
    + rewrite orb_false_r. intros [r ->]%startswith_split. by exists [], r.
    + intros [[r ->]%startswith_split|H]%orb_true_iff; [by exists [], r|].
      destruct (IH H) as (l & r & ->). by exists (c :: l), r.
  - intros (l & r & ->). induction l as [|c l IH].
    + cbn [app]. destruct (old ++ r) eqn:E; cbn [occurs];
        rewrite <- E, startswith_app_same; done.
    + cbn [app occurs]. rewrite IH. apply orb_true_r.
Qed.

Lemma replace_from_length (old new : str) (s : str) (skip : nat) :
  old <> [] -> length new = length old ->
  (skip <= length s)%nat ->
  (length (replace_from old new skip s) + skip = length s)%nat.
Proof.
  intros Hold Hlen.
  assert (1 <= length old)%nat as Hpos by (destruct old; [done|simpl; lia]).
  revert skip.
  induction s as [|c s IH]; intros skip Hskip.
  - simpl in *. lia.
  - destruct skip as [|k]; cbn [replace_from].
    + destruct (startswith (c :: s) old) eqn:Hm.
      * apply startswith_length in Hm. cbn [length] in Hm.
        rewrite length_app.
        specialize (IH (length old - 1)%nat). cbn [length]. lia.
      * specialize (IH 0%nat). cbn [length]. lia.
    + cbn [length] in *. specialize (IH k). lia.
Qed.

Lemma replace_abs_length (s : str) :
  length (replace s (codes "/abs/") (codes "/pdf/")) = length s.
Proof.
  pose proof (replace_from_length (codes "/abs/") (codes "/pdf/") s 0) as H.
  unfold replace. cbn [codes] in *. cbn match in *.
  rewrite <- H; [lia|done|done|lia].
Qed.

Lemma truthy_length (s : str) : truthy s = negb (length s =? 0)%nat.
Proof. by destruct s. Qed.

Lemma endswith_app_same (s p : str) : endswith (s ++ p) p = true.
Proof. unfold endswith. rewrite rev_app_distr. apply startswith_app_same. Qed.

(** X4.  The link is empty exactly when the identifier is; any other link ends
    in [.pdf]; the link is as long as the identifier, or four characters
    longer. *)
Theorem fetch_pdf_shape (id_url : str) :
  truthy (fetch_pdf id_url) = truthy id_url
  /\ endswith (fetch_pdf id_url) (codes ".pdf") = truthy id_url
  /\ (length (fetch_pdf id_url) = length id_url
      \/ length (fetch_pdf id_url) = (length id_url + 4)%nat).
Proof.
  unfold fetch_pdf.
  pose proof (replace_abs_length id_url) as Hlen.
  set (pdf := replace id_url (codes "/abs/") (codes "/pdf/")) in *.
  assert (truthy pdf = truthy id_url) as Ht
    by (by rewrite !truthy_length, Hlen).
  destruct (truthy pdf) eqn:Hp; cbn [andb].
  - destruct (endswith pdf (codes ".pdf")) eqn:He; cbn [negb].
    + rewrite Hp, He, <- Ht. split; [done|]. split; [done|]. by left.
    + rewrite endswith_app_same, <- Ht. split; [by destruct pdf|].
      split; [done|]. right. rewrite length_app, Hlen. reflexivity.
  - rewrite Hp, <- Ht. destruct pdf; [|done].
    split; [done|]. split; [done|]. by left.
Qed.

Lemma replace_from_absent (old new s : str) :
  occurs s old = false -> replace_from old new 0 s = s.
Proof.
  induction s as [|c s IH]; [done|].
  cbn [occurs replace_from]. intros [-> Hs]%orb_false_iff.
  by rewrite IH.
Qed.

(** X5.  An identifier without [/abs/] is kept as it is and gets the suffix
    [.pdf], unless it is empty or has the suffix already. *)
Theorem fetch_pdf_without_abs (id_url : str) :
  occurs id_url (codes "/abs/") = false ->
  fetch_pdf id_url
  = if truthy id_url && negb (endswith id_url (codes ".pdf"))
    then id_url ++ codes ".pdf"
    else id_url.
Proof.
  intros Hno. unfold fetch_pdf.
  change (replace id_url (codes "/abs/") (codes "/pdf/"))
    with (replace_from (codes "/abs/") (codes "/pdf/") 0 id_url).
  by rewrite replace_from_absent.
Qed.

Lemma fetch_pdf_without_abs_witness :
  occurs (codes "https://doi.org/10.1000/182") (codes "/abs/") = false
  /\ fetch_pdf (codes "https://doi.org/10.1000/182")
     = codes "https://doi.org/10.1000/182.pdf".
Proof.
  split; [reflexivity|].
  apply (fetch_pdf_without_abs (codes "https://doi.org/10.1000/182")).
  reflexivity.
Defined.

End LinkMore.

(** ** More on the request URL *)

Section UrlMore.

Lemma utf8_bytes_safe (s : str) :
  forallb quote_safe s = true -> utf8_bytes s = Some s.
Proof.
  induction s as [|c s IH]; [done|].
  cbn [forallb utf8_bytes]. intros [Hc Hs]%andb_true_iff.
  rewrite (IH Hs).
  assert (c < 0x80) as Hlt.
  { unfold quote_safe, isalpha_ascii, isdigit in Hc.
    rewrite !orb_true_iff, !andb_true_iff, !N.leb_le, !N.eqb_eq in Hc. lia. }
  unfold utf8_char. apply N.ltb_lt in Hlt. by rewrite Hlt.
Qed.

Lemma quote_bytes_safe (s : str) :
  forallb quote_safe s = true -> flat_map quote_byte s = s.
Proof.
  induction s as [|c s IH]; [done|].
  cbn [forallb flat_map]. intros [Hc Hs]%andb_true_iff.
  unfold quote_byte at 1. by rewrite Hc, (IH Hs).
Qed.

(** X6.  A query made of letters, digits and [_.-~/] only goes into the URL as
    it is, whenever the count can be turned into text. *)
Theorem fetch_url_of_plain_query (h : Host) (query : str)
    (max_results : Z) :
  forallb quote_safe query = true ->
  int_fits h max_results = true ->
  quote query = Ok query
  /\ fetch_url h query max_results
     = Ok (codes "https://export.arxiv.org/api/query?search_query="
           ++ query ++ codes "&start=0&max_results="
           ++ format_int max_results
           ++ codes "&sortBy=lastUpdatedDate&sortOrder=descending").
Proof.
  intros Hq Hfit.
  assert (quote query = Ok query) as Hquote.
  { unfold quote, encode_utf8. rewrite (utf8_bytes_safe _ Hq).
    cbn [mbind result_bind]. by rewrite (quote_bytes_safe _ Hq). }
  split; [exact Hquote|].
  unfold fetch_url. rewrite Hquote. cbn [mbind result_bind].
  by rewrite (str_of_int_fits _ _ Hfit).
Qed.

Lemma fetch_url_of_plain_query_witness :
  forallb quote_safe (codes "cat/cs.AI_2024-01~x") = true
  /\ int_fits (host_up (clock_at 0) []) 20 = true
  /\ quote (codes "cat/cs.AI_2024-01~x") = Ok (codes "cat/cs.AI_2024-01~x")
  /\ fetch_url (host_up (clock_at 0) []) (codes "cat/cs.AI_2024-01~x") 20
     = Ok (codes "https://export.arxiv.org/api/query?search_query="
           ++ codes "cat/cs.AI_2024-01~x" ++ codes "&start=0&max_results="
           ++ format_int 20
           ++ codes "&sortBy=lastUpdatedDate&sortOrder=descending").
Proof.
  split; [reflexivity|]. split; [reflexivity|].
  apply (fetch_url_of_plain_query (host_up (clock_at 0) [])
           (codes "cat/cs.AI_2024-01~x") 20); reflexivity.
Defined.

End UrlMore.

(** ** The query in the URL *)

Ltac div_lia := zify; Z.to_euclidean_division_equations; lia.

Section UrlQuery.

Lemma lor_add_pow2 (a b k : N) :
  b < 2 ^ k -> N.lor (a * 2 ^ k) b = a * 2 ^ k + b.
Proof.
  intros Hb.
  assert (N.land (a * 2 ^ k) b = 0) as Hland.
  { apply N.bits_inj_0. intros m. rewrite N.land_spec.
    destruct (N.lt_ge_cases m k) as [Hm|Hm].
    - by rewrite N.mul_pow2_bits_low.
    - destruct (N.eq_dec b 0) as [->|Hb0];
        [by rewrite N.bits_0, andb_false_r|].
      rewrite (N.bits_above_log2 b m), andb_false_r; [done|].
      apply N.lt_le_trans with k; [|done].
      apply N.log2_lt_pow2; [lia|done]. }
  rewrite N.add_nocarry_lxor by done. by rewrite N.lxor_lor.
Qed.

Lemma shiftr_div (c k : N) : N.shiftr c k = c / 2 ^ k.
Proof. apply N.shiftr_div_pow2. Qed.

Lemma land_63_mod (c : N) : N.land c 0x3F = c mod 64.
Proof. change 0x3F with (N.ones 6). by rewrite N.land_ones. Qed.

(** The bytes of one code point, in arithmetic. *)
Lemma utf8_char_arith (c : N) :
  utf8_char c
  = if c <? 0x80 then Some [c]
    else if c <? 0x800 then Some [192 + c / 64; 128 + c mod 64]
    else if is_surrogate c then None
    else if c <? 0x10000 then
      Some [224 + c / 4096; 128 + (c / 64) mod 64; 128 + c mod 64]
    else if c <? 0x110000 then
      Some [240 + c / 262144; 128 + (c / 4096) mod 64;
            128 + (c / 64) mod 64; 128 + c mod 64]
    else None.
Proof.
  unfold utf8_char. rewrite !land_63_mod, !shiftr_div.
  change (2 ^ 6) with 64. change (2 ^ 12) with 4096.
  change (2 ^ 18) with 262144.
  assert (forall x, N.lor 0x80 (x mod 64) = 128 + x mod 64) as Hcont.
  { intros x. change 0x80 with (2 * 2 ^ 6). rewrite lor_add_pow2; [done|].
    apply N.mod_lt. done. }
  rewrite !Hcont.
  destruct (N.ltb_spec c 0x80); [done|].
  destruct (N.ltb_spec c 0x800).
  { do 2 f_equal. change 0xC0 with (3 * 2 ^ 6).
    rewrite lor_add_pow2; [done|]. change (2 ^ 6) with 64. div_lia. }
  destruct (is_surrogate c); [done|].
  destruct (N.ltb_spec c 0x10000).
  { do 2 f_equal. change 0xE0 with (14 * 2 ^ 4).
    rewrite lor_add_pow2; [done|]. change (2 ^ 4) with 16. div_lia. }
  destruct (N.ltb_spec c 0x110000); [|done].
  do 2 f_equal. change 0xF0 with (15 * 2 ^ 4).
  rewrite lor_add_pow2; [done|]. change (2 ^ 4) with 16. div_lia.
Qed.

Lemma utf8_decode_char (c : N) (b : list N) (rest : list N) :
  utf8_char c = Some b ->
  utf8_decode (b ++ rest) = cons_some c (utf8_decode rest).
Proof.
  rewrite utf8_char_arith.
  destruct (N.ltb_spec c 0x80) as [H1|H1].
  { intros [= <-]. cbn [app utf8_decode].
    by rewrite (proj2 (N.ltb_lt c 0x80)). }
  destruct (N.ltb_spec c 0x800) as [H2|H2].
  { intros [= <-]. cbn [app utf8_decode]. unfold is_cont.
    rewrite (proj2 (N.ltb_ge _ 0x80)) by div_lia.
    rewrite (proj2 (N.leb_le 0xC2 _)), (proj2 (N.leb_le _ 0xDF)) by div_lia.
    rewrite (proj2 (N.leb_le 0x80 _)), (proj2 (N.leb_le _ 0xBF)) by div_lia.
    cbn [andb]. f_equal. div_lia. }
  destruct (is_surrogate c) eqn:Hs; [done|].
  destruct (N.ltb_spec c 0x10000) as [H3|H3].
  { intros [= <-]. cbn [app utf8_decode]. unfold is_cont.
    rewrite (proj2 (N.ltb_ge _ 0x80)) by div_lia.
    assert ((0xC2 <=? 224 + c / 4096) && (224 + c / 4096 <=? 0xDF) = false)
      as -> by (apply andb_false_iff; right; apply N.leb_gt; div_lia).
    rewrite (proj2 (N.leb_le 0xE0 _)), (proj2 (N.leb_le _ 0xEF)) by div_lia.
    rewrite !(proj2 (N.leb_le 0x80 _)), !(proj2 (N.leb_le _ 0xBF)) by div_lia.
    cbn [andb].
    assert (4096 * (224 + c / 4096 - 0xE0) + 64 * (128 + (c / 64) mod 64 - 0x80)
            + (128 + c mod 64 - 0x80) = c) as -> by div_lia.
    rewrite Hs, (proj2 (N.leb_le 0x800 c)) by done. reflexivity. }
  destruct (N.ltb_spec c 0x110000) as [H4|H4]; [|done].
  intros [= <-]. cbn [app utf8_decode]. unfold is_cont.
  rewrite (proj2 (N.ltb_ge _ 0x80)) by div_lia.
  assert ((0xC2 <=? 240 + c / 262144) && (240 + c / 262144 <=? 0xDF) = false)
    as -> by (apply andb_false_iff; right; apply N.leb_gt; div_lia).
  assert ((0xE0 <=? 240 + c / 262144) && (240 + c / 262144 <=? 0xEF) = false)
    as -> by (apply andb_false_iff; right; apply N.leb_gt; div_lia).
  rewrite (proj2 (N.leb_le 0xF0 _)), (proj2 (N.leb_le _ 0xF4)) by div_lia.
  rewrite !(proj2 (N.leb_le 0x80 _)), !(proj2 (N.leb_le _ 0xBF)) by div_lia.
  cbn [andb].
  assert (262144 * (240 + c / 262144 - 0xF0)
          + 4096 * (128 + (c / 4096) mod 64 - 0x80)
          + 64 * (128 + (c / 64) mod 64 - 0x80)
          + (128 + c mod 64 - 0x80) = c) as -> by div_lia.
  rewrite (proj2 (N.leb_le 0x10000 c)), (proj2 (N.ltb_lt c 0x110000)) by done.
  reflexivity.
Qed.

(** Decoding gives back what was encoded. *)
Lemma utf8_decode_bytes (s : str) (bs : list N) :
  utf8_bytes s = Some bs -> utf8_decode bs = Some s.
Proof.
  revert bs. induction s as [|c s IH]; intros bs; [by intros [= <-]|].
  cbn [utf8_bytes].
  destruct (utf8_char c) as [b|] eqn:Hc; [|done].
  destruct (utf8_bytes s) as [bs'|]; [|done].
  intros [= <-]. rewrite (utf8_decode_char _ _ _ Hc).
  by rewrite (IH bs').
Qed.

End UrlQuery.

Section UrlShape.

Lemma format_int_inj (z z' : Z) : format_int z = format_int z' -> z = z'.
Proof.
  intros H.
  pose proof (match_number_format_int z [] eq_refl) as Hz.
  pose proof (match_number_format_int z' [] eq_refl) as Hz'.
  rewrite app_nil_r in Hz, Hz'. rewrite H in Hz. congruence.
Qed.

Lemma sep_free_app_inv (c : N) (a a' r r' : str) :
  forallb (fun x => negb (x =? c)) a = true ->
  forallb (fun x => negb (x =? c)) a' = true ->
  a ++ c :: r = a' ++ c :: r' -> a = a' /\ r = r'.
Proof.
  revert a'. induction a as [|x a IH]; intros [|x' a'] Ha Ha' Heq;
    cbn [app forallb] in *.
  - by injection Heq as ->.
  - injection Heq as <- _. apply andb_true_iff in Ha' as [Hx _].
    by rewrite N.eqb_refl in Hx.
  - injection Heq as -> _. apply andb_true_iff in Ha as [Hx _].
    by rewrite N.eqb_refl in Hx.
  - injection Heq as <- Heq.
    apply andb_true_iff in Ha as [_ Ha]. apply andb_true_iff in Ha' as [_ Ha'].
    destruct (IH _ Ha Ha' Heq) as [-> ->]. done.
Qed.

Lemma url_char_no_amp (s : str) :
  forallb url_char s = true -> forallb (fun x => negb (x =? 38)) s = true.
Proof.
  rewrite !forallb_forall. intros H x Hx. specialize (H x Hx).
  destruct (N.eqb_spec x 38) as [->|]; [discriminate H|done].
Qed.

Lemma format_int_no_amp (z : Z) :
  forallb (fun x => negb (x =? 38)) (format_int z) = true.
Proof.
  assert (forall d, forallb (fun x => negb (x =? 38)) (uint_codes d) = true)
    as Hd by (induction d; simpl; auto).
  unfold format_int. destruct (Z.to_int z); cbn [forallb]; by rewrite Hd.
Qed.

Lemma quote_inv (query encoded : str) :
  quote query = Ok encoded ->
  exists bytes,
    utf8_bytes query = Some bytes /\ encoded = flat_map quote_byte bytes
    /\ forallb is_byte bytes = true.
Proof.
  unfold quote, encode_utf8.
  destruct (utf8_bytes query) as [bytes|] eqn:Hb; [|done].
  intros [= <-]. exists bytes. split; [done|]. split; [done|].
  by eapply utf8_bytes_bytes.
Qed.

Lemma fetch_url_inv (h : Host) (query : str) (max_results : Z)
    (url : str) :
  fetch_url h query max_results = Ok url ->
  exists encoded,
    quote query = Ok encoded
    /\ int_fits h max_results = true
    /\ url = codes "https://export.arxiv.org/api/query?search_query="
             ++ encoded ++ codes "&start=0&max_results="
             ++ format_int max_results
             ++ codes "&sortBy=lastUpdatedDate&sortOrder=descending".
Proof.
  unfold fetch_url. destruct (quote query) as [encoded|] eqn:Hq; [|done].
  cbn [mbind result_bind].
  destruct (str_of_int h max_results) as [ds|] eqn:Hs; [|done].
  apply str_of_int_inv in Hs as [-> Hfit].
  intros [= <-]. by exists encoded.
Qed.

(** X7.  The query can be read back from every URL that is built: undoing the
    percent escapes of the [search_query] parameter and decoding the bytes
    gives the query. *)
Theorem url_query_reads_back (h : Host) (query : str) (max_results : Z)
    (url : str) :
  fetch_url h query max_results = Ok url ->
  exists encoded,
    url = codes "https://export.arxiv.org/api/query?search_query="
          ++ encoded ++ codes "&start=0&max_results="
          ++ format_int max_results
          ++ codes "&sortBy=lastUpdatedDate&sortOrder=descending"
    /\ utf8_decode (unquote_to_bytes encoded) = Some query.
Proof.
  intros (encoded & Hq & _ & ->)%fetch_url_inv.
  destruct (quote_inv _ _ Hq) as (bytes & Hb & -> & Hbytes).
  exists (flat_map quote_byte bytes). split; [reflexivity|].
  rewrite unquote_quote by done. by apply utf8_decode_bytes.
Qed.

Lemma url_query_reads_back_witness :
  fetch_url (host_up (clock_at 0) [])
    (codes "ti:" ++ [0x266B; 0x1F600; 233]) 5
  = Ok (codes "https://export.arxiv.org/api/query?search_query=ti%3A%E2%99%AB%F0%9F%98%80%C3%A9&start=0&max_results=5&sortBy=lastUpdatedDate&sortOrder=descending")
  /\ exists encoded,
       codes "https://export.arxiv.org/api/query?search_query=ti%3A%E2%99%AB%F0%9F%98%80%C3%A9&start=0&max_results=5&sortBy=lastUpdatedDate&sortOrder=descending"
       = codes "https://export.arxiv.org/api/query?search_query="
         ++ encoded ++ codes "&start=0&max_results=" ++ format_int 5
         ++ codes "&sortBy=lastUpdatedDate&sortOrder=descending"
       /\ utf8_decode (unquote_to_bytes encoded)
          = Some (codes "ti:" ++ [0x266B; 0x1F600; 233]).
Proof.
  split; [reflexivity|].
  apply (url_query_reads_back (host_up (clock_at 0) [])
           (codes "ti:" ++ [0x266B; 0x1F600; 233]) 5).
  reflexivity.
Defined.

(** X8.  Two requests with the same URL have the same query and the same
    count. *)
Theorem fetch_url_injective (h : Host) (query query' : str) (n n' : Z)
    (url : str) :
  fetch_url h query n = Ok url ->
  fetch_url h query' n' = Ok url ->
  query = query' /\ n = n'.
Proof.
  intros (e & Hq & _ & ->)%fetch_url_inv (e' & Hq' & _ & Heq)%fetch_url_inv.
  apply app_inv_head in Heq.
  destruct (quote_inv _ _ Hq) as (bs & Hb & -> & Hbytes).
  destruct (quote_inv _ _ Hq') as (bs' & Hb' & -> & Hbytes').
  change (codes "&start=0&max_results=")
    with (38 :: codes "start=0&max_results=") in Heq.
  rewrite <- !app_comm_cons in Heq.
  apply sep_free_app_inv in Heq as [He Hrest];
    [|by apply url_char_no_amp, quote_chars..].
  apply app_inv_head, app_inv_tail, format_int_inj in Hrest.
  split; [|done].
  apply (f_equal unquote_to_bytes) in He.
  rewrite !unquote_quote in He by done. subst bs'.
  apply utf8_decode_bytes in Hb, Hb'. congruence.
Qed.

Lemma fetch_url_injective_witness :
  fetch_url (host_up (clock_at 0) []) (codes "all:x y") 7
  = Ok (codes "https://export.arxiv.org/api/query?search_query=all%3Ax%20y&start=0&max_results=7&sortBy=lastUpdatedDate&sortOrder=descending")
  /\ (codes "all:x y" = codes "all:x y" /\ 7%Z = 7%Z).
Proof.
  split; [reflexivity|].
  apply (fetch_url_injective (host_up (clock_at 0) [])
           (codes "all:x y") (codes "all:x y") 7 7
           (codes "https://export.arxiv.org/api/query?search_query=all%3Ax%20y&start=0&max_results=7&sortBy=lastUpdatedDate&sortOrder=descending"));
    reflexivity.
Defined.

Lemma split_on_free (sep : N) (a : str) :
  forallb (fun x => negb (x =? sep)) a = true -> split_on sep a = [a].
Proof.
  induction a as [|x a IH]; [done|].
  cbn [forallb split_on]. intros [Hx Ha]%andb_true_iff.
  apply negb_true_iff in Hx. by rewrite Hx, IH.
Qed.

Lemma split_on_app (sep : N) (a b : str) :
  forallb (fun x => negb (x =? sep)) a = true ->
  split_on sep (a ++ sep :: b) = a :: split_on sep b.
Proof.
  induction a as [|x a IH]; cbn [app forallb split_on].
  - intros _. by rewrite N.eqb_refl.
  - intros [Hx Ha]%andb_true_iff.
    apply negb_true_iff in Hx. by rewrite Hx, IH.
Qed.

Lemma url_parameters_split (e d : str) :
  forallb (fun x => negb (x =? 38)) e = true ->
  forallb (fun x => negb (x =? 38)) d = true ->
  split_on 38 (codes "search_query=" ++ e ++ codes "&start=0&max_results="
               ++ d ++ codes "&sortBy=lastUpdatedDate&sortOrder=descending")
  = [ codes "search_query=" ++ e;
      codes "start=0";
      codes "max_results=" ++ d;
      codes "sortBy=lastUpdatedDate";
      codes "sortOrder=descending" ].
Proof.
  intros He Hd.
  replace (codes "search_query=" ++ e ++ codes "&start=0&max_results="
           ++ d ++ codes "&sortBy=lastUpdatedDate&sortOrder=descending")
    with ((codes "search_query=" ++ e)
          ++ 38 :: (codes "start=0"
          ++ 38 :: ((codes "max_results=" ++ d)
          ++ 38 :: (codes "sortBy=lastUpdatedDate"
          ++ 38 :: codes "sortOrder=descending"))))
    by (rewrite <- !app_assoc; reflexivity).
  rewrite split_on_app by (rewrite forallb_app, He; reflexivity).
  rewrite split_on_app by reflexivity.
  rewrite split_on_app by (rewrite forallb_app, Hd; reflexivity).
  rewrite split_on_app by reflexivity.
  by rewrite split_on_free by reflexivity.
Qed.

(** X9.  In every URL that is built, whatever the query and the count, also a
    negative one, the part behind the question mark splits at [&] into
    five parameters: the query cannot add a parameter or end its own. *)
Theorem fetch_url_parameters (h : Host) (query : str) (max_results : Z)
    (url : str) :
  fetch_url h query max_results = Ok url ->
  exists encoded qs,
    quote query = Ok encoded
    /\ url = codes "https://export.arxiv.org/api/query" ++ 63 :: qs
    /\ split_on 38 qs
       = [ codes "search_query=" ++ encoded;
           codes "start=0";
           codes "max_results=" ++ format_int max_results;
           codes "sortBy=lastUpdatedDate";
           codes "sortOrder=descending" ].
Proof.
  intros (encoded & Hq & _ & ->)%fetch_url_inv.
  destruct (quote_inv _ _ Hq) as (bytes & Hb & -> & Hbytes).
  exists (flat_map quote_byte bytes).
  exists (codes "search_query=" ++ flat_map quote_byte bytes
          ++ codes "&start=0&max_results=" ++ format_int max_results
          ++ codes "&sortBy=lastUpdatedDate&sortOrder=descending").
  split; [done|]. split; [reflexivity|].
  apply url_parameters_split; [by apply url_char_no_amp, quote_chars|].
  apply format_int_no_amp.
Qed.

Lemma fetch_url_parameters_witness :
  fetch_url (host_up (clock_at 0) []) (codes "a&b=c#d") (-3)
  = Ok (codes "https://export.arxiv.org/api/query?search_query=a%26b%3Dc%23d&start=0&max_results=-3&sortBy=lastUpdatedDate&sortOrder=descending")
  /\ exists encoded qs,
       quote (codes "a&b=c#d") = Ok encoded
       /\ codes "https://export.arxiv.org/api/query?search_query=a%26b%3Dc%23d&start=0&max_results=-3&sortBy=lastUpdatedDate&sortOrder=descending"
          = codes "https://export.arxiv.org/api/query" ++ 63 :: qs
       /\ split_on 38 qs
          = [ codes "search_query=" ++ encoded;
              codes "start=0";
              codes "max_results=" ++ format_int (-3);
              codes "sortBy=lastUpdatedDate";
              codes "sortOrder=descending" ].
Proof.
  split; [reflexivity|].
  apply (fetch_url_parameters (host_up (clock_at 0) [])
           (codes "a&b=c#d") (-3)).
  reflexivity.
Defined.

End UrlShape.

(** ** More on [write_output] *)

Section WriteOutputMore.

Context (h : Host).

(** X10.  Whatever [write_output] does, it reads the clock once and leaves the
    directories, the console and every file but the one that [path] names
    as they were. *)
Theorem write_output_frame (path query : str) (papers : list Paper.t)
    (w : World) :
  dirs (snd (write_output h path query papers w)) = dirs w
  /\ console (snd (write_output h path query papers w)) = console w
  /\ clock_reads (snd (write_output h path query papers w))
     = S (clock_reads w)
  /\ (forall k, k <> realpath h path ->
        files (snd (write_output h path query papers w)) !! k
        = files w !! k).
Proof.
  rewrite write_output_run. unfold write_text.
  destruct (open_check h (tick w) path); [by repeat split|].
  destruct (write_denied h path _) as [[e rest]|];
    [|destruct (utf8_bytes _)];
    cbn [snd dirs console clock_reads files set_file tick];
    (split; [done|]; split; [done|]; split; [done|]);
    intros k Hk; by rewrite lookup_insert_ne.
Qed.

(** X11.  [write_output] makes no directory: when the directory of [path] does
    not exist, it raises [FileNotFoundError] and no file changes. *)
Theorem write_output_needs_directory (path query : str)
    (papers : list Paper.t) (w : World) :
  open_denied h path = None ->
  truthy (dirname path) = true ->
  realpath h (dirname path) ∉ dirs w ->
  write_output h path query papers w
  = (Raise (FileNotFoundError path), tick w)
  /\ files (tick w) = files w.
Proof.
  intros Hd Ht Hdir. split; [|reflexivity].
  rewrite write_output_run. unfold write_text, open_check.
  rewrite Hd, Ht, forallb_app. cbn [forallb].
  unfold isdir at 2. cbn [dirs tick].
  rewrite (bool_decide_eq_false_2 _ Hdir).
  by rewrite andb_false_r.
Qed.

(** X12.  A second [write_output] to the same file, under the same path or
    another path that names it, replaces what the first wrote: when both
    calls return, the file holds the second result set, with the second
    reading of the clock, and nothing of the first. *)
Theorem write_output_twice (p1 p2 q1 q2 : str) (ps1 ps2 : list Paper.t)
    (w w1 w2 : World) :
  realpath h p1 = realpath h p2 ->
  write_output h p1 q1 ps1 w = (Ok tt, w1) ->
  write_output h p2 q2 ps2 w1 = (Ok tt, w2) ->
  files w2
  = <[realpath h p2 := Whole (dumps 0 (result_set q2
                                         (time_time h (S (clock_reads w)))
                                         ps2))]> (files w)
  /\ (read_json h w2 p1 ≫= read_result_set)
     = Some (q2, time_time h (S (clock_reads w)), ps2)
  /\ (read_json h w2 p2 ≫= read_result_set)
     = Some (q2, time_time h (S (clock_reads w)), ps2).
Proof.
  intros Hsame. rewrite !write_output_run.
  intros (_ & _ & _ & ->)%write_text_inv (_ & _ & _ & ->)%write_text_inv.
  cbn [files set_file tick clock_reads]. rewrite Hsame.
  split; [by rewrite insert_insert_eq|].
  unfold read_json. cbn [files set_file tick clock_reads].
  rewrite Hsame, lookup_insert_eq.
  rewrite json_loads_dumps by apply wf_result_set.
  cbn [mbind option_bind]. by rewrite read_result_set_result_set.
Qed.

Lemma encodable_result_set_query (q : str) (t : Z) (ps : list Paper.t) :
  encodable q = false -> encodable (dumps 0 (result_set q t ps)) = false.
Proof.
  intros Hq. unfold result_set.
  remember (JList (map paper_json ps)) as pv.
  cbn [dumps dump_dict_items fst snd].
  rewrite !encodable_app, !encodable_basestring, Hq.
  by rewrite !andb_false_r.
Qed.

(** X13.  When the query cannot be encoded, and the host refuses nothing,
    [write_output] raises [UnicodeEncodeError] after the file was opened:
    what the file held is gone and what is left does not read as JSON. *)
Theorem write_output_tears_file (path query : str) (papers : list Paper.t)
    (w : World) :
  open_check h w path = None ->
  write_denied h path
    (dumps 0 (result_set query (time_time h (clock_reads w)) papers)) = None ->
  encodable query = false ->
  exists w',
    write_output h path query papers w = (Raise UnicodeEncodeError, w')
    /\ files w' !! realpath h path = Some Torn
    /\ read_json h w' path = None.
Proof.
  intros Ho Hw Hq. rewrite write_output_run. unfold write_text.
  change (open_check h (tick w) path) with (open_check h w path).
  rewrite Ho, Hw.
  destruct (utf8_bytes _) as [bs|] eqn:Hb.
  - apply utf8_bytes_some in Hb.
    by rewrite encodable_result_set_query in Hb.
  - eexists. split; [reflexivity|].
    unfold read_json. cbn [files set_file]. by rewrite lookup_insert_eq.
Qed.

End WriteOutputMore.

Section StringsWritten.

Lemma escape_char_plain (c : N) : json_plain c = true -> escape_char c = [c].
Proof.
  unfold json_plain, escape_char.
  rewrite !andb_true_iff, !negb_true_iff, N.leb_le.
  intros [[Hc H34] H92]. rewrite H34, H92.
  repeat match goal with
  | |- context [c =? ?k] => destruct (N.eqb_spec c k); [lia|]
  end.
  destruct (N.ltb_spec c 32); [lia|done].
Qed.

Lemma escape_char_printable (c : N) :
  forallb (fun x => 32 <=? x) (escape_char c) = true.
Proof.
  unfold escape_char.
  repeat match goal with
  | |- context [if c =? ?k then _ else _] =>
      destruct (N.eqb_spec c k) as [->|]; [reflexivity|]
  end.
  destruct (N.ltb_spec c 32) as [Hlt|Hge].
  - assert (c = 0 \/ c = 1 \/ c = 2 \/ c = 3 \/ c = 4 \/ c = 5 \/ c = 6
            \/ c = 7 \/ c = 11 \/ c = 14 \/ c = 15 \/ c = 16 \/ c = 17
            \/ c = 18 \/ c = 19 \/ c = 20 \/ c = 21 \/ c = 22 \/ c = 23
            \/ c = 24 \/ c = 25 \/ c = 26 \/ c = 27 \/ c = 28 \/ c = 29
            \/ c = 30 \/ c = 31) as H by lia.
    repeat (destruct H as [->|H]; [reflexivity|]). subst. reflexivity.
  - cbn [forallb]. rewrite andb_true_r. by apply N.leb_le.
Qed.

(** X14.  Under [ensure_ascii=False] a string whose characters are all from
    U+0020 on, and none of them the quote or the backslash, is written
    between quotes as it is: letters outside ASCII, and also DEL, U+0085
    and U+2028.  And no string, whatever it holds, puts a character below
    U+0020 into the file. *)
Theorem strings_written_literally (s : str) :
  forallb json_plain s = true ->
  encode_basestring s = 34 :: s ++ [34]
  /\ forall s', forallb (fun x => 32 <=? x) (encode_basestring s') = true.
Proof.
  intros Hs. split.
  - unfold encode_basestring. do 2 f_equal.
    induction s as [|c s IH]; [done|].
    cbn [forallb flat_map] in *. apply andb_true_iff in Hs as [Hc Hs].
    by rewrite escape_char_plain, IH.
  - intros s'. unfold encode_basestring.
    change (34 :: ?t) with ([34] ++ t). rewrite !forallb_app.
    assert (forallb (fun x => 32 <=? x) (flat_map escape_char s') = true)
      as ->; [|reflexivity].
    induction s' as [|c s' IH]; [done|].
    cbn [flat_map]. by rewrite forallb_app, escape_char_printable, IH.
Qed.

Lemma strings_written_literally_witness :
  forallb json_plain
    (codes "Schr" ++ [246] ++ codes "dinger " ++ [0x1D6FC; 0x7F; 0x85; 0x2028])
  = true
  /\ encode_basestring
       (codes "Schr" ++ [246] ++ codes "dinger "
        ++ [0x1D6FC; 0x7F; 0x85; 0x2028])
     = 34 :: (codes "Schr" ++ [246] ++ codes "dinger "
              ++ [0x1D6FC; 0x7F; 0x85; 0x2028]) ++ [34].
Proof.
  split; [reflexivity|].
  apply (strings_written_literally
           (codes "Schr" ++ [246] ++ codes "dinger "
            ++ [0x1D6FC; 0x7F; 0x85; 0x2028])).
  reflexivity.
Defined.

End StringsWritten.

Lemma write_output_needs_directory_witness :
  open_denied (host_up (clock_at 0) []) (codes "docs/arxiv_data.json") = None
  /\ truthy (dirname (codes "docs/arxiv_data.json")) = true
  /\ write_output (host_up (clock_at 0) []) (codes "docs/arxiv_data.json")
       (codes "cat:cs.AI") [] empty_world
     = (Raise (FileNotFoundError (codes "docs/arxiv_data.json")),
        tick empty_world).
Proof.
  split; [reflexivity|]. split; [reflexivity|].
  apply (write_output_needs_directory (host_up (clock_at 0) [])
           (codes "docs/arxiv_data.json") (codes "cat:cs.AI") [] empty_world);
    [reflexivity | reflexivity |].
  apply (bool_decide_unpack _). vm_compute. exact I.
Defined.

Lemma write_output_twice_witness :
  realpath (host_up (clock_from 10) []) (codes "docs/../arxiv_data.json")
  = realpath (host_up (clock_from 10) []) (codes "arxiv_data.json")
  /\ (read_json (host_up (clock_from 10) [])
        (snd (write_output (host_up (clock_from 10) [])
                (codes "arxiv_data.json") (codes "second") []
                (snd (write_output (host_up (clock_from 10) [])
                        (codes "docs/../arxiv_data.json") (codes "first")
                        (fetch_papers sample_feed)
                        (add_dirs (host_up (clock_from 10) [])
                           [codes "docs"; codes "docs/.."] empty_world)))))
        (codes "docs/../arxiv_data.json") ≫= read_result_set)
     = Some (codes "second", 11%Z, []).
Proof.
  split; [reflexivity|].
  refine (proj1 (proj2 (write_output_twice (host_up (clock_from 10) [])
            (codes "docs/../arxiv_data.json") (codes "arxiv_data.json")
            (codes "first") (codes "second") (fetch_papers sample_feed) []
            (add_dirs (host_up (clock_from 10) [])
               [codes "docs"; codes "docs/.."] empty_world)
            _ _ _ _ _)));
    [reflexivity | vm_compute; reflexivity | vm_compute; reflexivity].
Defined.

Lemma write_output_tears_file_witness :
  open_check (host_up (clock_at 0) []) empty_world (codes "out.json") = None
  /\ encodable [0xDC80] = false
  /\ exists w',
       write_output (host_up (clock_at 0) []) (codes "out.json") [0xDC80] []
         empty_world = (Raise UnicodeEncodeError, w')
       /\ files w' !! codes "out.json" = Some Torn.
Proof.
  split; [reflexivity|]. split; [reflexivity|].
  destruct (write_output_tears_file (host_up (clock_at 0) [])
              (codes "out.json") [0xDC80] [] empty_world)
    as (w' & Hrun & Htorn & _); try reflexivity.
  exists w'. split; [exact Hrun | exact Htorn].
Defined.
(** ** More on [main] *)

Section MainMore.

Context (h : Host).

Lemma read_result_set_fallback (q : str) (t : Z) (e : exn) :
  read_result_set (fallback_json q t e) = Some (q, t, [])
  /\ get_str (fallback_json q t e) "error" = Some (exn_str e).
Proof.
  unfold read_result_set, fallback_json, get_str, get_int, get_list.
  split; by dict_lookup.
Qed.

Lemma result_set_no_error (q : str) (t : Z) (ps : list Paper.t) :
  dict_get (result_set q t ps) (codes "error") = None.
Proof. unfold result_set. by dict_lookup. Qed.

(** When the [except] clause returns, it has printed its two lines and
    written the fallback. *)
Lemma main_except_inv (args : Args.t) (q : str) (e : exn) (w w' : World) :
  main_except h args q e w = (Ok tt, w') ->
  w' = add_line (codes "Wrote fallback " ++ Args.out args)
         (set_file (realpath h (Args.out args))
            (Whole (dumps 0 (fallback_json q (time_time h (clock_reads w)) e)))
            (tick (add_line (codes "Error fetching arXiv: " ++ exn_str e) w))).
Proof.
  unfold main_except. unfold mbind, M_bind, print, now.
  destruct (print_denied h (codes "Error fetching arXiv: " ++ exn_str e));
    [done|].
  destruct (write_text h _ _ _) as [[[]|e1] w1] eqn:Hw; [|done].
  apply write_text_inv in Hw as (_ & _ & _ & ->).
  destruct (print_denied h (codes "Wrote fallback " ++ Args.out args));
    [done|].
  by intros [= <-].
Qed.

(** When [main] returns, line 84 went through. *)
Lemma main_ok_inv (env : Environ) (args : Args.t) (w w' : World) (n : Z) :
  main_max_results h env args = Ok n ->
  main h env args w = (Ok tt, w') ->
  exists banner,
    main_banner h (main_query env args) n = Ok banner
    /\ print_denied h banner = None
    /\ try_except (main_try h args (main_query env args) n)
                  (main_except h args (main_query env args))
                  (add_line banner w) = (Ok tt, w').
Proof.
  intros Hn.
  destruct (main_banner h (main_query env args) n) as [banner|e] eqn:Hb.
  - destruct (print_denied h banner) as [e|] eqn:Hp.
    + by rewrite (main_raise_banner h _ _ _ n e Hn)
        by (right; by exists banner).
    + rewrite (main_run h _ _ _ _ _ Hn Hb Hp). intros Hrun. by exists banner.
  - by rewrite (main_raise_banner h _ _ _ n e Hn) by by left.
Qed.

(** X15.  Whenever the fetch raises and [main] ends normally all the same, the
    file at the destination reads as a result set without papers: a reader
    of the result set schema gets the query, the time stamp and an empty
    list, and finds the text of the exception under [error], a key that no
    result set written by [write_output] has. *)
Theorem main_fallback_is_empty_result_set (env : Environ) (args : Args.t)
    (w w' : World) (n : Z) (e : exn) :
  main_max_results h env args = Ok n ->
  fetch h (main_query env args) n = Raise e ->
  main h env args w = (Ok tt, w') ->
  exists v,
    read_json h w' (Args.out args) = Some v
    /\ read_result_set v
       = Some (main_query env args, time_time h (clock_reads w), [])
    /\ get_str v "error" = Some (exn_str e)
    /\ (forall q t ps, dict_get (result_set q t ps) (codes "error") = None).
Proof.
  intros Hn Hf (banner & _ & _ & Hrun)%(main_ok_inv _ _ _ _ _ Hn).
  unfold try_except in Hrun.
  rewrite (main_try_fetch_raise h _ _ _ _ _ Hf) in Hrun.
  apply main_except_inv in Hrun as ->.
  eexists. split.
  - unfold read_json. cbn [files add_line set_file tick].
    rewrite lookup_insert_eq. apply json_loads_dumps, wf_fallback_json.
  - cbn [clock_reads add_line].
    split; [apply read_result_set_fallback|].
    split; [apply read_result_set_fallback|].
    apply result_set_no_error.
Qed.

Lemma ancestors_from_elem (rest pre p r : str) :
  rest = p ++ 47 :: r -> pre ++ p <> [] ->
  pre ++ p ∈ ancestors_from pre rest.
Proof.
  revert pre p. induction rest as [|c rest IH]; intros pre p Hrest Hne.
  - by destruct p.
  - destruct p as [|x p]; cbn [app] in Hrest; injection Hrest as -> ->.
    + rewrite app_nil_r in *. cbn [ancestors_from].
      rewrite N.eqb_refl. destruct pre; [done|]. cbn [truthy andb].
      set_solver.
    + cbn [ancestors_from]. apply elem_of_app. right.
      replace (pre ++ x :: p) with ((pre ++ [x]) ++ p)
        by by rewrite <- app_assoc.
      apply IH; [done|]. by destruct pre.
Qed.

Lemma truthy_false (s : str) : truthy s = false -> s = [].
Proof. by destruct s. Qed.

(** X16.  After the primary write the directory of the destination exists, and
    so does every directory above it; no directory has gone. *)
Theorem main_primary_makes_directories (args : Args.t) (q : str)
    (ps : list Paper.t) (w w1 : World) :
  main_primary h args q ps w = (Ok tt, w1) ->
  dirs w ⊆ dirs w1
  /\ forall p, dir_or_above p (dirname (Args.out args)) ->
               realpath h p ∈ dirs w1.
Proof.
  unfold main_primary. unfold mbind, M_bind.
  destruct (truthy (dirname (Args.out args))) eqn:Ht.
  - unfold makedirs.
    destruct (makedirs_denied h _) as [[e made]|]; [done|].
    destruct (files w !! _); [done|].
    rewrite write_output_run. intros (_ & _ & _ & ->)%write_text_inv.
    cbn [dirs set_file tick set_dirs add_dirs]. split; [set_solver|].
    intros p [Hp Habove].
    apply elem_of_union. right. apply elem_of_list_to_set.
    apply list_elem_of_fmap_2.
    destruct Habove as [<-|[r Hr]]; [apply list_elem_of_here|].
    apply list_elem_of_further.
    by apply (ancestors_from_elem _ [] p r).
  - apply truthy_false in Ht. rewrite Ht.
    unfold mret, M_ret.
    rewrite write_output_run. intros (_ & _ & _ & ->)%write_text_inv.
    cbn [dirs set_file tick]. split; [done|].
    intros p [Hp [<-|[r Hr]]]; [done|]. by destruct p.
Qed.

Lemma open_check_missing (path : str) (w : World) :
  open_denied h path = None ->
  truthy (dirname path) = true ->
  realpath h (dirname path) ∉ dirs w ->
  open_check h w path = Some (FileNotFoundError path).
Proof.
  intros Hd Ht Hdir. unfold open_check.
  rewrite Hd, Ht, forallb_app. cbn [forallb].
  unfold isdir at 2. rewrite (bool_decide_eq_false_2 _ Hdir).
  by rewrite andb_false_r.
Qed.

(** X17.  When line 84 has gone through, the fetch fails, the console takes the
    error line and the directory of the destination does not exist, the
    fallback cannot be written: [main] ends with the [FileNotFoundError] of
    [open], having printed the error and changed no file.  The directory
    is made on the primary path only. *)
Theorem main_fallback_needs_directory (env : Environ) (args : Args.t)
    (w : World) (n : Z) (banner : str) (e : exn) :
  main_max_results h env args = Ok n ->
  main_banner h (main_query env args) n = Ok banner ->
  fetch h (main_query env args) n = Raise e ->
  console_takes h [banner; codes "Error fetching arXiv: " ++ exn_str e]
  = true ->
  open_denied h (Args.out args) = None ->
  truthy (dirname (Args.out args)) = true ->
  realpath h (dirname (Args.out args)) ∉ dirs w ->
  exists w',
    main h env args w = (Raise (FileNotFoundError (Args.out args)), w')
    /\ files w' = files w /\ dirs w' = dirs w
    /\ console w'
       = console w ++ [banner; codes "Error fetching arXiv: " ++ exn_str e].
Proof.
  intros Hn Hb Hf (Hp0 & Hp1 & _)%console_takes_inv2 Hd Ht Hdir.
  rewrite (main_run h _ _ _ _ _ Hn Hb Hp0). unfold try_except.
  rewrite (main_try_fetch_raise h _ _ _ _ _ Hf).
  unfold main_except. unfold mbind, M_bind, print, now. rewrite Hp1.
  unfold write_text. rewrite open_check_missing by done.
  eexists. split; [reflexivity|].
  cbn [files dirs console add_line tick]. by rewrite <- app_assoc.
Qed.

Lemma write_text_denied (path content : str) (w : World) (e : exn) :
  open_denied h path = Some e ->
  write_text h path content w = (Raise e, w).
Proof. intros Hd. unfold write_text, open_check. by rewrite Hd. Qed.

Lemma main_try_denied (args : Args.t) (q : str) (n : Z) (w : World)
    (e : exn) :
  open_denied h (Args.out args) = Some e ->
  exists e0 w1,
    main_try h args q n w = (Raise e0, w1) /\ files w1 = files w
    /\ console w1 = console w.
Proof.
  intros Hd. unfold main_try. unfold mbind, M_bind, lift.
  destruct (fetch h q n) as [ps|e0]; [|by eexists _, _].
  unfold main_primary. unfold mbind, M_bind.
  destruct (makedirs_step h (dirname (Args.out args)) w)
    as ([[]|e'] & ds & _ & ->); [|by eexists _, _].
  rewrite write_output_run, (write_text_denied _ _ _ _ Hd).
  by eexists _, _.
Qed.

(** X18.  When the destination cannot be opened, [main] never ends normally and
    changes no file, on the primary path as on the fallback path; and when
    the console takes the line of line 84 and the error line, the
    exception that leaves [main] is the one of [open]. *)
Theorem main_destination_locked (env : Environ) (args : Args.t) (w : World)
    (n : Z) (e : exn) :
  main_max_results h env args = Ok n ->
  open_denied h (Args.out args) = Some e ->
  exists e' w',
    main h env args w = (Raise e', w')
    /\ files w' = files w
    /\ (forall banner,
          main_banner h (main_query env args) n = Ok banner ->
          print_denied h banner = None ->
          (forall e0 w1,
             main_try h args (main_query env args) n (add_line banner w)
             = (Raise e0, w1) ->
             print_denied h (codes "Error fetching arXiv: " ++ exn_str e0)
             = None) ->
          e' = e).
Proof.
  intros Hn Hd.
  destruct (main_banner h (main_query env args) n) as [banner|e1] eqn:Hb.
  2:{ rewrite (main_raise_banner h _ _ _ n e1 Hn) by by left.
      eexists _, _. split; [reflexivity|]. split; [done|]. by intros. }
  destruct (print_denied h banner) as [e1|] eqn:Hp.
  { rewrite (main_raise_banner h _ _ _ n e1 Hn) by (right; by exists banner).
    eexists _, _. split; [reflexivity|]. split; [done|].
    intros banner' [= <-] Hp'. congruence. }
  rewrite (main_run h _ _ _ _ _ Hn Hb Hp). unfold try_except.
  destruct (main_try_denied args (main_query env args) n
              (add_line banner w) e Hd)
    as (e0 & w1 & Ht & Hfiles & _).
  rewrite Ht.
  unfold main_except. unfold mbind, M_bind, print, now.
  destruct (print_denied h (codes "Error fetching arXiv: " ++ exn_str e0))
    as [e1|] eqn:Hp1.
  - eexists _, _. split; [reflexivity|]. split; [exact Hfiles|].
    intros banner' [= <-] _ Hexc. specialize (Hexc _ _ Ht). congruence.
  - rewrite (write_text_denied _ _ _ _ Hd).
    eexists _, _. split; [reflexivity|].
    cbn [files add_line tick] in *. split; [exact Hfiles|]. by intros.
Qed.

(** X19.  When [int] refuses [MAX_RESULTS], [main] ends with that exception
    before it prints or writes anything, whatever [--max] says. *)
Theorem main_bad_max_results (env : Environ) (args : Args.t) (w : World)
    (s : str) (e : exn) :
  MAX_RESULTS env = Some s ->
  int_of_str h s = Raise e ->
  main h env args w = (Raise e, w).
Proof.
  intros Hs He. apply main_raise_max. unfold main_max_results.
  by rewrite Hs.
Qed.

Lemma fetch_ok (q : str) (n : Z) (url : str) (raw : list N)
    (root : Element) :
  fetch_url h q n = Ok url ->
  urlopen_read h url = Ok raw ->
  ET_fromstring h raw = Ok root ->
  fetch h q n = Ok (fetch_papers root).
Proof.
  intros Hu Hr Hd. unfold fetch. rewrite Hu. cbn [mbind result_bind].
  rewrite Hr. cbn [mbind result_bind]. by rewrite Hd.
Qed.

Lemma isdir_add_dirs (ps : list str) (w : World) (p : str) :
  p ∈ ps -> isdir h (add_dirs h ps w) p = true.
Proof.
  intros Hp. unfold isdir, add_dirs. cbn [dirs set_dirs].
  apply bool_decide_eq_true. apply elem_of_union. right.
  apply elem_of_list_to_set. by apply list_elem_of_fmap_2.
Qed.

(** After [os.makedirs(d)] the directory [d] can be reached. *)
Lemma open_check_made (path : str) (w : World) :
  open_denied h path = None ->
  open_check h
    (add_dirs h (dirname path :: ancestors_from [] (dirname path)) w) path
  = None.
Proof.
  intros Hop. unfold open_check. rewrite Hop.
  replace (forallb _ _) with true; [by rewrite andb_false_r|].
  symmetry. apply forallb_forall. intros d Hd%list_elem_of_In.
  apply isdir_add_dirs.
  apply elem_of_app in Hd as [Hd|Hd%list_elem_of_singleton].
  - by apply list_elem_of_further.
  - subst d. apply list_elem_of_here.
Qed.

Lemma main_primary_ok (args : Args.t) (q : str) (ps : list Paper.t)
    (w : World) :
  makedirs_denied h (dirname (Args.out args)) = None ->
  files w !! realpath h (dirname (Args.out args)) = None ->
  open_denied h (Args.out args) = None ->
  write_denied h (Args.out args)
    (dumps 0 (result_set q (time_time h (clock_reads w)) ps)) = None ->
  encodable q = true ->
  forallb paper_encodable ps = true ->
  exists ds,
    main_primary h args q ps w
    = (Ok tt,
       set_file (realpath h (Args.out args))
         (Whole (dumps 0 (result_set q (time_time h (clock_reads w)) ps)))
         (tick (set_dirs ds w))).
Proof.
  intros Hmk Hfile Hop Hwr Hq Hps. unfold main_primary. unfold mbind, M_bind.
  destruct (truthy (dirname (Args.out args))) eqn:Ht.
  - unfold makedirs. rewrite Hmk, Hfile.
    rewrite write_output_returns; [by eexists| |done|done|done].
    by apply open_check_made.
  - unfold mret, M_ret. exists (dirs w). rewrite set_dirs_same.
    rewrite write_output_returns; [done| |done|done|done].
    unfold open_check. by rewrite Hop, Ht.
Qed.

(** X21.  The whole run, when nothing fails: the network answers, the answer
    parses, the directory can be made, the file can be opened and written,
    every string can be encoded, the console takes the two lines, and the
    destination is not the root file under another name.  Then [main] ends
    normally, the destination reads back as the query, the time of the
    first reading of the clock and the records of the entry nodes, and the
    console shows the two lines, the second with the number of entry
    nodes. *)
Theorem main_end_to_end (env : Environ) (args : Args.t) (w : World) (n : Z)
    (banner line url : str) (raw : list N) (root : Element) :
  main_max_results h env args = Ok n ->
  main_banner h (main_query env args) n = Ok banner ->
  fetch_url h (main_query env args) n = Ok url ->
  urlopen_read h url = Ok raw ->
  ET_fromstring h raw = Ok root ->
  makedirs_denied h (dirname (Args.out args)) = None ->
  files w !! realpath h (dirname (Args.out args)) = None ->
  open_denied h (Args.out args) = None ->
  write_denied h (Args.out args)
    (dumps 0 (result_set (main_query env args) (time_time h (clock_reads w))
                (fetch_papers root))) = None ->
  encodable (main_query env args) = true ->
  forallb paper_encodable (fetch_papers root) = true ->
  main_wrote h (Args.out args) (fetch_papers root) = Ok line ->
  console_takes h [banner; line] = true ->
  (startswith (Args.out args) (codes "docs/") = true ->
   realpath h (Args.out args) <> realpath h (codes "arxiv_data.json")) ->
  exists w',
    main h env args w = (Ok tt, w')
    /\ (read_json h w' (Args.out args) ≫= read_result_set)
       = Some (main_query env args, time_time h (clock_reads w),
               fetch_papers root)
    /\ console w' = console w ++ [banner; line]
    /\ line = codes "Wrote " ++ Args.out args ++ codes " with "
              ++ format_int
                   (Z.of_nat (length (findall root (ATOM ++ codes "entry"))))
              ++ codes " papers".
Proof.
  intros Hn Hb Hu Hr Hd Hmk Hfile Hop Hwr Hq Hps Hl
    (Hp0 & Hp1 & _)%console_takes_inv2 Hne.
  pose proof (fetch_ok _ _ _ _ _ Hu Hr Hd) as Hf.
  destruct (main_primary_ok args (main_query env args) (fetch_papers root)
              (add_line banner w))
    as (ds & Hp); try done.
  cbn [clock_reads add_line] in Hp.
  set (w1 := set_file _ _ _) in Hp.
  destruct (main_secondary_run h args (main_query env args)
              (fetch_papers root) w1)
    as (w2 & Hs & _ & Hcon & Hframe & Hnodocs & _).
  { by apply encodable_result_set. }
  rewrite (main_run h _ _ _ _ _ Hn Hb Hp0). unfold try_except, main_try.
  unfold mbind, M_bind, lift. rewrite Hf, Hp, Hs, Hl. unfold print.
  rewrite Hp1.
  eexists. split; [reflexivity|]. split; [|split].
  - unfold read_json. cbn [files add_line].
    assert (files w2 !! realpath h (Args.out args)
            = Some (Whole (dumps 0 (result_set (main_query env args)
                                      (time_time h (clock_reads w))
                                      (fetch_papers root))))) as ->.
    { destruct (startswith (Args.out args) (codes "docs/")) eqn:Hdocs.
      - rewrite Hframe by by apply Hne.
        subst w1. cbn [files set_file]. apply lookup_insert_eq.
      - rewrite Hnodocs by done.
        subst w1. cbn [files set_file]. apply lookup_insert_eq. }
    rewrite json_loads_dumps by apply wf_result_set.
    cbn [mbind option_bind]. apply read_result_set_result_set.
  - cbn [console add_line]. rewrite Hcon. subst w1.
    cbn [console set_file tick set_dirs add_line].
    by rewrite <- app_assoc.
  - rewrite (main_wrote_inv h _ _ _ Hl). by rewrite fetch_papers_length.
Qed.

End MainMore.

Section SslContext.

Context {Ctx : Type}.

(** X24.  [_build_ssl_context] gives the context made from the [certifi] bundle
    when that can be made; else the default context, also when [certifi] is
    there and only the making of its context fails; and [None] exactly when
    neither can be made. *)
Theorem build_ssl_context_order (s : SslHost Ctx) :
  (forall cafile ctx,
     certifi_where s = Ok cafile ->
     create_default_context s (Some cafile) = Ok ctx ->
     _build_ssl_context s = Some ctx)
  /\ (forall cafile e ctx,
        certifi_where s = Ok cafile ->
        create_default_context s (Some cafile) = Raise e ->
        create_default_context s None = Ok ctx ->
        _build_ssl_context s = Some ctx)
  /\ (forall e ctx,
        certifi_where s = Raise e ->
        create_default_context s None = Ok ctx ->
        _build_ssl_context s = Some ctx)
  /\ (_build_ssl_context s = None <->
      (exists e, create_default_context s None = Raise e)
      /\ (exists e,
            (cafile ← certifi_where s;
             create_default_context s (Some cafile)) = Raise e)).
Proof.
  unfold _build_ssl_context. split; [|split; [|split]].
  - intros cafile ctx -> Hc. cbn [mbind result_bind]. by rewrite Hc.
  - intros cafile e ctx -> Hc Hd. cbn [mbind result_bind]. by rewrite Hc, Hd.
  - intros e ctx -> Hd. cbn [mbind result_bind]. by rewrite Hd.
  - destruct (certifi_where s ≫= _) as [ctx|e];
      [|destruct (create_default_context s None) as [ctx|e']].
    + split; [done|]. by intros [_ [e ?]].
    + split; [done|]. by intros [[e0 ?] _].
    + split; [|done]. intros _. split; by eexists.
Qed.

End SslContext.

Section MainFrame.

Context (h : Host).

Lemma write_text_frame (path content : str) (w w' : World) (r : result unit) :
  write_text h path content w = (r, w') ->
  dirs w' = dirs w /\ console w' = console w
  /\ forall k, k <> realpath h path -> files w' !! k = files w !! k.
Proof.
  unfold write_text. destruct (open_check h w path); [by intros [= _ <-]|].
  destruct (write_denied h path content) as [[e rest]|];
    [|destruct (utf8_bytes content)]; intros [= _ <-];
    cbn [dirs console files set_file]; (split; [done|]; split; [done|]);
    intros k Hk; by rewrite lookup_insert_ne.
Qed.

Lemma write_output_frame_run (path q : str) (ps : list Paper.t)
    (w w' : World) (r : result unit) :
  write_output h path q ps w = (r, w') ->
  dirs w' = dirs w /\ console w' = console w
  /\ forall k, k <> realpath h path -> files w' !! k = files w !! k.
Proof. rewrite write_output_run. intros H%write_text_frame. exact H. Qed.

Lemma main_primary_frame (args : Args.t) (q : str) (ps : list Paper.t)
    (w w' : World) (r : result unit) :
  main_primary h args q ps w = (r, w') ->
  dirs w ⊆ dirs w' /\ console w' = console w
  /\ forall k, k <> realpath h (Args.out args) ->
               files w' !! k = files w !! k.
Proof.
  unfold main_primary. unfold mbind, M_bind.
  destruct (makedirs_step h (dirname (Args.out args)) w)
    as ([[]|e] & ds & Hds & ->); [|by intros [= _ <-]].
  intros (Hd & Hc & Hf)%write_output_frame_run.
  rewrite Hd, Hc. by cbn [dirs console files set_dirs] in *.
Qed.

Lemma main_secondary_frame (args : Args.t) (q : str) (ps : list Paper.t)
    (w w' : World) (r : result unit) :
  main_secondary h args q ps w = (r, w') ->
  r = Ok tt /\ dirs w' = dirs w /\ console w' = console w
  /\ forall k, k <> realpath h (codes "arxiv_data.json") ->
               files w' !! k = files w !! k.
Proof.
  unfold main_secondary, try_except.
  destruct (startswith (Args.out args) (codes "docs/"));
    [|by intros [= <- <-]].
  destruct (write_output h _ q ps w) as [[[]|e] w1] eqn:Hw;
    apply write_output_frame_run in Hw; by intros [= <- <-].
Qed.

Lemma main_try_frame (args : Args.t) (q : str) (n : Z) (w w' : World)
    (r : result unit) :
  main_try h args q n w = (r, w') ->
  dirs w ⊆ dirs w'
  /\ (exists lines, console w' = console w ++ lines)
  /\ forall k, k <> realpath h (Args.out args) ->
               k <> realpath h (codes "arxiv_data.json") ->
               files w' !! k = files w !! k.
Proof.
  unfold main_try. unfold mbind, M_bind, lift.
  destruct (fetch h q n) as [ps|e0].
  2:{ intros [= _ <-]. split; [done|]. split; [|done].
      exists []. by rewrite app_nil_r. }
  destruct (main_primary h args q ps w) as [[[]|e1] w1] eqn:Hp;
    apply main_primary_frame in Hp as (Hd1 & Hc1 & Hf1).
  2:{ intros [= _ <-]. split; [done|]. split; [|by auto].
      exists []. by rewrite app_nil_r. }
  destruct (main_secondary h args q ps w1) as [r2 w2] eqn:Hs.
  apply main_secondary_frame in Hs as (-> & Hd2 & Hc2 & Hf2).
  assert (forall k, k <> realpath h (Args.out args) ->
            k <> realpath h (codes "arxiv_data.json") ->
            files w2 !! k = files w !! k) as Hf.
  { intros k Ho Hr. by rewrite Hf2, Hf1. }
  destruct (main_wrote h (Args.out args) ps) as [line|e2].
  2:{ intros [= _ <-]. rewrite Hd2, Hc2, Hc1. split; [done|].
      split; [|done]. exists []. by rewrite app_nil_r. }
  unfold print. destruct (print_denied h line); intros [= _ <-];
    cbn [dirs console files add_line]; rewrite Hd2, Hc2, Hc1;
    (split; [done|]); (split; [|done]).
  - exists []. by rewrite app_nil_r.
  - by eexists.
Qed.

Lemma main_except_frame (args : Args.t) (q : str) (e : exn) (w w' : World)
    (r : result unit) :
  main_except h args q e w = (r, w') ->
  dirs w' = dirs w
  /\ (exists lines, console w' = console w ++ lines)
  /\ forall k, k <> realpath h (Args.out args) ->
               files w' !! k = files w !! k.
Proof.
  unfold main_except. unfold mbind, M_bind, print, now.
  destruct (print_denied h (codes "Error fetching arXiv: " ++ exn_str e)).
  { intros [= _ <-]. split; [done|]. split; [|done].
    exists []. by rewrite app_nil_r. }
  destruct (write_text h _ _ _) as [[[]|e1] w1] eqn:Hw;
    apply write_text_frame in Hw as (Hd & Hc & Hf);
    cbn [dirs console files add_line tick] in *.
  - destruct (print_denied h (codes "Wrote fallback " ++ Args.out args));
      intros [= _ <-]; cbn [dirs console files add_line];
      rewrite Hd, Hc; (split; [done|]); (split; [|done]).
    + by eexists.
    + eexists. by rewrite <- app_assoc.
  - intros [= _ <-]. rewrite Hd, Hc. split; [done|]. split; [|done].
    by eexists.
Qed.

(** X22.  Whatever [main] does and however it ends, it changes no file but the
    destination and [arxiv_data.json], removes no directory and only adds
    lines to the console. *)
Theorem main_frame (env : Environ) (args : Args.t) (w : World) :
  dirs w ⊆ dirs (snd (main h env args w))
  /\ (exists lines, console (snd (main h env args w)) = console w ++ lines)
  /\ (forall k, k <> realpath h (Args.out args) ->
                k <> realpath h (codes "arxiv_data.json") ->
                files (snd (main h env args w)) !! k = files w !! k).
Proof.
  assert (forall e, let w' := snd (@pair (result unit) World (Raise e) w) in
            dirs w ⊆ dirs w'
            /\ (exists lines, console w' = console w ++ lines)
            /\ (forall k, k <> realpath h (Args.out args) ->
                  k <> realpath h (codes "arxiv_data.json") ->
                  files w' !! k = files w !! k)) as Hsame.
  { intros e. cbn [snd]. split; [done|]. split; [|done].
    exists []. by rewrite app_nil_r. }
  destruct (main_max_results h env args) as [n|e] eqn:Hn.
  2:{ rewrite (main_raise_max h _ _ _ _ Hn). apply Hsame. }
  destruct (main_banner h (main_query env args) n) as [banner|e] eqn:Hb.
  2:{ rewrite (main_raise_banner h _ _ _ n e Hn) by by left. apply Hsame. }
  destruct (print_denied h banner) as [e|] eqn:Hp.
  { rewrite (main_raise_banner h _ _ _ n e Hn) by (right; by exists banner).
    apply Hsame. }
  rewrite (main_run h _ _ _ _ _ Hn Hb Hp). unfold try_except.
  destruct (main_try h args (main_query env args) n _) as [[[]|e] w1] eqn:Ht;
    apply main_try_frame in Ht as (Hd & [l1 Hc] & Hf);
    cbn [dirs console files add_line] in *.
  - cbn [snd]. split; [done|]. split; [|done].
    eexists. by rewrite Hc, <- app_assoc.
  - destruct (main_except h args (main_query env args) e w1) as [r w2] eqn:He.
    apply main_except_frame in He as (Hd2 & [l2 Hc2] & Hf2). cbn [snd].
    rewrite Hd2. split; [done|]. split.
    + eexists. by rewrite Hc2, Hc, <- !app_assoc.
    + intros k Ho Hr. by rewrite Hf2, Hf.
Qed.

Lemma encodable_fallback_query (q : str) (t : Z) (e : exn) :
  encodable q = false -> encodable (dumps 0 (fallback_json q t e)) = false.
Proof.
  intros Hq. unfold fallback_json. cbn [dumps dump_dict_items fst snd].
  rewrite !encodable_app, !encodable_basestring, Hq.
  by rewrite !andb_false_r.
Qed.

Lemma fetch_unencodable (q : str) (n : Z) :
  encodable q = false -> fetch h q n = Raise UnicodeEncodeError.
Proof.
  intros Hq. unfold fetch, fetch_url, quote, encode_utf8.
  destruct (utf8_bytes q) as [bs|] eqn:Hb; [|done].
  apply utf8_bytes_some in Hb. congruence.
Qed.

(** X23.  With a query that holds a lone surrogate, [fetch] raises
    [UnicodeEncodeError] whatever the network would answer, and [main]
    never ends normally: the fallback holds the query and cannot be encoded
    either. *)
Theorem main_unencodable_query (env : Environ) (args : Args.t) (w : World)
    (n : Z) :
  main_max_results h env args = Ok n ->
  encodable (main_query env args) = false ->
  fetch h (main_query env args) n = Raise UnicodeEncodeError
  /\ exists e w', main h env args w = (Raise e, w').
Proof.
  intros Hn Hq.
  pose proof (fetch_unencodable _ n Hq) as Hf. split; [exact Hf|].
  destruct (main_banner h (main_query env args) n) as [banner|e] eqn:Hb.
  2:{ rewrite (main_raise_banner h _ _ _ n e Hn) by by left.
      by eexists _, _. }
  destruct (print_denied h banner) as [e|] eqn:Hp.
  { rewrite (main_raise_banner h _ _ _ n e Hn) by (right; by exists banner).
    by eexists _, _. }
  rewrite (main_run h _ _ _ _ _ Hn Hb Hp). unfold try_except.
  rewrite (main_try_fetch_raise h _ _ _ _ _ Hf).
  unfold main_except. unfold mbind, M_bind, print, now.
  destruct (print_denied h (codes "Error fetching arXiv: " ++ _));
    [by eexists _, _|].
  destruct (write_text h _ _ _) as [[[]|e1] w1] eqn:Hw; [|by eexists _, _].
  apply write_text_inv in Hw as (_ & _ & He & _).
  by rewrite encodable_fallback_query in He.
Qed.

(** What the [except] clause raises: the refusal of the console at one of
    its two lines, the exception of [open], the refusal of the write, or
    the codec's error on the text of the fallback. *)
Lemma main_except_raise_sources (args : Args.t) (q : str) (e0 e : exn)
    (w w' : World) :
  main_except h args q e0 w = (Raise e, w') ->
  print_denied h (codes "Error fetching arXiv: " ++ exn_str e0) = Some e
  \/ open_check h w (Args.out args) = Some e
  \/ (exists rest,
        write_denied h (Args.out args)
          (dumps 0 (fallback_json q (time_time h (clock_reads w)) e0))
        = Some (e, rest))
  \/ (e = UnicodeEncodeError
      /\ encodable (dumps 0 (fallback_json q (time_time h (clock_reads w)) e0))
         = false)
  \/ print_denied h (codes "Wrote fallback " ++ Args.out args) = Some e.
Proof.
  unfold main_except. unfold mbind, M_bind, print, now.
  destruct (print_denied h (codes "Error fetching arXiv: " ++ exn_str e0))
    as [e1|]; [intros [= -> _]; by left|].
  unfold write_text. cbn [clock_reads add_line].
  change (open_check h (tick (add_line _ w)) (Args.out args))
    with (open_check h w (Args.out args)).
  destruct (open_check h w (Args.out args)) as [e1|];
    [intros [= -> _]; right; by left|].
  destruct (write_denied h _ _) as [[e1 rest]|];
    [intros [= -> _]; right; right; left; by exists rest|].
  destruct (utf8_bytes _) as [bs|] eqn:Hb.
  - destruct (print_denied h (codes "Wrote fallback " ++ Args.out args))
      as [e1|]; [|done].
    intros [= -> _]. by repeat right.
  - intros [= <- _]. right. right. right. left. split; [done|].
    by apply utf8_bytes_none.
Qed.

(** X20.  Once the parser has returned the arguments, an exception leaves
    [main] in one of three ways only: [int] raised
    it on [MAX_RESULTS]; or line 84 raised it, the count having too many
    digits or the console refusing the line; or the [try] block raised and
    the [except] clause raised it in turn, at one of its two [print]
    calls, at [open], at the write, or at the encoding of the fallback.
    No exception of the [try] block leaves [main] by itself, and in the
    first two cases no [print] has returned and no file was written. *)
Theorem main_uncaught_sources (env : Environ) (args : Args.t)
    (w w' : World) (e : exn) :
  main h env args w = (Raise e, w') ->
  (main_max_results h env args = Raise e /\ w' = w)
  \/ (exists n,
        main_max_results h env args = Ok n /\ w' = w
        /\ (main_banner h (main_query env args) n = Raise e
            \/ exists banner,
                 main_banner h (main_query env args) n = Ok banner
                 /\ print_denied h banner = Some e))
  \/ exists n banner e0 w1,
       main_max_results h env args = Ok n
       /\ main_banner h (main_query env args) n = Ok banner
       /\ print_denied h banner = None
       /\ main_try h args (main_query env args) n (add_line banner w)
          = (Raise e0, w1)
       /\ (print_denied h (codes "Error fetching arXiv: " ++ exn_str e0)
           = Some e
           \/ open_check h w1 (Args.out args) = Some e
           \/ (exists rest,
                 write_denied h (Args.out args)
                   (dumps 0 (fallback_json (main_query env args)
                               (time_time h (clock_reads w1)) e0))
                 = Some (e, rest))
           \/ (e = UnicodeEncodeError
               /\ encodable
                    (dumps 0 (fallback_json (main_query env args)
                                (time_time h (clock_reads w1)) e0))
                  = false)
           \/ print_denied h (codes "Wrote fallback " ++ Args.out args)
              = Some e).
Proof.
  intros Hrun.
  destruct (main_raise_sources h _ _ _ _ _ Hrun)
    as [Hmax|[Hbanner|(n & banner & e0 & w1 & Hn & Hb & Hp & Ht & He)]];
    [by left|by right; left|].
  right. right. exists n, banner, e0, w1.
  repeat (split; [done|]). by apply main_except_raise_sources in He.
Qed.

End MainFrame.

Lemma main_unencodable_query_witness :
  main_max_results (host_up (clock_at 0) []) no_environ
    (Args.mk (Some (codes "caf" ++ [0xDCE9])) 20 (codes "out.json")) = Ok 20%Z
  /\ encodable
       (main_query no_environ
          (Args.mk (Some (codes "caf" ++ [0xDCE9])) 20 (codes "out.json")))
     = false
  /\ exists e w',
       main (host_up (clock_at 0) []) no_environ
         (Args.mk (Some (codes "caf" ++ [0xDCE9])) 20 (codes "out.json"))
         empty_world = (Raise e, w').
Proof.
  split; [reflexivity|]. split; [reflexivity|].
  apply (main_unencodable_query (host_up (clock_at 0) []) no_environ
           (Args.mk (Some (codes "caf" ++ [0xDCE9])) 20 (codes "out.json"))
           empty_world 20); reflexivity.
Defined.
(** ** Further sample runs *)

Lemma main_fallback_is_empty_result_set_witness :
  fetch (host_down URLError) (main_query no_environ (args_out "out.json")) 20
  = Raise URLError
  /\ fst (main (host_down URLError) no_environ (args_out "out.json")
            empty_world) = Ok tt
  /\ exists v,
       read_json (host_down URLError)
         (snd (main (host_down URLError) no_environ (args_out "out.json")
                 empty_world))
         (codes "out.json") = Some v
       /\ read_result_set v
          = Some (codes "all:machine learning", 1700000000%Z, [])
       /\ get_str v "error" = Some (codes "<urlopen error timed out>").
Proof.
  split; [reflexivity|]. split; [vm_compute; reflexivity|].
  destruct (main_fallback_is_empty_result_set (host_down URLError) no_environ
              (args_out "out.json") empty_world
              (snd (main (host_down URLError) no_environ (args_out "out.json")
                      empty_world))
              20 URLError)
    as (v & Hread & Hset & Herr & _);
    [reflexivity | reflexivity | vm_compute; reflexivity |].
  exists v. split; [exact Hread|]. split; [exact Hset | exact Herr].
Defined.

Lemma main_primary_makes_directories_witness :
  main_primary (host_up (clock_at 0) []) (args_out "data/2024/out.json")
    (codes "q") [] empty_world
  = (Ok tt,
     snd (main_primary (host_up (clock_at 0) [])
            (args_out "data/2024/out.json") (codes "q") [] empty_world))
  /\ realpath (host_up (clock_at 0) []) (codes "data")
     ∈ dirs (snd (main_primary (host_up (clock_at 0) [])
                    (args_out "data/2024/out.json") (codes "q") []
                    empty_world))
  /\ realpath (host_up (clock_at 0) []) (codes "data/2024")
     ∈ dirs (snd (main_primary (host_up (clock_at 0) [])
                    (args_out "data/2024/out.json") (codes "q") []
                    empty_world)).
Proof.
  assert (main_primary (host_up (clock_at 0) [])
            (args_out "data/2024/out.json") (codes "q") [] empty_world
          = (Ok tt,
             snd (main_primary (host_up (clock_at 0) [])
                    (args_out "data/2024/out.json") (codes "q") []
                    empty_world))) as Hrun
    by (vm_compute; reflexivity).
  split; [exact Hrun|].
  destruct (main_primary_makes_directories _ _ _ _ _ _ Hrun) as [_ Hdirs].
  split; apply Hdirs; (split; [done|]).
  - right. by exists (codes "2024").
  - by left.
Defined.

Lemma main_fallback_needs_directory_witness :
  fetch (host_down URLError) (main_query no_environ default_args) 20
  = Raise URLError
  /\ truthy (dirname (Args.out default_args)) = true
  /\ exists w',
       main (host_down URLError) no_environ default_args empty_world
       = (Raise (FileNotFoundError (codes "docs/arxiv_data.json")), w')
       /\ files w' = files empty_world
       /\ console w'
          = [ codes "Fetching arXiv for query: all:machine learning (max=20)";
              codes "Error fetching arXiv: <urlopen error timed out>" ].
Proof.
  split; [reflexivity|]. split; [reflexivity|].
  destruct (main_fallback_needs_directory (host_down URLError) no_environ
              default_args empty_world 20
              (codes "Fetching arXiv for query: all:machine learning (max=20)")
              URLError)
    as (w' & Hmain & Hfiles & _ & Hcon);
    [reflexivity | reflexivity | reflexivity | reflexivity | reflexivity
    | reflexivity | |].
  - apply (bool_decide_unpack _). vm_compute. exact I.
  - exists w'. split; [exact Hmain|]. split; [exact Hfiles | exact Hcon].
Defined.

Lemma main_destination_locked_witness :
  open_denied (host_up (clock_at 0) [codes "docs/arxiv_data.json"])
    (Args.out default_args)
  = Some (PermissionError (codes "docs/arxiv_data.json"))
  /\ exists w',
       main (host_up (clock_at 0) [codes "docs/arxiv_data.json"]) no_environ
         default_args empty_world
       = (Raise (PermissionError (codes "docs/arxiv_data.json")), w')
       /\ files w' = files empty_world.
Proof.
  split; [reflexivity|].
  destruct (main_destination_locked
              (host_up (clock_at 0) [codes "docs/arxiv_data.json"]) no_environ
              default_args empty_world 20
              (PermissionError (codes "docs/arxiv_data.json")))
    as (e' & w' & Hmain & Hfiles & Hsame); [reflexivity | reflexivity |].
  rewrite (Hsame
             (codes "Fetching arXiv for query: all:machine learning (max=20)"))
    in Hmain; [by exists w' | reflexivity | reflexivity |].
  intros e0 w1 Hraise. vm_compute in Hraise.
  injection Hraise as <- _. reflexivity.
Defined.

Lemma main_bad_max_results_witness :
  int_of_str (host_up (clock_at 0) []) (codes "ten")
  = Raise (ValueError (codes "ten"))
  /\ main (host_up (clock_at 0) [])
       {| ARXIV_QUERY := None; MAX_RESULTS := Some (codes "ten") |}
       default_args empty_world
     = (Raise (ValueError (codes "ten")), empty_world).
Proof.
  split; [reflexivity|].
  apply (main_bad_max_results (host_up (clock_at 0) [])
           {| ARXIV_QUERY := None; MAX_RESULTS := Some (codes "ten") |}
           default_args empty_world (codes "ten")); reflexivity.
Defined.

Lemma main_end_to_end_witness :
  fetch_url (host_up (clock_from 1700000000) [])
    (main_query no_environ default_args) 20
  = Ok (codes "https://export.arxiv.org/api/query?search_query=all%3Amachine%20learning&start=0&max_results=20&sortBy=lastUpdatedDate&sortOrder=descending")
  /\ forallb paper_encodable (fetch_papers sample_feed) = true
  /\ realpath (host_up (clock_from 1700000000) []) (Args.out default_args)
     <> realpath (host_up (clock_from 1700000000) [])
          (codes "arxiv_data.json")
  /\ exists w',
       main (host_up (clock_from 1700000000) []) no_environ default_args
         empty_world = (Ok tt, w')
       /\ (read_json (host_up (clock_from 1700000000) []) w'
             (codes "docs/arxiv_data.json") ≫= read_result_set)
          = Some (codes "all:machine learning", 1700000000%Z,
                  fetch_papers sample_feed)
       /\ console w'
          = [ codes "Fetching arXiv for query: all:machine learning (max=20)";
              codes "Wrote docs/arxiv_data.json with 2 papers" ].
Proof.
  split; [reflexivity|]. split; [reflexivity|].
  split; [vm_compute; discriminate|].
  destruct (main_end_to_end (host_up (clock_from 1700000000) []) no_environ
              default_args empty_world 20
              (codes "Fetching arXiv for query: all:machine learning (max=20)")
              (codes "Wrote docs/arxiv_data.json with 2 papers")
              (codes "https://export.arxiv.org/api/query?search_query=all%3Amachine%20learning&start=0&max_results=20&sortBy=lastUpdatedDate&sortOrder=descending")
              [] sample_feed)
    as (w' & Hmain & Hread & Hcon & _);
    [reflexivity | reflexivity | reflexivity | reflexivity | reflexivity
    | reflexivity | reflexivity | reflexivity | reflexivity | reflexivity
    | reflexivity | reflexivity | reflexivity
    | intros _; vm_compute; discriminate |].
  exists w'. split; [exact Hmain|]. split; [exact Hread | exact Hcon].
Defined.

Lemma main_uncaught_sources_witness :
  main (host_down URLError) no_environ default_args empty_world
  = (Raise (FileNotFoundError (codes "docs/arxiv_data.json")),
     snd (main (host_down URLError) no_environ default_args empty_world))
  /\ exists e0 w1,
       main_try (host_down URLError) default_args
         (main_query no_environ default_args) 20
         (add_line
            (codes "Fetching arXiv for query: all:machine learning (max=20)")
            empty_world)
       = (Raise e0, w1)
       /\ open_check (host_down URLError) w1 (Args.out default_args)
          = Some (FileNotFoundError (codes "docs/arxiv_data.json")).
Proof.
  assert (main (host_down URLError) no_environ default_args empty_world
          = (Raise (FileNotFoundError (codes "docs/arxiv_data.json")),
             snd (main (host_down URLError) no_environ default_args
                    empty_world))) as Hrun
    by (vm_compute; reflexivity).
  split; [exact Hrun|].
  destruct (main_uncaught_sources _ _ _ _ _ _ Hrun)
    as [[Hmax _]|[(n & _ & Hsame & _)
                 |(n & banner & e0 & w1 & Hn & Hb & _ & Ht & Hsrc)]].
  - discriminate Hmax.
  - vm_compute in Hsame. discriminate Hsame.
  - injection Hn as <-. injection Hb as <-. exists e0, w1.
    split; [exact Ht|].
    destruct Hsrc as [Hs|[Hs|[[rest Hs]|[[_ Hs]|Hs]]]];
      [discriminate Hs | exact Hs | discriminate Hs | | discriminate Hs].
    vm_compute in Ht. injection Ht as <- <-. discriminate Hs.
Defined.
